(** * RaceStory Pro: the column normalizer, the CSV parser and the race analyzer

    A shallow embedding of [src/data_processing/csv_parser.py] and
    [src/analysis/race_analyzer.py], and the properties of the design
    document that concern them.

    Conventions of the embedding.
    - A Python [str] is a Rocq [string]: a sequence of code points below 256.
    - A Python [float] (and a numpy [float64]) is an IEEE-754 binary64 value,
      [spec_float] with the operations of [SpecFloat] at precision 53.
    - A Python [int] is a [Z].
    - An operation that can raise returns [res]: [Ok v] or [Raise e].
    - What pandas and numpy compute behind one call (sorting, summation
      order, file reading, numeric coercion, the text of a number) is a
      field of the class [Library], bundled with the part of its contract
      that the program relies on. *)

From Stdlib Require Import ZArith NArith List Bool Ascii String Lia.
From Stdlib Require Import Permutation Sorted SpecFloat DecimalString.
Import ListNotations.

Set Implicit Arguments.

(* ===================================================================== *)
(** * Exceptions *)
(* ===================================================================== *)

(** The exception classes that the modelled operations raise. All of them
    derive from [Exception]. *)
Inductive exn : Type :=
  | ValueError | TypeError | KeyError | IndexError | OverflowError | OSError.

Definition exn_eqb (a b : exn) : bool :=
  match a, b with
  | ValueError, ValueError | TypeError, TypeError | KeyError, KeyError
  | IndexError, IndexError | OverflowError, OverflowError | OSError, OSError => true
  | _, _ => false
  end.

Inductive res (A : Type) : Type :=
  | Ok (a : A)
  | Raise (e : exn).
Arguments Ok {A} a.
Arguments Raise {A} e.

Definition bind {A B : Type} (m : res A) (k : A -> res B) : res B :=
  match m with
  | Ok a => k a
  | Raise e => Raise e
  end.

Declare Scope res_scope.
Delimit Scope res_scope with res.
Notation "x <- m ;; k" := (bind m (fun x => k))
  (at level 61, m at next level, right associativity) : res_scope.

(** [try: body except (classes): handler]. *)
Definition try_except {A : Type} (body : res A) (classes : list exn)
    (handler : res A) : res A :=
  match body with
  | Ok a => Ok a
  | Raise e => if existsb (exn_eqb e) classes then handler else Raise e
  end.

(** [try: body except Exception: handler]: every class of [exn] is caught. *)
Definition try_except_Exception {A : Type} (body : res A) (handler : res A) : res A :=
  match body with
  | Ok a => Ok a
  | Raise _ => handler
  end.

(** Conversion of a builtin's outcome: [None] is the [ValueError] it raises. *)
Definition or_ValueError {A : Type} (o : option A) : res A :=
  match o with
  | Some a => Ok a
  | None => Raise ValueError
  end.

(* ===================================================================== *)
(** * Text *)
(* ===================================================================== *)

Module Text.

Definition code (c : ascii) : N := N_of_ascii c.

Definition in_range (lo hi : N) (c : ascii) : bool :=
  (lo <=? code c)%N && (code c <=? hi)%N.

(** [str.isspace] on one character: what [str.strip()] removes. *)
Definition is_space (c : ascii) : bool :=
  in_range 9 13 c || in_range 28 32 c || (code c =? 133)%N || (code c =? 160)%N.

Fixpoint lstrip (s : string) : string :=
  match s with
  | String c r => if is_space c then lstrip r else s
  | EmptyString => EmptyString
  end.

Fixpoint rstrip (s : string) : string :=
  match s with
  | String c r =>
      match rstrip r with
      | EmptyString => if is_space c then EmptyString else String c EmptyString
      | r' => String c r'
      end
  | EmptyString => EmptyString
  end.

(** [s.strip()] *)
Definition strip (s : string) : string := rstrip (lstrip s).

(** [c.upper()] for one character. The capitals of U+00B5 and U+00FF lie
    beyond code point 255; these two characters are left in place, which
    changes no comparison with an ASCII name. *)
Definition upper_char (c : ascii) : string :=
  if in_range 97 122 c then String (ascii_of_N (code c - 32)) EmptyString
  else if (code c =? 223)%N then "SS"
  else if in_range 224 254 c && negb (code c =? 247)%N
       then String (ascii_of_N (code c - 32)) EmptyString
  else String c EmptyString.

(** [s.upper()] *)
Fixpoint upper (s : string) : string :=
  match s with
  | String c r => upper_char c ++ upper r
  | EmptyString => EmptyString
  end.

(** [s.startswith(p)] *)
Fixpoint startswith (p s : string) : bool :=
  match p, s with
  | EmptyString, _ => true
  | String a p', String b s' => Ascii.eqb a b && startswith p' s'
  | String _ _, EmptyString => false
  end.

(** [c in s] for a one-character [c]. *)
Fixpoint contains (c : ascii) (s : string) : bool :=
  match s with
  | String d r => Ascii.eqb c d || contains c r
  | EmptyString => false
  end.

(** [s.split(c)] for a one-character separator: never the empty list. *)
Fixpoint split (c : ascii) (s : string) : list string :=
  match s with
  | EmptyString => [EmptyString]
  | String d r =>
      if Ascii.eqb c d then EmptyString :: split c r
      else match split c r with
           | p :: ps => String d p :: ps
           | [] => [String d EmptyString]
           end
  end.

(** [s[1:]] *)
Definition drop1 (s : string) : string :=
  match s with
  | String _ r => r
  | EmptyString => EmptyString
  end.

(** [s < t] on [str]: lexicographic on code points. *)
Fixpoint ltb (s t : string) : bool :=
  match s, t with
  | EmptyString, EmptyString => false
  | EmptyString, String _ _ => true
  | String _ _, EmptyString => false
  | String a s', String b t' =>
      if (code a <? code b)%N then true
      else if (code a =? code b)%N then ltb s' t'
      else false
  end.

End Text.

(* ===================================================================== *)
(** * Numbers *)
(* ===================================================================== *)

Definition float := spec_float.

Module Float.

Definition prec : Z := 53.
Definition emax : Z := 1024.

Definition add : float -> float -> float := SFadd prec emax.
Definition sub : float -> float -> float := SFsub prec emax.
Definition mul : float -> float -> float := SFmul prec emax.
Definition div : float -> float -> float := SFdiv prec emax.
Definition sqrt : float -> float := SFsqrt prec emax.
Definition ltb : float -> float -> bool := SFltb.
Definition leb : float -> float -> bool := SFleb.

Definition nan : float := S754_nan.
Definition is_nan (x : float) : bool :=
  match x with S754_nan => true | _ => false end.
Definition is_inf (x : float) : bool :=
  match x with S754_infinity _ => true | _ => false end.

(** The float nearest to the integer [n] (ties to even): [float(n)]. *)
Definition of_Z (n : Z) : float := binary_normalize prec emax n 0 false.

(** The float nearest to [m * 10^e], of sign [neg]: what a correctly
    rounded decimal-to-binary conversion returns, infinities on overflow. *)
Definition of_decimal (neg : bool) (m : Z) (e : Z) : float :=
  match m with
  | Zpos p =>
      match e with
      | Zneg k => div (S754_finite neg p 0) (S754_finite false (Pos.pow 10 k) 0)
      | _ => binary_normalize prec emax (if neg then - (m * 10 ^ e) else m * 10 ^ e)%Z 0 false
      end
  | _ => S754_zero neg
  end.

(** [int(x)]: truncation toward zero of a finite float. *)
Definition trunc (x : float) : option Z :=
  match x with
  | S754_zero _ => Some 0%Z
  | S754_finite s m e =>
      let a := match e with
               | Zneg k => Z.shiftr (Zpos m) (Zpos k)
               | _ => (Zpos m * 2 ^ e)%Z
               end in
      Some (if s then (- a)%Z else a)
  | _ => None
  end.

End Float.

(** ** [float(s)] and [int(s)] on text *)

Module Parse.

Import Text.

Definition is_digit (c : ascii) : bool := in_range 48 57 c.
Definition digit_val (c : ascii) : Z := Z.of_N (code c) - 48.

(** White space that [float()] and [int()] skip at both ends. *)
Definition is_blank (c : ascii) : bool :=
  in_range 9 13 c || (code c =? 32)%N || (code c =? 133)%N || (code c =? 160)%N.

Fixpoint skip_blank (l : list ascii) : list ascii :=
  match l with
  | c :: r => if is_blank c then skip_blank r else l
  | [] => []
  end.

Definition trim (l : list ascii) : list ascii :=
  rev (skip_blank (rev (skip_blank l))).

(** Underscores may separate digits, one at a time, and nothing else.
    Returns the text without them. *)
Fixpoint drop_underscores (prev : option ascii) (l : list ascii) : option (list ascii) :=
  match l with
  | [] => match prev with
          | Some p => if Ascii.eqb p "_" then None else Some []
          | None => Some []
          end
  | c :: r =>
      let prev_digit := match prev with Some p => is_digit p | None => false end in
      let prev_under := match prev with Some p => Ascii.eqb p "_" | None => false end in
      if Ascii.eqb c "_" then
        if prev_digit then drop_underscores (Some c) r else None
      else if prev_under && negb (is_digit c) then None
      else option_map (cons c) (drop_underscores (Some c) r)
  end.

Definition take_sign (l : list ascii) : bool * list ascii :=
  match l with
  | c :: r => if Ascii.eqb c "-" then (true, r)
              else if Ascii.eqb c "+" then (false, r)
              else (false, l)
  | [] => (false, [])
  end.

(** Reads the longest run of digits: the number read so far, how many
    digits were read, and the rest. *)
Fixpoint take_digits (l : list ascii) (acc : Z) (n : Z) : Z * Z * list ascii :=
  match l with
  | c :: r => if is_digit c then take_digits r (10 * acc + digit_val c)%Z (n + 1)%Z
              else (acc, n, l)
  | [] => (acc, n, [])
  end.

(** The exponent part [e[+-]digits], when there is one with a digit. *)
Definition take_exponent (l : list ascii) : Z * list ascii :=
  match l with
  | c :: r =>
      if Ascii.eqb c "e" || Ascii.eqb c "E" then
        let (eneg, r1) := take_sign r in
        let '(ev, en, r2) := take_digits r1 0%Z 0%Z in
        if (en =? 0)%Z then (0%Z, l) else ((if eneg then - ev else ev)%Z, r2)
      else (0%Z, l)
  | [] => (0%Z, [])
  end.

(** A decimal literal: [[sign] digits [. digits] [exponent]] with a digit
    in the mantissa, and nothing after it. *)
Definition decimal (l : list ascii) : option float :=
  let (neg, l1) := take_sign l in
  let '(m1, n1, l2) := take_digits l1 0%Z 0%Z in
  let '(m, n2, l3) :=
    match l2 with
    | c :: r => if Ascii.eqb c "." then take_digits r m1 0%Z else (m1, 0%Z, l2)
    | [] => (m1, 0%Z, l2)
    end in
  if (n1 + n2 =? 0)%Z then None
  else
    let (ex, l4) := take_exponent l3 in
    match l4 with
    | [] => Some (Float.of_decimal neg m (ex - n2))
    | _ => None
    end.

Definition lower_char (c : ascii) : ascii :=
  if in_range 65 90 c then ascii_of_N (code c + 32) else c.

(** [inf], [infinity] and [nan], in any case, with an optional sign. *)
Definition inf_or_nan (l : list ascii) : option float :=
  let (neg, r) := take_sign l in
  let w := string_of_list_ascii (map lower_char r) in
  if String.eqb w "inf" || String.eqb w "infinity" then Some (S754_infinity neg)
  else if String.eqb w "nan" then Some S754_nan
  else None.

(** [float(s)] for a [str]; [None] is [ValueError]. *)
Definition py_float (s : string) : option float :=
  match drop_underscores None (trim (list_ascii_of_string s)) with
  | None => None
  | Some l =>
      match decimal l with
      | Some x => Some x
      | None => inf_or_nan l
      end
  end.

(** [int(s)] for a [str], base ten; [None] is [ValueError]. (The optional
    cap of CPython on the number of digits is not modelled.) *)
Definition py_int (s : string) : option Z :=
  match drop_underscores None (trim (list_ascii_of_string s)) with
  | None => None
  | Some l =>
      let (neg, l1) := take_sign l in
      let '(m, n, l2) := take_digits l1 0%Z 0%Z in
      match l2 with
      | [] => if (n =? 0)%Z then None else Some (if neg then - m else m)%Z
      | _ => None
      end
  end.

End Parse.

(* ===================================================================== *)
(** * Tables *)
(* ===================================================================== *)

Open Scope string_scope.
Open Scope list_scope.

(** A cell of a table: text, an integer, a float ([NaN] is the missing
    cell) or a boolean. *)
Inductive value : Type :=
  | VStr (s : string)
  | VInt (n : Z)
  | VFloat (x : float)
  | VBool (b : bool).

Definition NaN : value := VFloat Float.nan.

(** [pd.notna(v)] *)
Definition notna (v : value) : bool :=
  match v with
  | VFloat x => negb (Float.is_nan x)
  | _ => true
  end.

(** [bool(v)] *)
Definition truthy (v : value) : bool :=
  match v with
  | VStr s => negb (String.eqb s "")
  | VInt n => negb (n =? 0)%Z
  | VFloat (S754_zero _) => false
  | VFloat _ => true
  | VBool b => b
  end.

(** [a or b] *)
Definition py_or (a b : value) : value := if truthy a then a else b.

(** [int(v)] *)
Definition py_int (v : value) : res Z :=
  match v with
  | VStr s => or_ValueError (Parse.py_int s)
  | VInt n => Ok n
  | VBool b => Ok (if b then 1 else 0)%Z
  | VFloat x =>
      if Float.is_nan x then Raise ValueError
      else if Float.is_inf x then Raise OverflowError
      else match Float.trunc x with
           | Some n => Ok n
           | None => Raise ValueError
           end
  end.

(** A [DataFrame] with the default index [0, 1, 2, ...]: the column labels
    and the rows, each row holding one cell per column. *)
Record DataFrame : Type := {
  columns : list string;
  rows : list (list value)
}.

(** [pd.DataFrame()] *)
Definition empty_frame : DataFrame := {| columns := []; rows := [] |}.

(** [df.empty]: no row or no column. *)
Definition empty (df : DataFrame) : bool :=
  match columns df, rows df with
  | [], _ | _, [] => true
  | _, _ => false
  end.

(** [len(df)] *)
Definition len (df : DataFrame) : Z := Z.of_nat (List.length (rows df)).

(** [c in df.columns] *)
Definition has_column (c : string) (df : DataFrame) : bool :=
  existsb (String.eqb c) (columns df).

Fixpoint NoDupb (l : list string) : bool :=
  match l with
  | [] => true
  | x :: r => negb (existsb (String.eqb x) r) && NoDupb r
  end.

(** The tables on which label lookup is by one label, one cell: the labels
    are pairwise distinct and every row has a cell for each of them. *)
Definition frame_ok (df : DataFrame) : bool :=
  NoDupb (columns df) &&
  forallb (fun r => (List.length r =? List.length (columns df))%nat) (rows df).

(** A row as [iterrows] and [iloc] hand it out: a [Series] indexed by the
    column labels. *)
Definition Series : Type := list (string * value).

Definition series_of (df : DataFrame) (r : list value) : Series :=
  combine (columns df) r.

Fixpoint lookup (k : string) (row : Series) : option value :=
  match row with
  | [] => None
  | (c, v) :: r => if String.eqb k c then Some v else lookup k r
  end.

(** [k in row] *)
Definition series_has (k : string) (row : Series) : bool :=
  match lookup k row with Some _ => true | None => false end.

(** [row.get(k, default)] *)
Definition get (row : Series) (k : string) (default : value) : value :=
  match lookup k row with Some v => v | None => default end.

(** [row[k]] *)
Definition item (row : Series) (k : string) : res value :=
  match lookup k row with Some v => Ok v | None => Raise KeyError end.

(** [enumerate]-like pairing of the rows with their index label. *)
Fixpoint indexed {A : Type} (i : Z) (l : list A) : list (Z * A) :=
  match l with
  | [] => []
  | x :: r => (i, x) :: indexed (i + 1) r
  end.

(** The type of a column is read off its cells: [int64] when they are all
    integers of that range, [float64] when they are all floats, and
    [object] or [bool] otherwise. *)
Definition int64_cell (v : value) : bool :=
  match v with
  | VInt n => (- 2 ^ 63 <=? n)%Z && (n <? 2 ^ 63)%Z
  | _ => false
  end.

Definition float64_cell (v : value) : bool :=
  match v with VFloat _ => true | _ => false end.

(** The cells of the column at position [j]. *)
Definition cells_at (j : nat) (df : DataFrame) : list value :=
  map (fun r => nth j r NaN) (rows df).

(** Every column is an [int64] or a [float64] column and one of them is a
    [float64] column: the common type of the columns is [float64]. *)
Definition all_numeric (df : DataFrame) : bool :=
  let js := seq 0 (List.length (columns df)) in
  forallb (fun j => forallb int64_cell (cells_at j df)
                    || forallb float64_cell (cells_at j df)) js
  && existsb (fun j => forallb float64_cell (cells_at j df)) js.

(** The conversion of an integer cell to [float64]. *)
Definition widen (v : value) : value :=
  match v with
  | VInt n => VFloat (Float.of_Z n)
  | _ => v
  end.

(** [df.values]: the rows as one array of the common type of the columns.
    [iterrows] and [iloc] cut their rows out of it, so on a table of integer
    and float columns they hand out every integer cell as a float. *)
Definition values (df : DataFrame) : list (list value) :=
  if all_numeric df then map (map widen) (rows df) else rows df.

(** [df.iterrows()] *)
Definition iterrows (df : DataFrame) : list (Z * Series) :=
  indexed 0 (map (series_of df) (values df)).

(** [df[c]]: the cells of column [c], top to bottom. *)
Definition column (c : string) (df : DataFrame) : list value :=
  map (fun r => get (series_of df r) c NaN) (rows df).

(** One row with the cells under label [c] replaced by [v]. *)
Fixpoint set_cells (c : string) (v : value) (cols : list string) (r : list value)
    : list value :=
  match cols, r with
  | k :: cols', x :: r' => (if String.eqb c k then v else x) :: set_cells c v cols' r'
  | _, _ => r
  end.

(** [df[c] = vals]: overwrites the column [c], or appends it. *)
Definition set_column (c : string) (vals : list value) (df : DataFrame) : DataFrame :=
  if has_column c df then
    {| columns := columns df;
       rows := map (fun rv => set_cells c (snd rv) (columns df) (fst rv))
                   (combine (rows df) vals) |}
  else
    {| columns := columns df ++ [c];
       rows := map (fun rv => fst rv ++ [snd rv]) (combine (rows df) vals) |}.

Definition count_label (c : string) (df : DataFrame) : nat :=
  List.length (filter (String.eqb c) (columns df)).

(* ===================================================================== *)
(** * The libraries *)
(* ===================================================================== *)

(** Order of two cells of one kind, as [<] of Python gives it. *)
Definition value_ltb (a b : value) : bool :=
  match a, b with
  | VStr s, VStr t => Text.ltb s t
  | VFloat x, VFloat y => Float.ltb x y
  | _, _ => false
  end.

(** [a] has to come before [b] in a sort with [na_position='last']. *)
Definition must_precede (ascending : bool) (a b : value) : bool :=
  notna a &&
  (negb (notna b) || (if ascending then value_ltb a b else value_ltb b a)).

Definition is_text_or_missing (v : value) : bool :=
  match v with
  | VStr _ => true
  | VFloat x => Float.is_nan x
  | _ => false
  end.

Definition is_float (v : value) : bool :=
  match v with VFloat _ => true | _ => false end.

(** Keys of one kind: a text column with missing cells, or floats. *)
Definition sortable (ks : list value) : bool :=
  forallb is_text_or_missing ks || forallb is_float ks.

Definition in_order (ascending : bool) (ks : list value) : Prop :=
  StronglySorted (fun a b => must_precede ascending b a = false) ks.

Definition pick (ks : list value) (p : list nat) : list value :=
  map (fun i => nth i ks NaN) p.

(** What the program takes from pandas, numpy and the file system.
    - [scalar_str v]: [str(v)] for a cell that is not text;
    - [np_sum]: [np.add.reduce] over a one-dimensional float64 array;
    - [sort_values asc ks]: the row order that [sort_values] gives for the
      key column [ks] with the default [kind] and [na_position]; the default
      sort is not a stable one, so nothing is said on the order of equal keys;
    - [series_mean]: [Series.mean()];
    - [read_csv path delimiter]: [pd.read_csv] with [encoding='utf-8'];
    - [to_numeric], [to_datetime]: [pd.to_numeric(col, errors='coerce')] and
      [pd.to_datetime(col, unit='s', errors='coerce')] on one column. The
      cells of the derived time stamps are inspected by none of the modelled
      operations and are kept as the values this field returns. *)
Class Library : Type := {
  scalar_str : value -> string;
  np_sum : list float -> float;
  sort_values : bool -> list value -> res (list nat);
  series_mean : list value -> res value;
  read_csv : string -> string -> res DataFrame;
  to_numeric : list value -> list value;
  to_datetime : list value -> list value;
  sort_values_total : forall asc ks,
    sortable ks = true -> exists p, sort_values asc ks = Ok p;
  sort_values_perm : forall asc ks p,
    sort_values asc ks = Ok p -> Permutation p (seq 0 (List.length ks));
  sort_values_sorted : forall asc ks p,
    sortable ks = true -> sort_values asc ks = Ok p -> in_order asc (pick ks p);
  to_numeric_length : forall c, List.length (to_numeric c) = List.length c;
  to_datetime_length : forall c, List.length (to_datetime c) = List.length c
}.

Section WithLibrary.

Context {L : Library}.

(** [str(v)] *)
Definition py_str (v : value) : string :=
  match v with
  | VStr s => s
  | _ => scalar_str v
  end.

End WithLibrary.

(* ===================================================================== *)
(** * The object store *)
(* ===================================================================== *)

(** A [DataFrame] is a mutable object and a variable holds a reference to
    it. The store lists the live objects; a reference is a position. *)
Definition ref : Type := nat.
Definition heap : Type := list DataFrame.

Definition deref (h : heap) (r : ref) : DataFrame := nth r h empty_frame.

Fixpoint assign (h : heap) (r : ref) (df : DataFrame) : heap :=
  match h, r with
  | [], _ => []
  | _ :: t, O => df :: t
  | x :: t, S r' => x :: assign t r' df
  end.

Definition alloc (h : heap) (df : DataFrame) : heap * ref :=
  (h ++ [df], List.length h).

(* ===================================================================== *)
(** * csv_parser.py *)
(* ===================================================================== *)

Module CSVParser.

(** [self.column_mappings], in the order the dictionary literal declares
    its keys, which is the order [items()] iterates in. *)
Definition column_mappings : list (string * list string) :=
  [ ("position", ["POS"; "POSITION"; "P"; "RANK"]);
    ("number", ["NUMBER"; "CAR"; "CAR_NUMBER"; "#"]);
    ("driver", ["DRIVER"; "DRIVER_NAME"; "NAME"]);
    ("driver_first", ["DRIVER_FIRSTNAME"; "FIRST_NAME"; "FIRSTNAME"]);
    ("driver_last", ["DRIVER_SECONDNAME"; "LAST_NAME"; "SURNAME"; "LASTNAME"]);
    ("team", ["TEAM"; "TEAM_NAME"; "CONSTRUCTOR"]);
    ("laps", ["LAPS"; "TOTAL_LAPS"; "LAPS_COMPLETED"]);
    ("time", ["ELAPSED"; "TIME"; "TOTAL_TIME"]);
    ("gap", ["GAP_FIRST"; "GAP"; "INTERVAL"]);
    ("gap_prev", ["GAP_PREVIOUS"; "GAP_PREV"; "BEHIND"]);
    ("best_lap", ["BEST_LAP_TIME"; "BEST_LAP"; "FASTEST_LAP"]);
    ("best_lap_num", ["BEST_LAP_NUM"; "BEST_LAP_NUMBER"; "FL_LAP"]);
    ("best_lap_speed", ["BEST_LAP_KPH"; "BEST_LAP_MPH"; "FL_SPEED"]);
    ("status", ["STATUS"; "CLASS_TYPE"; "CLASSIFICATION"]);
    ("class", ["CLASS_TYPE"; "CLASS"; "CATEGORY"]);
    ("vehicle", ["VEHICLE"; "CAR_MODEL"; "MODEL"]) ].

(** A [dict] from column labels to canonical names. *)
Definition dict : Type := list (string * string).

Fixpoint dict_set (k v : string) (d : dict) : dict :=
  match d with
  | [] => [(k, v)]
  | (k', v') :: r => if String.eqb k k' then (k, v) :: r else (k', v') :: dict_set k v r
  end.

Fixpoint dict_get (k : string) (d : dict) : option string :=
  match d with
  | [] => None
  | (k', v) :: r => if String.eqb k k' then Some v else dict_get k r
  end.

(** [col_upper in [v.upper() for v in variants]] *)
Definition matches (col_upper : string) (variants : list string) : bool :=
  existsb (String.eqb col_upper) (map Text.upper variants).

(** The inner loop of [normalize_columns] over [column_mappings.items()]:
    the canonical name chosen for a column, when an alias matches; the
    loop leaves at the first field that has one. *)
Fixpoint first_match (col_upper : string) (items : list (string * list string))
    : option string :=
  match items with
  | [] => None
  | (standard_name, variants) :: rest =>
      if matches col_upper variants then Some (Text.upper standard_name)
      else first_match col_upper rest
  end.

(** The outer loop: fills [normalized], column after column. *)
Definition build_normalized (cols : list string) : dict :=
  fold_left
    (fun normalized col =>
       match first_match (Text.upper col) column_mappings with
       | Some standard => dict_set col standard normalized
       | None => normalized
       end)
    cols [].

(** [df.rename(columns=normalized)]: a new table. *)
Definition rename (normalized : dict) (df : DataFrame) : DataFrame :=
  {| columns := map (fun c => match dict_get c normalized with
                              | Some n => n
                              | None => c
                              end) (columns df);
     rows := rows df |}.

(** [df.columns = df.columns.str.strip()]: an assignment to the object
    that [df] refers to. *)
Definition strip_columns (h : heap) (df : ref) : heap :=
  let d := deref h df in
  assign h df {| columns := map Text.strip (columns d); rows := rows d |}.

(** [normalize_columns(df)]: the store after the call and the reference
    that is returned. *)
Definition normalize_columns (h : heap) (df : ref) : heap * ref :=
  let h1 := strip_columns h df in
  let normalized := build_normalized (columns (deref h1 df)) in
  match normalized with
  | [] => (h1, df)
  | _ :: _ => alloc h1 (rename normalized (deref h1 df))
  end.

(** The table that a call returns. *)
Definition normalized_frame (df : DataFrame) : DataFrame :=
  let (h, r) := normalize_columns [df] 0 in deref h r.

Section Parsing.

Context {L : Library}.

(** [df[c] = pd.to_numeric(df[c], errors='coerce')]. With two columns
    labelled [c], [df[c]] is a table and [to_numeric] raises. *)
Definition coerce_numeric (c : string) (df : DataFrame) : res DataFrame :=
  if (1 <? count_label c df)%nat then Raise TypeError
  else Ok (set_column c (to_numeric (column c df)) df).

(** [for col in numeric_cols: if col in df.columns: df[col] = to_numeric(...)] *)
Fixpoint coerce_all (numeric_cols : list string) (df : DataFrame) : res DataFrame :=
  match numeric_cols with
  | [] => Ok df
  | col :: rest =>
      (df' <- (if has_column col df then coerce_numeric col df else Ok df) ;;
       coerce_all rest df')%res
  end.

(** The first two steps of every entry point: read, then normalize. The
    table that is read is a fresh object, alone in its store. *)
Definition read_normalized (file_path delimiter : string) : res DataFrame :=
  (df <- read_csv file_path delimiter ;;
   Ok (normalized_frame df))%res.

Definition parse_race_results (file_path delimiter : string) : res DataFrame :=
  try_except_Exception
    (df <- read_normalized file_path delimiter ;;
     coerce_all ["POSITION"; "NUMBER"; "LAPS"] df)%res
    (Ok empty_frame).

Definition parse_weather_data (file_path delimiter : string) : res DataFrame :=
  try_except_Exception
    (df <- read_normalized file_path delimiter ;;
     df <- (if has_column "TIME_UTC_SECONDS" df then
              (df1 <- coerce_numeric "TIME_UTC_SECONDS" df ;;
               Ok (set_column "timestamp"
                     (to_datetime (column "TIME_UTC_SECONDS" df1)) df1))
            else Ok df) ;;
     coerce_all ["AIR_TEMP"; "TRACK_TEMP"; "HUMIDITY"; "PRESSURE";
                 "WIND_SPEED"; "WIND_DIRECTION"; "RAIN"] df)%res
    (Ok empty_frame).

Definition parse_lap_times (file_path delimiter : string) : res DataFrame :=
  try_except_Exception
    (df <- read_normalized file_path delimiter ;;
     if has_column "NUMBER" df then coerce_numeric "NUMBER" df else Ok df)%res
    (Ok empty_frame).

Definition parse_best_laps (file_path delimiter : string) : res DataFrame :=
  try_except_Exception
    (df <- read_normalized file_path delimiter ;;
     coerce_all ["NUMBER"; "TOTAL_DRIVER_LAPS"] df)%res
    (Ok empty_frame).

End Parsing.

End CSVParser.

(* ===================================================================== *)
(** * race_analyzer.py *)
(* ===================================================================== *)

(** The dictionaries that the analyzer builds, one record per shape. *)

Module Battle.
Record t : Type := {
  position : value;
  driver : value;
  car_number : value;
  gap : float;
  classification : string
}.
End Battle.

Module Consistency.
Record t : Type := {
  driver : string;
  car_number : value;
  team : value;
  best_lap : float;
  average_lap : float;
  std_dev : float;
  consistency_score : float
}.
End Consistency.

Module Change.
Record t : Type := {
  driver : string;
  car_number : value;
  start_position : Z;
  finish_position : Z;
  positions_gained : Z
}.
End Change.

Module Progression.
Record t : Type := {
  total_finishers : Z;
  total_classified : Z;
  dnf_count : Z;
  average_laps : value;
  position_changes : list Change.t
}.
End Progression.

Module Summary.
Record entry : Type := {
  driver : value;
  car_number : value;
  team : value;
  laps : value
}.
Record lap : Type := {
  lap_driver : value;
  time : value;
  lap_number : value;
  speed : value
}.
Record t : Type := {
  winner : option entry;
  pole_position : option entry;
  fastest_lap : option lap;
  total_finishers : Z;
  close_battles : list Battle.t;
  top_performers : list entry
}.
End Summary.

Module RaceAnalyzer.

(** [for x in l: s = body(s, x)], leaving at the first exception. *)
Fixpoint for_each {A S : Type} (body : S -> A -> res S) (l : list A) (s : S) : res S :=
  match l with
  | [] => Ok s
  | x :: r => (s' <- body s x ;; for_each body r s')%res
  end.

(** The rows [l] in the order [p] of their positions. *)
Definition reorder {A : Type} (l : list A) (p : list nat) : list A :=
  flat_map (fun i => match nth_error l i with Some x => [x] | None => [] end) p.

(** [min(l)] on a list of floats. *)
Definition py_min (l : list float) : res float :=
  match l with
  | [] => Raise ValueError
  | x :: r => Ok (fold_left (fun m y => if Float.ltb y m then y else m) r x)
  end.

(** [str(i)] for the loop counter. *)
Definition str_of_nat (i : nat) : string := NilEmpty.string_of_uint (Nat.to_uint i).

(** [l.sort(key=..., reverse=True)] on the position changes: the sort of
    Python is stable, also in reverse. *)
Fixpoint insert_desc (x : Change.t) (l : list Change.t) : list Change.t :=
  match l with
  | [] => [x]
  | y :: r =>
      if (Change.positions_gained y <=? Change.positions_gained x)%Z then x :: l
      else y :: insert_desc x r
  end.

Definition sort_desc (l : list Change.t) : list Change.t :=
  fold_right insert_desc [] l.

Definition f60 : float := Float.of_Z 60.
Definition f1 : float := Float.of_Z 1.
Definition f5 : float := Float.of_decimal false 50 (-1).
Definition f0_001 : float := Float.of_decimal false 1 (-3).

Section Analysis.

Context {L : Library}.

(** [f"{a} {b}"] *)
Definition fmt2 (a b : value) : string := (py_str a ++ " " ++ py_str b)%string.

(** The driver name of a row, as [identify_key_battles] and
    [generate_race_summary] compute it before the final [or 'Unknown']. *)
Definition driver_name (row : Series) : value :=
  let name := get row "DRIVER" (VStr "") in
  if negb (truthy name) then
    VStr (Text.strip (fmt2 (get row "DRIVER_FIRST" (VStr "")) (get row "DRIVER_LAST" (VStr ""))))
  else name.

(** ** identify_key_battles *)

(** The body of the [try] for one row; [battles] is the list so far. *)
Definition battle_try (gap_threshold : float) (battles : list Battle.t)
    (idx : Z) (row : Series) : res (list Battle.t) :=
  let gap_str := py_str (get row "GAP_PREV" (VStr "")) in
  if Text.startswith "+" gap_str then
    (gap <- or_ValueError (Parse.py_float (Text.drop1 gap_str)) ;;
     if Float.leb gap gap_threshold then
       Ok (battles ++
           [ {| Battle.position := get row "POSITION" (VInt (idx + 1));
                Battle.driver := py_or (driver_name row) (VStr "Unknown");
                Battle.car_number := get row "NUMBER" (VStr "N/A");
                Battle.gap := gap;
                Battle.classification := "Close Battle" |} ])
     else Ok battles)%res
  else Ok battles.

Definition battle_step (gap_threshold : float) (battles : list Battle.t)
    (ir : Z * Series) : res (list Battle.t) :=
  let (idx, row) := ir in
  if (idx =? 0)%Z then Ok battles
  else try_except (battle_try gap_threshold battles idx row)
         [ValueError; TypeError] (Ok battles).

Definition identify_key_battles (results_df : DataFrame) (gap_threshold : float)
    : res (list Battle.t) :=
  if empty results_df || negb (has_column "GAP_PREV" results_df) then Ok []
  else for_each (battle_step gap_threshold) (iterrows results_df) [].

(** ** analyze_fastest_laps *)

Definition fl_columns : list string :=
  ["POSITION"; "NUMBER"; "DRIVER_FIRSTNAME"; "DRIVER_SECONDNAME";
   "FL_TIME"; "FL_LAPNUM"; "FL_KPH"; "TEAM"].

(** [df[[c1, ..., cn]].copy()]: [KeyError] when a label is not a column. *)
Definition select (cols : list string) (df : DataFrame) : res DataFrame :=
  if forallb (fun c => has_column c df) cols then
    Ok {| columns := cols;
          rows := map (fun r => map (fun c => get (series_of df r) c NaN) cols) (rows df) |}
  else Raise KeyError.

(** [df.sort_values(by)] (ascending, or not). *)
Definition sort_frame (by_ : string) (ascending : bool) (df : DataFrame) : res DataFrame :=
  (p <- sort_values ascending (column by_ df) ;;
   Ok {| columns := columns df; rows := reorder (rows df) p |})%res.

(** [range(1, n + 1)] as cells. *)
Definition ranks (n : nat) : list value :=
  map (fun i => VInt (Z.of_nat i)) (seq 1 n).

Definition analyze_fastest_laps (results_df : DataFrame) : res DataFrame :=
  if empty results_df || negb (has_column "FL_TIME" results_df) then Ok empty_frame
  else
    (fl_df <- select fl_columns results_df ;;
     fl_df <- sort_frame "FL_TIME" true fl_df ;;
     Ok (set_column "FL_RANK" (ranks (List.length (rows fl_df))) fl_df))%res.

(** ** calculate_consistency *)

(** [parts[i]] *)
Definition index {A : Type} (l : list A) (i : nat) : res A :=
  match nth_error l i with Some x => Ok x | None => Raise IndexError end.

(** The body of the [try] for one cell: the seconds to append, if any. *)
Definition lap_try (time_str : string) : res (option float) :=
  if Text.contains ":" time_str then
    let parts := Text.split ":" time_str in
    (p0 <- index parts 0 ;;
     minutes <- or_ValueError (Parse.py_float p0) ;;
     p1 <- index parts 1 ;;
     secs <- or_ValueError (Parse.py_float p1) ;;
     Ok (Some (Float.add (Float.mul minutes f60) secs)))%res
  else Ok None.

(** One pass of [for i in range(1, 11)]. *)
Definition lap_step (row : Series) (lap_times : list float) (i : nat) : res (list float) :=
  let lap_col := ("BESTLAP_" ++ str_of_nat i)%string in
  if series_has lap_col row && notna (get row lap_col NaN) then
    try_except
      (s <- lap_try (py_str (get row lap_col NaN)) ;;
       Ok (match s with Some x => lap_times ++ [x] | None => lap_times end))%res
      [ValueError; IndexError] (Ok lap_times)
  else Ok lap_times.

Definition lap_times_of (row : Series) : res (list float) :=
  for_each (lap_step row) (seq 1 10) [].

(** [np.mean] and [np.std] (population form: [ddof=0]) on a list. *)
Definition np_mean (l : list float) : float :=
  Float.div (np_sum l) (Float.of_Z (Z.of_nat (List.length l))).

Definition np_std (l : list float) : float :=
  let arrmean := np_mean l in
  let x := map (fun a => let d := Float.sub a arrmean in Float.mul d d) l in
  Float.sqrt (Float.div (np_sum x) (Float.of_Z (Z.of_nat (List.length l)))).

Definition consistency_step (data : list Consistency.t) (ir : Z * Series)
    : res (list Consistency.t) :=
  let (idx, row) := ir in
  (lap_times <- lap_times_of row ;;
   if (3 <=? List.length lap_times)%nat then
     (number <- item row "NUMBER" ;;
      best <- py_min lap_times ;;
      Ok (data ++
          [ {| Consistency.driver :=
                 fmt2 (get row "FIRSTNAME" (VStr "")) (get row "SECONDNAME" (VStr ""));
               Consistency.car_number := number;
               Consistency.team := get row "TEAM" (VStr "");
               Consistency.best_lap := best;
               Consistency.average_lap := np_mean lap_times;
               Consistency.std_dev := np_std lap_times;
               Consistency.consistency_score :=
                 Float.div f1 (Float.add (np_std lap_times) f0_001) |} ]))
   else Ok data)%res.

(** The rows of the returned table; the empty list stands for
    [pd.DataFrame()]. *)
Definition calculate_consistency (best_laps_df : DataFrame) : res (list Consistency.t) :=
  if empty best_laps_df then Ok []
  else
    (consistency_data <- for_each consistency_step (iterrows best_laps_df) [] ;;
     match consistency_data with
     | [] => Ok []
     | _ :: _ =>
         p <- sort_values false
                (map (fun c => VFloat (Consistency.consistency_score c)) consistency_data) ;;
         Ok (reorder consistency_data p)
     end)%res.

(** ** get_position_changes *)

Definition change_try (grid_position_col : string) (changes : list Change.t)
    (row : Series) : res (list Change.t) :=
  (g <- item row grid_position_col ;;
   start_pos <- py_int g ;;
   f <- item row "POSITION" ;;
   finish_pos <- py_int f ;;
   let change := (start_pos - finish_pos)%Z in
   number <- item row "NUMBER" ;;
   Ok (changes ++
       [ {| Change.driver :=
              fmt2 (get row "DRIVER_FIRSTNAME" (VStr "")) (get row "DRIVER_SECONDNAME" (VStr ""));
            Change.car_number := number;
            Change.start_position := start_pos;
            Change.finish_position := finish_pos;
            Change.positions_gained := change |} ]))%res.

Definition change_step (grid_position_col : string) (changes : list Change.t)
    (ir : Z * Series) : res (list Change.t) :=
  try_except (change_try grid_position_col changes (snd ir))
    [ValueError; KeyError] (Ok changes).

Definition get_position_changes (results_df : DataFrame) (grid_position_col : string)
    : res (list Change.t) :=
  if empty results_df || negb (has_column grid_position_col results_df) then Ok []
  else
    (changes <- for_each (change_step grid_position_col) (iterrows results_df) [] ;;
     Ok (sort_desc changes))%res.

(** ** analyze_race_progression *)

Definition default_progression : Progression.t :=
  {| Progression.total_finishers := 0;
     Progression.total_classified := 0;
     Progression.dnf_count := 0;
     Progression.average_laps := VInt 0;
     Progression.position_changes := [] |}.

Definition is_classified (v : value) : bool :=
  match v with VStr s => String.eqb s "Classified" | _ => false end.

Definition analyze_race_progression (results_df : DataFrame) : res Progression.t :=
  if empty results_df then Ok default_progression
  else
    let total := len results_df in
    (_ <- (if has_column "STATUS" results_df then Ok tt else Raise KeyError) ;;
     let classified :=
       Z.of_nat (List.length (filter is_classified (column "STATUS" results_df))) in
     average <- (if has_column "LAPS" results_df
                 then series_mean (column "LAPS" results_df)
                 else Ok (VInt 0)) ;;
     Ok {| Progression.total_finishers := total;
           Progression.total_classified := classified;
           Progression.dnf_count := total - classified;
           Progression.average_laps := average;
           Progression.position_changes := [] |})%res.

(** ** generate_race_summary *)

Definition default_summary : Summary.t :=
  {| Summary.winner := None;
     Summary.pole_position := None;
     Summary.fastest_lap := None;
     Summary.total_finishers := 0;
     Summary.close_battles := [];
     Summary.top_performers := [] |}.

(** [race_data.get(k)] on the dictionary of tables. *)
Fixpoint table (k : string) (race_data : list (string * DataFrame)) : option DataFrame :=
  match race_data with
  | [] => None
  | (k', df) :: r => if String.eqb k k' then Some df else table k r
  end.

(** [df.iloc[0]] *)
Definition first_row (df : DataFrame) : option Series :=
  match values df with
  | r :: _ => Some (series_of df r)
  | [] => None
  end.

Definition winner_of (row : Series) : Summary.entry :=
  {| Summary.driver := py_or (driver_name row) (VStr "Unknown");
     Summary.car_number := get row "NUMBER" (VStr "N/A");
     Summary.team := get row "TEAM" (VStr "N/A");
     Summary.laps := get row "LAPS" (VInt 0) |}.

Definition fastest_of (row : Series) : Summary.lap :=
  {| Summary.lap_driver := py_or (driver_name row) (VStr "Unknown");
     Summary.time := get row "FL_TIME" (get row "BEST_LAP" (VStr "N/A"));
     Summary.lap_number := get row "FL_LAPNUM" (get row "BEST_LAP_NUM" (VStr ""));
     Summary.speed := get row "FL_KPH" (get row "BEST_LAP_SPEED" (VStr "")) |}.

Definition generate_race_summary (race_data : list (string * DataFrame)) : res Summary.t :=
  match table "results" race_data with
  | None => Ok default_summary
  | Some results_df =>
      if empty results_df then Ok default_summary
      else
        (fl_df <- analyze_fastest_laps results_df ;;
         battles <- identify_key_battles results_df f5 ;;
         Ok {| Summary.winner := option_map winner_of (first_row results_df);
               Summary.pole_position := None;
               Summary.fastest_lap :=
                 if empty fl_df then None else option_map fastest_of (first_row fl_df);
               Summary.total_finishers := len results_df;
               Summary.close_battles := battles;
               Summary.top_performers := [] |})%res
  end.

End Analysis.

End RaceAnalyzer.

(* ===================================================================== *)
(** * An implementation of the libraries *)
(* ===================================================================== *)

(** One implementation of [Library], on which the definitions above run:
    an insertion sort, a left-to-right sum, and a file system given as a
    list of files that are already split into cells. *)

Unset Implicit Arguments.

Module Model.

(** ** The order of keys *)

Lemma text_ltb_asym (s t : string) : Text.ltb s t = true -> Text.ltb t s = false.
Proof.
  revert t. induction s as [|a s IH]; intros [|b t]; simpl; try congruence.
  destruct (N.ltb_spec (Text.code a) (Text.code b)) as [Hab|Hab].
  - intros _. destruct (N.ltb_spec (Text.code b) (Text.code a)); [lia|].
    destruct (N.eqb_spec (Text.code b) (Text.code a)); [lia|reflexivity].
  - destruct (N.eqb_spec (Text.code a) (Text.code b)) as [E|E]; [|congruence].
    intros H. rewrite E, N.ltb_irrefl, N.eqb_refl. now apply IH.
Qed.

Lemma text_leb_trans (a b c : string) :
  Text.ltb b a = false -> Text.ltb c b = false -> Text.ltb c a = false.
Proof.
  revert b c. induction a as [|x a IH]; intros [|y b] [|z c]; simpl; try congruence.
  destruct (N.ltb_spec (Text.code y) (Text.code x)); [congruence|].
  destruct (N.ltb_spec (Text.code z) (Text.code y)); [congruence|].
  destruct (N.ltb_spec (Text.code z) (Text.code x)); [lia|].
  destruct (N.eqb_spec (Text.code y) (Text.code x));
    destruct (N.eqb_spec (Text.code z) (Text.code y));
    destruct (N.eqb_spec (Text.code z) (Text.code x)); try lia; try congruence.
  apply IH.
Qed.

Ltac order_cases :=
  repeat match goal with
  | |- context [Pos.compare_cont Eq ?a ?b] =>
      change (Pos.compare_cont Eq a b) with (Pos.compare a b)
  | H : context [Pos.compare_cont Eq ?a ?b] |- _ =>
      change (Pos.compare_cont Eq a b) with (Pos.compare a b) in H
  | |- context [Z.compare ?a ?b] => destruct (Z.compare_spec a b)
  | |- context [Pos.compare ?a ?b] => destruct (Pos.compare_spec a b)
  | H : context [Z.compare ?a ?b] |- _ => destruct (Z.compare_spec a b)
  | H : context [Pos.compare ?a ?b] |- _ => destruct (Pos.compare_spec a b)
  end; simpl in *; try congruence; try lia.

Lemma float_ltb_asym (x y : float) : Float.ltb x y = true -> Float.ltb y x = false.
Proof.
  unfold Float.ltb, SFltb.
  destruct x as [sx|sx| |sx mx ex], y as [sy|sy| |sy my ey]; simpl;
    try congruence;
    try (destruct sx; simpl; congruence);
    try (destruct sy; simpl; congruence);
    try (destruct sx, sy; simpl; congruence).
  destruct sx, sy; simpl; try congruence; order_cases.
Qed.

Lemma float_leb_trans (a b c : float) :
  Float.is_nan a = false -> Float.is_nan b = false -> Float.is_nan c = false ->
  Float.ltb b a = false -> Float.ltb c b = false -> Float.ltb c a = false.
Proof.
  unfold Float.ltb, SFltb.
  destruct a as [sa|sa| |sa ma ea], b as [sb|sb| |sb mb eb], c as [sc|sc| |sc mc ec];
    simpl; try congruence; intros _ _ _;
    try (destruct sa; simpl; congruence);
    try (destruct sb; simpl; congruence);
    try (destruct sc; simpl; congruence);
    try (destruct sa, sb; simpl; congruence);
    try (destruct sa, sc; simpl; congruence);
    try (destruct sb, sc; simpl; congruence);
    try (destruct sa, sb, sc; simpl; congruence).
  destruct sa, sb, sc; simpl; try congruence; intros H1 H2; order_cases.
Qed.

Definition same_kind (a b : value) : Prop :=
  (is_text_or_missing a = true /\ is_text_or_missing b = true) \/
  (is_float a = true /\ is_float b = true).

Lemma value_ltb_asym (a b : value) : value_ltb a b = true -> value_ltb b a = false.
Proof.
  destruct a, b; simpl; try congruence.
  - apply text_ltb_asym.
  - apply float_ltb_asym.
Qed.

Lemma must_precede_asym (asc : bool) (a b : value) :
  must_precede asc a b = true -> must_precede asc b a = false.
Proof.
  unfold must_precede. intros H.
  apply andb_true_iff in H as [Ha H].
  destruct (notna b) eqn:Hb; simpl in *; [|reflexivity].
  rewrite Ha. simpl.
  destruct asc; now apply value_ltb_asym.
Qed.

Lemma value_leb_trans (a b c : value) :
  same_kind a b -> same_kind b c ->
  notna a = true -> notna b = true -> notna c = true ->
  value_ltb b a = false -> value_ltb c b = false -> value_ltb c a = false.
Proof.
  intros Hab Hbc Ha Hb Hc.
  destruct a as [s|n|x|p], b as [t|m|y|q], c as [u|k|z|r]; simpl in *;
    try reflexivity; try congruence;
    try solve [exfalso; destruct Hab as [[H1 H2]|[H1 H2]], Hbc as [[H3 H4]|[H3 H4]];
         simpl in *; try congruence;
         repeat match goal with
         | H : Float.is_nan ?v = true, H' : negb (Float.is_nan ?v) = true |- _ =>
             rewrite H in H'; simpl in H'; congruence
         end].
  - apply text_leb_trans.
  - apply float_leb_trans; now apply negb_true_iff.
Qed.

Lemma may_follow_trans (asc : bool) (a b c : value) :
  same_kind a b -> same_kind b c ->
  must_precede asc b a = false -> must_precede asc c b = false ->
  must_precede asc c a = false.
Proof.
  unfold must_precede. intros Hab Hbc H1 H2.
  destruct (notna c) eqn:Hc; simpl in *; [|reflexivity].
  destruct (notna b) eqn:Hb; simpl in *; [|congruence].
  destruct (notna a) eqn:Ha; simpl in *; [|congruence].
  assert (Hba : same_kind b a) by (destruct Hab as [[? ?]|[? ?]]; [left|right]; auto).
  assert (Hcb : same_kind c b) by (destruct Hbc as [[? ?]|[? ?]]; [left|right]; auto).
  destruct asc.
  - now apply value_leb_trans with (b := b).
  - now apply value_leb_trans with (b := b).
Qed.

(** ** Sorting by insertion *)

Section Sort.

Variable asc : bool.
Variable ks : list value.

Definition key (i : nat) : value := nth i ks NaN.

Fixpoint insert (i : nat) (p : list nat) : list nat :=
  match p with
  | [] => [i]
  | j :: r => if must_precede asc (key j) (key i) then j :: insert i r else i :: p
  end.

Definition order : list nat := fold_right insert [] (seq 0 (List.length ks)).

Lemma insert_perm (i : nat) (p : list nat) : Permutation (insert i p) (i :: p).
Proof.
  induction p as [|j r IH]; simpl; [reflexivity|].
  destruct (must_precede asc (key j) (key i)); [|reflexivity].
  rewrite IH. apply perm_swap.
Qed.

Lemma order_perm : Permutation order (seq 0 (List.length ks)).
Proof.
  unfold order. induction (seq 0 (List.length ks)) as [|i l IH]; simpl; [constructor|].
  rewrite insert_perm. now constructor.
Qed.

Hypothesis Hks : sortable ks = true.

Lemma key_kind (i j : nat) : same_kind (key i) (key j).
Proof.
  unfold sortable in Hks. apply orb_true_iff in Hks as [H|H];
    rewrite forallb_forall in H; [left|right]; split; unfold key.
  all: match goal with |- _ (nth ?n _ _) = _ =>
         destruct (nth_in_or_default n ks NaN) as [Hin|Hd];
           [now apply H | now rewrite Hd]
       end.
Qed.

Lemma insert_sorted (i : nat) (p : list nat) :
  in_order asc (map key p) -> in_order asc (map key (insert i p)).
Proof.
  unfold in_order. induction p as [|j r IH]; simpl; intros Hs.
  - repeat constructor.
  - inversion Hs as [|x l Hr Hj]; subst.
    destruct (must_precede asc (key j) (key i)) eqn:E; simpl.
    + constructor; [now apply IH|].
      apply Permutation_Forall with (x := map key (i :: r)).
      * apply Permutation_map. symmetry. apply insert_perm.
      * simpl. constructor; [now apply must_precede_asym | assumption].
    + constructor; [assumption|].
      constructor; [assumption|].
      rewrite Forall_map in *.
      eapply Forall_impl; [|exact Hj].
      intros k Hk. simpl in Hk.
      apply may_follow_trans with (b := key j); auto using key_kind.
Qed.

Lemma order_sorted : in_order asc (pick ks order).
Proof.
  unfold pick. change (fun i => nth i ks NaN) with key.
  unfold order. induction (seq 0 (List.length ks)) as [|i l IH]; simpl.
  - constructor.
  - now apply insert_sorted.
Qed.

End Sort.

Definition sort (asc : bool) (ks : list value) : res (list nat) :=
  if sortable ks then Ok (order asc ks) else Raise TypeError.

(** ** Text of a number *)

Definition str_of_Z (n : Z) : string := NilEmpty.string_of_int (Z.to_int n).

Fixpoint zeros (n : nat) : string :=
  match n with O => EmptyString | S k => String "0" (zeros k) end.

Fixpoint drop_trailing_zeros (s : string) : string :=
  match s with
  | EmptyString => EmptyString
  | String c r =>
      match drop_trailing_zeros r with
      | EmptyString => if Ascii.eqb c "0" then EmptyString else String c EmptyString
      | r' => String c r'
      end
  end.

(** The decimal expansion of [m * 2^e], in full. *)
Definition expansion (m : positive) (e : Z) : string :=
  match e with
  | Zneg k =>
      let n := Pos.to_nat k in
      let d := (Zpos m * 5 ^ Zpos k)%Z in
      let whole := (d / 10 ^ Zpos k)%Z in
      let part := str_of_Z (d mod 10 ^ Zpos k) in
      let frac := drop_trailing_zeros (zeros (n - String.length part) ++ part)%string in
      (str_of_Z whole ++ "." ++ (if String.eqb frac "" then "0" else frac))%string
  | _ => (str_of_Z (Zpos m * 2 ^ e) ++ ".0")%string
  end.

(** Integers and booleans print as in Python; a finite float prints its
    full decimal expansion, not the shortest one that Python selects. *)
Definition scalar_text (v : value) : string :=
  match v with
  | VStr s => s
  | VInt n => str_of_Z n
  | VBool b => if b then "True" else "False"
  | VFloat (S754_zero s) => if s then "-0.0" else "0.0"
  | VFloat (S754_infinity s) => if s then "-inf" else "inf"
  | VFloat S754_nan => "nan"
  | VFloat (S754_finite s m e) => ((if s then "-" else "") ++ expansion m e)%string
  end.

(** ** Sums and means *)

Definition sum (l : list float) : float :=
  fold_left Float.add l (S754_zero false).

Fixpoint numeric_cells (l : list value) : res (list float) :=
  match l with
  | [] => Ok []
  | v :: r =>
      (rest <- numeric_cells r ;;
       match v with
       | VStr _ => Raise TypeError
       | VInt n => Ok (Float.of_Z n :: rest)
       | VBool b => Ok (Float.of_Z (if b then 1 else 0) :: rest)
       | VFloat x => Ok (if Float.is_nan x then rest else x :: rest)
       end)%res
  end.

Definition mean (l : list value) : res value :=
  (xs <- numeric_cells l ;;
   match xs with
   | [] => Ok NaN
   | _ :: _ => Ok (VFloat (Float.div (sum xs) (Float.of_Z (Z.of_nat (List.length xs)))))
   end)%res.

(** ** Files and coercion *)

Fixpoint find_file (path : string) (files : list (string * DataFrame)) : res DataFrame :=
  match files with
  | [] => Raise OSError
  | (p, df) :: r => if String.eqb path p then Ok df else find_file path r
  end.

Definition numeric (c : list value) : list value :=
  map (fun v => match v with
                | VStr s => match Parse.py_float s with Some x => VFloat x | None => NaN end
                | _ => v
                end) c.

Definition datetime (c : list value) : list value := c.

Lemma sort_total (asc : bool) (ks : list value) :
  sortable ks = true -> exists p, sort asc ks = Ok p.
Proof. unfold sort. intros ->. now eexists. Qed.

Lemma sort_perm (asc : bool) (ks : list value) (p : list nat) :
  sort asc ks = Ok p -> Permutation p (seq 0 (List.length ks)).
Proof.
  unfold sort. destruct (sortable ks); [|discriminate].
  intros [= <-]. apply order_perm.
Qed.

Lemma sort_sorted (asc : bool) (ks : list value) (p : list nat) :
  sortable ks = true -> sort asc ks = Ok p -> in_order asc (pick ks p).
Proof.
  unfold sort. intros H. rewrite H. intros [= <-]. now apply order_sorted.
Qed.

Definition library (files : list (string * DataFrame)) : Library :=
  {| scalar_str := scalar_text;
     np_sum := sum;
     sort_values := sort;
     series_mean := mean;
     read_csv := fun path _ => find_file path files;
     to_numeric := numeric;
     to_datetime := datetime;
     sort_values_total := sort_total;
     sort_values_perm := sort_perm;
     sort_values_sorted := sort_sorted;
     to_numeric_length := fun c => length_map _ c;
     to_datetime_length := fun c => eq_refl |}.

End Model.

(* ===================================================================== *)
(** * Facts on text *)
(* ===================================================================== *)

Module TextFacts.

Import Text.

Fixpoint no_space (s : string) : bool :=
  match s with
  | EmptyString => true
  | String c r => negb (is_space c) && no_space r
  end.

Definition upper_char_ok (c : ascii) : bool :=
  if is_space c then String.eqb (upper_char c) (String c EmptyString)
  else no_space (upper_char c) && negb (String.eqb (upper_char c) EmptyString).

Lemma upper_char_checked (c : ascii) : upper_char_ok c = true.
Proof. destruct c as [[] [] [] [] [] [] [] []]; vm_compute; reflexivity. Qed.

Lemma upper_char_space (c : ascii) :
  is_space c = true -> upper_char c = String c EmptyString.
Proof.
  intros H. pose proof (upper_char_checked c) as K. unfold upper_char_ok in K.
  rewrite H in K. now apply String.eqb_eq.
Qed.

Lemma upper_char_no_space (c : ascii) :
  is_space c = false ->
  exists d w, upper_char c = String d w /\ no_space (String d w) = true.
Proof.
  intros H. pose proof (upper_char_checked c) as K. unfold upper_char_ok in K.
  rewrite H in K. apply andb_true_iff in K as [K1 K2].
  destruct (upper_char c) as [|d w]; [discriminate|]. eauto.
Qed.

Lemma upper_char_not_empty (c : ascii) (t : string) :
  (upper_char c ++ t)%string <> EmptyString.
Proof.
  destruct (is_space c) eqn:E.
  - rewrite (upper_char_space c E). discriminate.
  - destruct (upper_char_no_space c E) as (d & w & -> & _). discriminate.
Qed.

Lemma lstrip_no_space (d : ascii) (w t : string) :
  no_space (String d w) = true -> lstrip (String d w ++ t) = (String d w ++ t)%string.
Proof.
  simpl. intros H. apply andb_true_iff in H as [H _].
  apply negb_true_iff in H. now rewrite H.
Qed.

Lemma upper_lstrip (s : string) : upper (lstrip s) = lstrip (upper s).
Proof.
  induction s as [|c r IH]; simpl; [reflexivity|].
  destruct (is_space c) eqn:E.
  - rewrite (upper_char_space c E). simpl. now rewrite E.
  - destruct (upper_char_no_space c E) as (d & w & Hu & Hn).
    simpl. rewrite Hu. now rewrite lstrip_no_space.
Qed.

Lemma rstrip_app_no_space (w t : string) :
  no_space w = true ->
  rstrip (w ++ t) = (w ++ rstrip t)%string.
Proof.
  induction w as [|c w IH]; simpl; [reflexivity|].
  intros H. apply andb_true_iff in H as [Hc Hw]. apply negb_true_iff in Hc.
  rewrite (IH Hw).
  destruct (w ++ rstrip t)%string eqn:E; [|reflexivity].
  now rewrite Hc.
Qed.

Lemma upper_rstrip (s : string) : upper (rstrip s) = rstrip (upper s).
Proof.
  induction s as [|c r IH]; simpl; [reflexivity|].
  destruct (is_space c) eqn:E.
  - rewrite (upper_char_space c E). simpl. rewrite <- IH.
    destruct (rstrip r) as [|x y] eqn:Er; simpl.
    + now rewrite E.
    + rewrite (upper_char_space c E). simpl.
      destruct (upper_char x ++ upper y)%string eqn:Ex; [|reflexivity].
      exfalso. exact (upper_char_not_empty _ _ Ex).
  - destruct (upper_char_no_space c E) as (d & w & Hu & Hn).
    rewrite Hu, rstrip_app_no_space by assumption. rewrite <- IH.
    destruct (rstrip r) as [|x y] eqn:Er; simpl.
    + now rewrite Hu.
    + now rewrite Hu.
Qed.

(** Stripping and capitalising commute. *)
Lemma upper_strip (s : string) : upper (strip s) = strip (upper s).
Proof. unfold strip. now rewrite upper_rstrip, upper_lstrip. Qed.

End TextFacts.

(* ===================================================================== *)
(** * The column normalizer *)
(* ===================================================================== *)

Module NormalizerFacts.

Import CSVParser.

#[local] Arguments first_match : simpl never.

(** The name under which a column leaves [normalize_columns]. *)
Definition canonical (col : string) : string :=
  match first_match (Text.upper (Text.strip col)) column_mappings with
  | Some standard => standard
  | None => Text.strip col
  end.

(** [col] is, whatever the case of its letters, the alias [alias]. *)
Definition same_name (col alias : string) : Prop :=
  Text.upper col = Text.upper alias.

Lemma dict_get_set (c k v : string) (d : dict) :
  dict_get c (dict_set k v d) = if String.eqb c k then Some v else dict_get c d.
Proof.
  induction d as [|[k' v'] r IH]; simpl.
  - reflexivity.
  - destruct (String.eqb_spec k k') as [->|Hk]; simpl.
    + destruct (String.eqb c k'); reflexivity.
    + rewrite IH. destruct (String.eqb_spec c k') as [->|Hc]; [|reflexivity].
      destruct (String.eqb_spec k' k); [congruence|reflexivity].
Qed.

Definition step (normalized : dict) (col : string) : dict :=
  match first_match (Text.upper col) column_mappings with
  | Some standard => dict_set col standard normalized
  | None => normalized
  end.

Lemma fold_step_get (cols : list string) (acc : dict) (c : string) :
  dict_get c (fold_left step cols acc) =
  if existsb (String.eqb c) cols then
    match first_match (Text.upper c) column_mappings with
    | Some n => Some n
    | None => dict_get c acc
    end
  else dict_get c acc.
Proof.
  revert acc. induction cols as [|k r IH]; intros acc; simpl; [reflexivity|].
  rewrite IH. unfold step.
  destruct (String.eqb_spec c k) as [->|Hc]; simpl.
  - destruct (first_match (Text.upper k) column_mappings) eqn:E.
    + rewrite dict_get_set, String.eqb_refl. now destruct (existsb _ r).
    + now destruct (existsb _ r).
  - destruct (first_match (Text.upper k) column_mappings); [|reflexivity].
    rewrite dict_get_set. destruct (String.eqb_spec c k); [congruence|reflexivity].
Qed.

Lemma build_normalized_get (cols : list string) (c : string) :
  In c cols ->
  dict_get c (build_normalized cols) = first_match (Text.upper c) column_mappings.
Proof.
  intros Hin. unfold build_normalized.
  change (fun normalized col => _) with step.
  rewrite fold_step_get.
  assert (E : existsb (String.eqb c) cols = true).
  { apply existsb_exists. exists c. split; [assumption | apply String.eqb_refl]. }
  rewrite E. now destruct (first_match _ _).
Qed.

Lemma rename_columns (cols : list string) (rs : list (list value)) :
  columns (rename (build_normalized cols) {| columns := cols; rows := rs |}) =
  map (fun c => match first_match (Text.upper c) column_mappings with
                | Some n => n
                | None => c
                end) cols.
Proof.
  simpl. apply map_ext_in. intros c Hc. now rewrite build_normalized_get.
Qed.

Lemma deref_assign_same (h : heap) (r : ref) (df : DataFrame) :
  r < List.length h -> deref (assign h r df) r = df.
Proof.
  revert r. induction h as [|x t IH]; intros [|r]; simpl; try lia; [reflexivity|].
  intros H. apply IH. lia.
Qed.

Lemma deref_assign_other (h : heap) (r q : ref) (df : DataFrame) :
  q <> r -> deref (assign h r df) q = deref h q.
Proof.
  revert r q. induction h as [|x t IH]; intros [|r] [|q]; simpl; try congruence;
    try reflexivity.
  intros H. apply IH. congruence.
Qed.

Lemma length_assign (h : heap) (r : ref) (df : DataFrame) :
  List.length (assign h r df) = List.length h.
Proof.
  revert r. induction h as [|x t IH]; intros [|r]; simpl; try reflexivity.
  now rewrite IH.
Qed.

Lemma deref_alloc_new (h : heap) (df : DataFrame) :
  deref (fst (alloc h df)) (snd (alloc h df)) = df.
Proof.
  unfold alloc, deref. simpl. rewrite app_nth2 by lia.
  now rewrite Nat.sub_diag.
Qed.

Lemma deref_alloc_old (h : heap) (df : DataFrame) (q : ref) :
  q < List.length h -> deref (fst (alloc h df)) q = deref h q.
Proof. intros H. unfold alloc, deref. simpl. now rewrite app_nth1. Qed.

(** What a call does to the store, in full. *)
Lemma normalize_columns_effect (h : heap) (df : ref) :
  df < List.length h ->
  let stripped := {| columns := map Text.strip (columns (deref h df));
                     rows := rows (deref h df) |} in
  let h' := fst (normalize_columns h df) in
  let out := snd (normalize_columns h df) in
  deref h' df = stripped /\
  (forall q, q < List.length h -> q <> df -> deref h' q = deref h q) /\
  columns (deref h' out) = map canonical (columns (deref h df)) /\
  rows (deref h' out) = rows (deref h df) /\
  (out = df \/ out = List.length h).
Proof.
  intros Hdf. cbv zeta. unfold normalize_columns, strip_columns.
  set (stripped := {| columns := map Text.strip (columns (deref h df));
                      rows := rows (deref h df) |}).
  set (h1 := assign h df stripped).
  assert (E1 : deref h1 df = stripped) by (now apply deref_assign_same).
  assert (L1 : List.length h1 = List.length h) by apply length_assign.
  assert (C : map (fun c => match first_match (Text.upper c) column_mappings with
                            | Some n => n
                            | None => c
                            end) (map Text.strip (columns (deref h df))) =
              map canonical (columns (deref h df))).
  { rewrite map_map. reflexivity. }
  rewrite E1.
  destruct (build_normalized (columns stripped)) as [|kv d] eqn:B.
  - simpl. rewrite E1. repeat split; auto.
    + intros q _ Hq. now apply deref_assign_other.
    + rewrite <- C. simpl. symmetry.
      rewrite <- (map_id (map Text.strip (columns (deref h df)))) at 2.
      apply map_ext_in. intros c Hc.
      pose proof (build_normalized_get _ _ Hc) as G.
      simpl in B. rewrite B in G. simpl in G. now rewrite <- G.
  - rewrite <- B.
    rewrite deref_alloc_new.
    repeat split.
    + rewrite deref_alloc_old by lia. assumption.
    + intros q Hq Hne. rewrite deref_alloc_old by lia. now apply deref_assign_other.
    + rewrite <- C. apply rename_columns.
    + right. simpl. assumption.
Qed.

(** Some alias of the registry is, whatever the case of its letters, the
    label [col] with the white space around it removed. *)
Definition aliased (col : string) : bool :=
  existsb (fun fv => matches (Text.upper (Text.strip col)) (snd fv)) column_mappings.

Lemma first_match_matches (u : string) (items : list (string * list string)) :
  first_match u items = None <-> existsb (fun fv => matches u (snd fv)) items = false.
Proof.
  induction items as [|[f vs] r IH]; [cbn; tauto|].
  change (first_match u ((f, vs) :: r))
    with (if matches u vs then Some (Text.upper f) else first_match u r).
  cbn [existsb snd]. destruct (matches u vs); cbn [orb]; [|exact IH].
  split; discriminate.
Qed.

Lemma fold_step_unmatched (cols : list string) (acc : dict) :
  (forall c, In c cols -> first_match (Text.upper c) column_mappings = None) ->
  fold_left step cols acc = acc.
Proof.
  revert acc. induction cols as [|k r IH]; intros acc H; [reflexivity|].
  cbn [fold_left]. unfold step at 2. rewrite (H k (or_introl eq_refl)).
  apply IH. intros c Hc. apply H. now right.
Qed.

(** The dictionary of new names is empty exactly when no label is an
    alias. *)
Lemma build_normalized_empty (cols : list string) :
  build_normalized (map Text.strip cols) = [] <-> existsb aliased cols = false.
Proof.
  split.
  - intros B. destruct (existsb aliased cols) eqn:E; [|reflexivity]. exfalso.
    apply existsb_exists in E as (c & Hc & Ha). unfold aliased in Ha.
    assert (Hin : In (Text.strip c) (map Text.strip cols)) by now apply in_map.
    pose proof (build_normalized_get _ _ Hin) as G. rewrite B in G. cbn [dict_get] in G.
    symmetry in G. apply first_match_matches in G. congruence.
  - intros E. unfold build_normalized. change (fun normalized col => _) with step.
    apply fold_step_unmatched. intros c Hc.
    apply in_map_iff in Hc as (c0 & <- & Hc0). apply first_match_matches.
    destruct (existsb _ column_mappings) eqn:M; [|reflexivity].
    assert (Ha : existsb aliased cols = true)
      by (apply existsb_exists; exists c0; split; [exact Hc0 | exact M]).
    congruence.
Qed.

(** Which table a call returns: a new one as soon as one label is an alias,
    and the table passed otherwise. *)
Lemma normalize_columns_result (h : heap) (df : ref) :
  df < List.length h ->
  if existsb aliased (columns (deref h df))
  then snd (normalize_columns h df) = List.length h /\
       List.length (fst (normalize_columns h df)) = S (List.length h)
  else snd (normalize_columns h df) = df /\
       List.length (fst (normalize_columns h df)) = List.length h.
Proof.
  intros Hdf. unfold normalize_columns, strip_columns.
  set (stripped := {| columns := map Text.strip (columns (deref h df));
                      rows := rows (deref h df) |}).
  set (h1 := assign h df stripped).
  assert (E1 : deref h1 df = stripped) by (now apply deref_assign_same).
  assert (L1 : List.length h1 = List.length h) by apply length_assign.
  rewrite E1. pose proof (build_normalized_empty (columns (deref h df))) as B.
  change (columns stripped) with (map Text.strip (columns (deref h df))).
  destruct (build_normalized (map Text.strip (columns (deref h df)))) as [|kv d].
  - rewrite (proj1 B eq_refl). cbn [fst snd]. now split.
  - destruct (existsb aliased (columns (deref h df))).
    + unfold alloc. cbn [fst snd]. rewrite length_app, L1. cbn [List.length]. split; lia.
    + destruct B as [_ B]. specialize (B eq_refl). discriminate.
Qed.

Lemma normalized_frame_columns (df : DataFrame) :
  columns (normalized_frame df) = map canonical (columns df).
Proof.
  unfold normalized_frame.
  pose proof (normalize_columns_effect [df] 0) as H. simpl in H.
  specialize (H (Nat.lt_0_succ 0)).
  destruct (normalize_columns [df] 0) as [h r]. simpl in *. tauto.
Qed.

Lemma normalized_frame_rows (df : DataFrame) :
  rows (normalized_frame df) = rows df.
Proof.
  unfold normalized_frame.
  pose proof (normalize_columns_effect [df] 0) as H. simpl in H.
  specialize (H (Nat.lt_0_succ 0)).
  destruct (normalize_columns [df] 0) as [h r]. simpl in *. tauto.
Qed.

Lemma first_match_cons (u f : string) (vs : list string)
    (r : list (string * list string)) :
  first_match u ((f, vs) :: r) =
  if matches u vs then Some (Text.upper f) else first_match u r.
Proof. reflexivity. Qed.

Lemma first_match_none (u : string) (items : list (string * list string)) :
  (forall f vs a, In (f, vs) items -> In a vs -> u <> Text.upper a) ->
  first_match u items = None.
Proof.
  induction items as [|[f vs] r IH]; simpl; intros H; [reflexivity|].
  rewrite first_match_cons.
  destruct (matches u vs) eqn:M.
  - unfold matches in M. apply existsb_exists in M as (x & Hx & Ex).
    apply in_map_iff in Hx as (a & <- & Ha).
    apply String.eqb_eq in Ex. exfalso. exact (H f vs a (or_introl eq_refl) Ha Ex).
  - apply IH. intros f' vs' a Hin. apply (H f' vs' a). now right.
Qed.

Lemma matches_alias (u : string) (vs : list string) :
  matches u vs = true <-> exists a, In a vs /\ u = Text.upper a.
Proof.
  unfold matches. rewrite existsb_exists. split.
  - intros (x & Hx & E). apply in_map_iff in Hx as (a & <- & Ha).
    apply String.eqb_eq in E. eauto.
  - intros (a & Ha & ->). exists (Text.upper a). split.
    + now apply in_map.
    + apply String.eqb_refl.
Qed.

Lemma first_match_first (u : string) (pre post : list (string * list string))
    (f : string) (vs : list string) :
  matches u vs = true ->
  (forall f' vs', In (f', vs') pre -> matches u vs' = false) ->
  first_match u (pre ++ (f, vs) :: post) = Some (Text.upper f).
Proof.
  intros M. induction pre as [|[f' vs'] r IH]; simpl; intros H;
    rewrite first_match_cons.
  - now rewrite M.
  - rewrite (H f' vs' (or_introl eq_refl)). apply IH.
    intros g ws Hin. apply (H g ws). now right.
Qed.

(** Every alias of the registry, but [CLASS_TYPE] for the field [class],
    selects its own field; and no alias has white space at its ends. *)
Definition alias_ok (f a : string) : bool :=
  String.eqb (Text.strip (Text.upper a)) (Text.upper a) &&
  ((String.eqb f "class" && String.eqb a "CLASS_TYPE") ||
   match first_match (Text.upper a) column_mappings with
   | Some n => String.eqb n (Text.upper f)
   | None => false
   end).

Lemma registry_checked :
  forallb (fun fv => forallb (alias_ok (fst fv)) (snd fv)) column_mappings = true.
Proof. vm_compute. reflexivity. Qed.

Lemma alias_checked (f a : string) (vs : list string) :
  In (f, vs) column_mappings -> In a vs -> alias_ok f a = true.
Proof.
  intros Hf Ha. pose proof registry_checked as H.
  rewrite forallb_forall in H. specialize (H (f, vs) Hf). simpl in H.
  rewrite forallb_forall in H. now apply H.
Qed.

(** A name that is an alias up to case has no white space to strip. *)
Lemma same_name_stripped (col f a : string) (vs : list string) :
  In (f, vs) column_mappings -> In a vs -> same_name col a ->
  Text.upper (Text.strip col) = Text.upper a.
Proof.
  intros Hf Ha E. unfold same_name in E.
  rewrite TextFacts.upper_strip, E.
  pose proof (alias_checked _ _ _ Hf Ha) as H. unfold alias_ok in H.
  apply andb_true_iff in H as [H _]. now apply String.eqb_eq in H.
Qed.

End NormalizerFacts.

Section NormalizerClaims.

Import CSVParser NormalizerFacts.

#[local] Arguments first_match : simpl never.

Lemma nth_error_canonical (df : DataFrame) (i : nat) (col : string) :
  nth_error (columns df) i = Some col ->
  nth_error (columns (normalized_frame df)) i = Some (canonical col).
Proof.
  intros H. rewrite normalized_frame_columns. now apply map_nth_error.
Qed.

Ltac in_list := simpl; repeat (first [left; reflexivity | right]).
Ltac in_registry := unfold column_mappings; in_list.

Definition unmatched (u : string) : bool :=
  forallb (fun fv => negb (matches u (snd fv))) column_mappings.

Lemma unmatched_spec (u : string) :
  unmatched u = true ->
  forall f vs a, In (f, vs) column_mappings -> In a vs -> u <> Text.upper a.
Proof.
  unfold unmatched. rewrite forallb_forall. intros H f vs a Hf Ha E.
  specialize (H (f, vs) Hf). simpl in H. apply negb_true_iff in H.
  assert (M : matches u vs = true) by (apply matches_alias; eauto).
  congruence.
Qed.

(** C2, as the design document states it, does not hold. The column
    [CLASS_TYPE] is an alias of the field [class], yet it is not renamed to
    [CLASS]; and the column [" lap"], which matches no alias, is not left as
    it is. *)
Lemma normalize_columns_alias_counterexample :
  ~ (forall col f vs a,
       In (f, vs) column_mappings -> In a vs -> same_name col a ->
       columns (normalized_frame {| columns := [col]; rows := [] |}) = [Text.upper f])
  /\
  ~ (forall col,
       (forall f vs a, In (f, vs) column_mappings -> In a vs -> ~ same_name col a) ->
       columns (normalized_frame {| columns := [col]; rows := [] |}) = [col]).
Proof.
  split.
  - intros H.
    specialize (H "CLASS_TYPE" "class" ["CLASS_TYPE"; "CLASS"; "CATEGORY"] "CLASS_TYPE").
    assert (In ("class", ["CLASS_TYPE"; "CLASS"; "CATEGORY"]) column_mappings) as Hf
      by in_registry.
    specialize (H Hf (or_introl eq_refl) eq_refl).
    vm_compute in H. discriminate.
  - intros H. specialize (H " lap").
    assert (columns (normalized_frame {| columns := [" lap"]; rows := [] |}) = ["lap"]) as E
      by (vm_compute; reflexivity).
    rewrite H in E; [discriminate|].
    intros f vs a Hf Ha. apply (unmatched_spec (Text.upper " lap") eq_refl f vs a Hf Ha).
Qed.

(** C2, amended. A column whose label, once the white space around it is
    removed, is up to case an alias of a field of the registry, is renamed
    to the upper-case name of that field, for every alias but [CLASS_TYPE]
    taken as an alias of [class]. A column whose stripped label is no alias
    is output under its stripped label: unchanged when it has no white space
    around it. *)
Theorem normalize_columns_renames (df : DataFrame) (i : nat) (col : string) :
  nth_error (columns df) i = Some col ->
  (forall f vs a,
     In (f, vs) column_mappings -> In a vs -> same_name (Text.strip col) a ->
     (f, a) <> ("class", "CLASS_TYPE") ->
     nth_error (columns (normalized_frame df)) i = Some (Text.upper f)) /\
  ((forall f vs a,
      In (f, vs) column_mappings -> In a vs -> ~ same_name (Text.strip col) a) ->
   nth_error (columns (normalized_frame df)) i = Some (Text.strip col)).
Proof.
  intros Hi. rewrite (nth_error_canonical _ _ _ Hi). unfold canonical. split.
  - intros f vs a Hf Ha E Hne. unfold same_name in E. rewrite E.
    pose proof (alias_checked _ _ _ Hf Ha) as H. unfold alias_ok in H.
    apply andb_true_iff in H as [_ H]. apply orb_true_iff in H as [H|H].
    + apply andb_true_iff in H as [H1 H2].
      apply String.eqb_eq in H1, H2. subst. congruence.
    + destruct (first_match (Text.upper a) column_mappings); [|discriminate].
      apply String.eqb_eq in H. now subst.
  - intros H. rewrite first_match_none; [reflexivity|].
    intros f vs a Hf Ha. exact (H f vs a Hf Ha).
Qed.

Lemma normalize_columns_renames_witness :
  let df := {| columns := [" Driver_Name "; "lap"]; rows := [[VStr "A"; VInt 3]] |} in
  nth_error (columns df) 0 = Some " Driver_Name " /\
  nth_error (columns (normalized_frame df)) 0 = Some "DRIVER".
Proof.
  intros df. split; [reflexivity|].
  refine (proj1 (normalize_columns_renames df 0 " Driver_Name " eq_refl)
            "driver" ["DRIVER"; "DRIVER_NAME"; "NAME"] "DRIVER_NAME" _ _ eq_refl _).
  - in_registry.
  - in_list.
  - discriminate.
Defined.

(** C8. A column whose label is up to case an alias of several fields is
    renamed to the upper-case name of the first of them in the order of the
    registry; a column named [CLASS_TYPE], an alias of both [status] and
    [class], becomes [STATUS]. *)
Theorem normalize_columns_first_match_wins (df : DataFrame) (i : nat) (col : string) :
  nth_error (columns df) i = Some col ->
  (forall pre post f vs,
     column_mappings = pre ++ (f, vs) :: post ->
     (exists a, In a vs /\ same_name col a) ->
     (forall f' vs' a', In (f', vs') pre -> In a' vs' -> ~ same_name col a') ->
     nth_error (columns (normalized_frame df)) i = Some (Text.upper f)) /\
  (same_name col "CLASS_TYPE" ->
   (exists vs, In ("status", vs) column_mappings /\ In "CLASS_TYPE" vs) /\
   (exists vs, In ("class", vs) column_mappings /\ In "CLASS_TYPE" vs) /\
   nth_error (columns (normalized_frame df)) i = Some "STATUS").
Proof.
  intros Hi. rewrite (nth_error_canonical _ _ _ Hi). unfold canonical.
  assert (G : forall pre post f vs,
     column_mappings = pre ++ (f, vs) :: post ->
     (exists a, In a vs /\ same_name col a) ->
     (forall f' vs' a', In (f', vs') pre -> In a' vs' -> ~ same_name col a') ->
     first_match (Text.upper (Text.strip col)) column_mappings = Some (Text.upper f)).
  { intros pre post f vs Hreg (a & Ha & E) Hpre.
    assert (Hf : In (f, vs) column_mappings)
      by (rewrite Hreg; apply in_or_app; right; now left).
    pose proof (same_name_stripped _ _ _ _ Hf Ha E) as Es.
    rewrite Hreg. apply first_match_first.
    - apply matches_alias. eauto.
    - intros f' vs' Hin.
      destruct (matches (Text.upper (Text.strip col)) vs') eqn:M; [|reflexivity].
      apply matches_alias in M as (a' & Ha' & E').
      exfalso. apply (Hpre f' vs' a' Hin Ha').
      unfold same_name in *. congruence. }
  split.
  - intros pre post f vs Hreg Ha Hpre. now rewrite (G pre post f vs).
  - intros E. split; [|split].
    + exists ["STATUS"; "CLASS_TYPE"; "CLASSIFICATION"]. split; [in_registry | in_list].
    + exists ["CLASS_TYPE"; "CLASS"; "CATEGORY"]. split; [in_registry | in_list].
    + assert (Hf : In ("status", ["STATUS"; "CLASS_TYPE"; "CLASSIFICATION"]) column_mappings)
        by in_registry.
      assert (Ha : In "CLASS_TYPE" ["STATUS"; "CLASS_TYPE"; "CLASSIFICATION"])
        by in_list.
      rewrite (same_name_stripped _ _ _ _ Hf Ha E). reflexivity.
Qed.

Lemma normalize_columns_first_match_wins_witness :
  let df := {| columns := ["Class_Type"]; rows := [[VStr "Am"]] |} in
  nth_error (columns df) 0 = Some "Class_Type" /\
  same_name "Class_Type" "CLASS_TYPE" /\
  nth_error (columns (normalized_frame df)) 0 = Some "STATUS".
Proof.
  intros df. split; [reflexivity|]. split; [reflexivity|].
  exact (proj2 (proj2 (proj2 (normalize_columns_first_match_wins df 0 "Class_Type" eq_refl)
                         eq_refl))).
Defined.

(** C9, as the design document states it, does not hold: the call strips
    the labels of the table that the caller passed. *)
Lemma normalize_columns_mutates_input :
  let df := {| columns := [" POS "; "lap"]; rows := [[VInt 1; VInt 7]] |} in
  columns (deref (fst (normalize_columns [df] 0)) 0) = ["POS"; "lap"] /\
  deref (fst (normalize_columns [df] 0)) 0 <> df.
Proof. split; [reflexivity | vm_compute; discriminate]. Qed.

(** C9, amended. On the table that the caller passed, a call removes the
    white space around the column labels, in place, and changes nothing
    else: the cells are the same, and so is every other table of the store.
    The renaming to canonical names shows only in the table that is
    returned. When no label matches an alias this is the table passed, and
    the store holds the tables it held; as soon as one label matches an
    alias it is a new table, the one table that the call adds to the
    store. *)
Theorem normalize_columns_frame (h : heap) (df : ref) :
  df < List.length h ->
  let h' := fst (normalize_columns h df) in
  let out := snd (normalize_columns h df) in
  columns (deref h' df) = map Text.strip (columns (deref h df)) /\
  rows (deref h' df) = rows (deref h df) /\
  (forall q, q < List.length h -> q <> df -> deref h' q = deref h q) /\
  columns (deref h' out) = map canonical (columns (deref h df)) /\
  rows (deref h' out) = rows (deref h df) /\
  (if existsb aliased (columns (deref h df))
   then out = List.length h /\ out <> df /\ List.length h' = S (List.length h)
   else out = df /\ List.length h' = List.length h).
Proof.
  intros Hdf. destruct (normalize_columns_effect h df Hdf) as (E & Hq & Hc & Hr & _).
  pose proof (normalize_columns_result h df Hdf) as Ho.
  cbv zeta. rewrite E. simpl.
  split; [reflexivity|]. split; [reflexivity|]. split; [exact Hq|].
  split; [exact Hc|]. split; [exact Hr|].
  destruct (existsb aliased (columns (deref h df))).
  - destruct Ho as (Ho & Hl). split; [exact Ho|]. split; [lia | exact Hl].
  - exact Ho.
Qed.

Lemma normalize_columns_frame_witness :
  let df := {| columns := [" POS "; "lap"]; rows := [[VInt 1; VInt 7]] |} in
  let other := {| columns := ["x "]; rows := [[VInt 0]] |} in
  let h := [other; df] in
  columns (deref (fst (normalize_columns h 1)) 1) = ["POS"; "lap"] /\
  rows (deref (fst (normalize_columns h 1)) 1) = [[VInt 1; VInt 7]] /\
  deref (fst (normalize_columns h 1)) 0 = other /\
  columns (deref (fst (normalize_columns h 1)) (snd (normalize_columns h 1)))
    = ["POSITION"; "lap"] /\
  (snd (normalize_columns h 1) = 2 /\ List.length (fst (normalize_columns h 1)) = 3) /\
  (snd (normalize_columns h 0) = 0 /\ List.length (fst (normalize_columns h 0)) = 2).
Proof.
  intros df other h.
  assert (Hlt : 1 < List.length h) by (simpl; lia).
  assert (Hlt0 : 0 < List.length h) by (simpl; lia).
  pose proof (normalize_columns_frame h 1 Hlt) as (Hc & Hr & Hq & Hcan & _ & Hnew).
  pose proof (normalize_columns_frame h 0 Hlt0) as (_ & _ & _ & _ & _ & Hsame).
  split; [exact Hc|]. split; [exact Hr|]. split; [apply (Hq 0); simpl; lia|].
  split; [exact Hcan|]. split.
  - destruct Hnew as (H1 & _ & H2). split; [exact H1 | exact H2].
  - exact Hsame.
Defined.

End NormalizerClaims.

(* ===================================================================== *)
(** * The record parser *)
(* ===================================================================== *)

Section ParserClaims.

Import CSVParser NormalizerFacts.

Context {L : Library}.

Lemma set_column_no_rows (c : string) (vals : list value) (df : DataFrame) :
  rows df = [] -> rows (set_column c vals df) = [].
Proof.
  intros H. unfold set_column. destruct (has_column c df); simpl; now rewrite H.
Qed.

Lemma coerce_numeric_no_rows (c : string) (df t : DataFrame) :
  rows df = [] -> coerce_numeric c df = Ok t -> rows t = [].
Proof.
  unfold coerce_numeric. intros H.
  destruct (1 <? count_label c df)%nat; [discriminate|].
  intros [= <-]. now apply set_column_no_rows.
Qed.

Lemma coerce_all_no_rows (cols : list string) (df t : DataFrame) :
  rows df = [] -> coerce_all cols df = Ok t -> rows t = [].
Proof.
  revert df. induction cols as [|c r IH]; simpl; intros df H.
  - now intros [= <-].
  - destruct (has_column c df).
    + destruct (coerce_numeric c df) as [d|e] eqn:E; simpl; [|discriminate].
      apply IH. exact (coerce_numeric_no_rows c df d H E).
    + simpl. now apply IH.
Qed.

Lemma caught_total (body : res DataFrame) :
  exists t, try_except_Exception body (Ok empty_frame) = Ok t.
Proof. destruct body; simpl; eauto. Qed.

Lemma caught_no_rows (body : res DataFrame) :
  (forall t, body = Ok t -> rows t = []) ->
  exists t, try_except_Exception body (Ok empty_frame) = Ok t /\ rows t = [].
Proof.
  intros H. destruct body as [t|e]; simpl.
  - exists t. split; [reflexivity | now apply H].
  - exists empty_frame. split; reflexivity.
Qed.

(** An entry point of the parser is safe when, for every path and
    delimiter, it returns a table; the empty table when reading fails; and
    a table with no row when the file holds a header and no data row. *)
Definition safe_entry_point (parse : string -> string -> res DataFrame) : Prop :=
  forall file_path delimiter,
    (exists t, parse file_path delimiter = Ok t) /\
    (forall e, read_csv file_path delimiter = Raise e ->
       parse file_path delimiter = Ok empty_frame /\ rows empty_frame = []) /\
    (forall df, read_csv file_path delimiter = Ok df -> rows df = [] ->
       exists t, parse file_path delimiter = Ok t /\ rows t = []).

Lemma read_normalized_no_rows (file_path delimiter : string) (df t : DataFrame) :
  read_csv file_path delimiter = Ok df -> rows df = [] ->
  read_normalized file_path delimiter = Ok t -> rows t = [].
Proof.
  unfold read_normalized. intros -> H. simpl. intros [= <-].
  now rewrite normalized_frame_rows.
Qed.

Lemma read_normalized_fails (file_path delimiter : string) (e : exn) :
  read_csv file_path delimiter = Raise e ->
  read_normalized file_path delimiter = Raise e.
Proof. unfold read_normalized. now intros ->. Qed.

Lemma parse_race_results_safe : safe_entry_point parse_race_results.
Proof.
  intros p d. unfold parse_race_results. split; [apply caught_total|]. split.
  - intros e H. now rewrite (read_normalized_fails p d e H).
  - intros df H Hr. apply caught_no_rows. intros t.
    destruct (read_normalized p d) as [n|e] eqn:E; cbn [bind]; [|discriminate].
    apply coerce_all_no_rows. exact (read_normalized_no_rows p d df n H Hr E).
Qed.

Lemma parse_weather_data_safe : safe_entry_point parse_weather_data.
Proof.
  intros p d. unfold parse_weather_data. split; [apply caught_total|]. split.
  - intros e H. now rewrite (read_normalized_fails p d e H).
  - intros df H Hr. apply caught_no_rows. intros t.
    destruct (read_normalized p d) as [n|e] eqn:E; cbn [bind]; [|discriminate].
    pose proof (read_normalized_no_rows p d df n H Hr E) as Hn.
    destruct (has_column "TIME_UTC_SECONDS" n).
    + destruct (coerce_numeric "TIME_UTC_SECONDS" n) as [n1|e1] eqn:E1; cbn [bind];
        [|discriminate].
      apply coerce_all_no_rows. apply set_column_no_rows.
      exact (coerce_numeric_no_rows _ n n1 Hn E1).
    + cbn [bind]. now apply coerce_all_no_rows.
Qed.

Lemma parse_lap_times_safe : safe_entry_point parse_lap_times.
Proof.
  intros p d. unfold parse_lap_times. split; [apply caught_total|]. split.
  - intros e H. now rewrite (read_normalized_fails p d e H).
  - intros df H Hr. apply caught_no_rows. intros t.
    destruct (read_normalized p d) as [n|e] eqn:E; cbn [bind]; [|discriminate].
    pose proof (read_normalized_no_rows p d df n H Hr E) as Hn.
    destruct (has_column "NUMBER" n).
    + now apply coerce_numeric_no_rows.
    + now intros [= <-].
Qed.

Lemma parse_best_laps_safe : safe_entry_point parse_best_laps.
Proof.
  intros p d. unfold parse_best_laps. split; [apply caught_total|]. split.
  - intros e H. now rewrite (read_normalized_fails p d e H).
  - intros df H Hr. apply caught_no_rows. intros t.
    destruct (read_normalized p d) as [n|e] eqn:E; cbn [bind]; [|discriminate].
    apply coerce_all_no_rows. exact (read_normalized_no_rows p d df n H Hr E).
Qed.

(** C5. Each entry point of the parser returns a table for every path and
    delimiter: it never raises. When reading the file fails it returns the
    empty table, and a file with a header and no data row gives a table
    with no row. *)
Theorem parser_never_raises :
  safe_entry_point parse_race_results /\
  safe_entry_point parse_weather_data /\
  safe_entry_point parse_lap_times /\
  safe_entry_point parse_best_laps.
Proof.
  split; [apply parse_race_results_safe|].
  split; [apply parse_weather_data_safe|].
  split; [apply parse_lap_times_safe | apply parse_best_laps_safe].
Qed.

End ParserClaims.

Lemma parser_never_raises_witness :
  let header := {| columns := ["POS"; "NUMBER"; " Driver "]; rows := [] |} in
  let L := Model.library [("results.csv", header)] in
  CSVParser.parse_race_results "missing.csv" ";" = Ok empty_frame /\
  exists t, CSVParser.parse_race_results "results.csv" ";" = Ok t /\ rows t = [].
Proof.
  intros header L.
  destruct (@parser_never_raises L) as (H & _).
  split.
  - exact (proj1 (proj1 (proj2 (H "missing.csv" ";")) OSError eq_refl)).
  - exact (proj2 (proj2 (H "results.csv" ";")) header eq_refl eq_refl).
Defined.

(* ===================================================================== *)
(** * The race analyzer *)
(* ===================================================================== *)

(** The elements of [l] that [f] keeps, in the order of [l]. *)
Fixpoint keep {A B : Type} (f : A -> option B) (l : list A) : list B :=
  match l with
  | [] => []
  | x :: r => match f x with
              | Some y => y :: keep f r
              | None => keep f r
              end
  end.

Definition to_list {B : Type} (o : option B) : list B :=
  match o with Some y => [y] | None => [] end.

Section AnalyzerFacts.

Import RaceAnalyzer.

Lemma keep_cons {A B : Type} (f : A -> option B) (x : A) (r : list A) :
  keep f (x :: r) = to_list (f x) ++ keep f r.
Proof. simpl. now destruct (f x). Qed.

Lemma keep_none {A B : Type} (f : A -> option B) (l : list A) :
  (forall x, In x l -> f x = None) -> keep f l = [].
Proof.
  induction l as [|x r IH]; simpl; intros H; [reflexivity|].
  rewrite (H x (or_introl eq_refl)). apply IH. intros y Hy. apply H. now right.
Qed.

(** A loop whose body appends what [f] keeps of the element at hand. *)
Lemma for_each_appends {A B : Type} (body : list B -> A -> res (list B))
    (f : A -> option B) (l : list A) (acc : list B) :
  (forall s x, In x l -> body s x = Ok (s ++ to_list (f x))) ->
  for_each body l acc = Ok (acc ++ keep f l).
Proof.
  revert acc. induction l as [|x r IH]; intros acc H.
  - simpl. now rewrite app_nil_r.
  - cbn [for_each]. rewrite (H acc x (or_introl eq_refl)). cbn [bind].
    rewrite IH by (intros s y Hy; apply H; now right).
    now rewrite keep_cons, app_assoc.
Qed.

Lemma indexed_from (A : Type) (i : Z) (l : list A) (j : Z) (x : A) :
  In (j, x) (indexed i l) -> (i <= j)%Z.
Proof.
  revert i. induction l as [|y r IH]; simpl; intros i; [tauto|].
  intros [[= <- _]|H]; [lia|]. apply IH in H. lia.
Qed.

Lemma lookup_absent (c : string) (df : DataFrame) (r : list value) :
  has_column c df = false -> lookup c (series_of df r) = None.
Proof.
  unfold has_column, series_of. generalize (columns df) as cols.
  intros cols. revert r. induction cols as [|k t IH]; intros r; simpl; [reflexivity|].
  destruct r as [|v r]; [reflexivity|]. simpl.
  destruct (String.eqb c k); simpl; [discriminate|]. apply IH.
Qed.

Lemma empty_cases (df : DataFrame) :
  empty df = true -> columns df = [] \/ rows df = [].
Proof. unfold empty. destruct (columns df), (rows df); auto; discriminate. Qed.

Lemma empty_no_column (df : DataFrame) (c : string) :
  empty df = true -> rows df = [] \/ has_column c df = false.
Proof.
  intros H. destruct (empty_cases df H) as [E|E]; [right|now left].
  unfold has_column. now rewrite E.
Qed.

Lemma values_length (df : DataFrame) :
  List.length (values df) = List.length (rows df).
Proof. unfold values. destruct (all_numeric df); [apply length_map | reflexivity]. Qed.

Lemma values_nil (df : DataFrame) : rows df = [] -> values df = [].
Proof. unfold values. intros ->. now destruct (all_numeric _). Qed.

(** A row of [df.values] is a row of the table, as it is or widened. *)
Lemma in_values (df : DataFrame) (r : list value) :
  In r (values df) -> exists r0, In r0 (rows df) /\ (r = r0 \/ r = map widen r0).
Proof.
  unfold values. destruct (all_numeric df).
  - intros H. apply in_map_iff in H as (r0 & <- & H0). eauto.
  - eauto.
Qed.



Lemma in_iterrows (df : DataFrame) (i : Z) (row : Series) :
  In (i, row) (iterrows df) -> exists r, In r (values df) /\ row = series_of df r.
Proof.
  unfold iterrows. generalize 0%Z as k. generalize (values df) as l.
  induction l as [|x t IH]; simpl; intros k; [tauto|].
  intros [[= _ <-]|H]; [eauto|]. destruct (IH _ H) as (r & Hr & E). eauto.
Qed.


Lemma starts_with_plus (s : string) :
  Text.startswith "+" s = true -> exists rest, s = String "+" rest.
Proof.
  destruct s as [|c rest]; cbn [Text.startswith]; [discriminate|].
  destruct (Ascii.eqb_spec "+" c) as [<-|_]; [eauto | discriminate].
Qed.

End AnalyzerFacts.

(** ** Key battles *)

Section BattleClaims.

Import RaceAnalyzer.

Context {L : Library}.

#[local] Arguments Text.startswith : simpl never.
#[local] Arguments Parse.py_float : simpl never.
#[local] Arguments Float.leb : simpl never.

(** The gap of a row, when its [GAP_PREV] field can be read: the text of
    the field starts with [+] and what follows is a float for [float()]. *)
Definition parsed_gap (row : Series) : option float :=
  let gap_str := py_str (get row "GAP_PREV" (VStr "")) in
  if Text.startswith "+" gap_str then Parse.py_float (Text.drop1 gap_str) else None.

(** The battle that a row records, if it records one. *)
Definition battle_of (gap_threshold : float) (ir : Z * Series) : option Battle.t :=
  match parsed_gap (snd ir) with
  | Some gap =>
      if Float.leb gap gap_threshold then
        Some {| Battle.position := get (snd ir) "POSITION" (VInt (fst ir + 1));
                Battle.driver := py_or (driver_name (snd ir)) (VStr "Unknown");
                Battle.car_number := get (snd ir) "NUMBER" (VStr "N/A");
                Battle.gap := gap;
                Battle.classification := "Close Battle" |}
      else None
  | None => None
  end.

Lemma gap_examples :
  Parse.py_float "3.500" = Some (Float.of_decimal false 35 (-1)) /\
  Float.leb (Float.of_decimal false 35 (-1)) f5 = true /\
  Parse.py_float "7.000" = Some (Float.of_Z 7) /\
  Float.leb (Float.of_Z 7) f5 = false /\
  Parse.py_float "NF" = None.
Proof. vm_compute. repeat split. Qed.

Lemma battle_step_spec (thr : float) (battles : list Battle.t) (ir : Z * Series) :
  fst ir <> 0%Z ->
  battle_step thr battles ir = Ok (battles ++ to_list (battle_of thr ir)).
Proof.
  destruct ir as [idx row]. simpl. intros Hidx.
  destruct (Z.eqb_spec idx 0) as [E|_]; [contradiction|].
  unfold battle_try, battle_of, parsed_gap. simpl.
  destruct (Text.startswith "+" (py_str (get row "GAP_PREV" (VStr "")))).
  - destruct (Parse.py_float _) as [g|]; simpl.
    + destruct (Float.leb g thr); simpl; [reflexivity | now rewrite app_nil_r].
    + now rewrite app_nil_r.
  - simpl. now rewrite app_nil_r.
Qed.

Lemma battle_step_leader (thr : float) (battles : list Battle.t) (row : Series) :
  battle_step thr battles (0%Z, row) = Ok battles.
Proof. reflexivity. Qed.

Lemma battle_of_unreadable (thr : float) (df : DataFrame) (ir : Z * Series) :
  has_column "GAP_PREV" df = false -> In ir (iterrows df) -> battle_of thr ir = None.
Proof.
  intros H Hin. destruct ir as [i row].
  destruct (in_iterrows df i row Hin) as (r & _ & ->).
  unfold battle_of, parsed_gap, get. simpl.
  now rewrite (lookup_absent "GAP_PREV" df r H).
Qed.

Lemma battles_closed_form (df : DataFrame) (thr : float) :
  identify_key_battles df thr = Ok (keep (battle_of thr) (tl (iterrows df))).
Proof.
  unfold identify_key_battles.
  destruct (empty df) eqn:Ee; simpl.
  - destruct (empty_no_column df "GAP_PREV" Ee) as [E|E].
    + unfold iterrows. now rewrite (values_nil df E).
    + rewrite keep_none; [reflexivity|].
      intros ir Hin. apply (battle_of_unreadable thr df ir E).
      destruct (iterrows df); simpl in *; [tauto | now right].
  - destruct (has_column "GAP_PREV" df) eqn:Eg; simpl.
    + unfold iterrows. destruct (map (series_of df) (values df)) as [|row0 rest]; simpl.
      * reflexivity.
      * change (for_each (battle_step thr) (indexed 1 rest) [] =
                Ok ([] ++ keep (battle_of thr) (indexed 1 rest))).
        apply for_each_appends. intros s [i row] Hin.
        apply battle_step_spec. simpl.
        pose proof (indexed_from _ 1 rest i row Hin). lia.
    + rewrite keep_none; [reflexivity|].
      intros ir Hin. apply (battle_of_unreadable thr df ir Eg).
      destruct (iterrows df); simpl in *; [tauto | now right].
Qed.

(** C1, as the design document states it, does not hold: no lower bound
    is tested. The field ["+-1.000"] starts with [+], what follows reads as
    [-1.0], and the row records a battle with this negative gap. *)
Lemma identify_key_battles_negative_gap :
  let L := Model.library [] in
  let results :=
    {| columns := ["POSITION"; "DRIVER"; "NUMBER"; "GAP_PREV"];
       rows := [ [VInt 1; VStr "A"; VInt 7; VStr "-"];
                 [VInt 2; VStr "B"; VInt 8; VStr "+-1.000"] ] |} in
  identify_key_battles results f5 =
    Ok [ {| Battle.position := VInt 2;
            Battle.driver := VStr "B";
            Battle.car_number := VInt 8;
            Battle.gap := Float.of_decimal true 1 0;
            Battle.classification := "Close Battle" |} ] /\
  Float.leb (S754_zero false) (Float.of_decimal true 1 0) = false.
Proof. intros L0 results. split; vm_compute; reflexivity. Qed.

(** C1, amended. For every results table whose labels are pairwise
    distinct and every threshold, the rows after
    the first are examined in their order, and a row records a battle
    exactly when the text of its [GAP_PREV] field starts with [+], what
    follows the [+] is read by [float()], and the gap read is at most the
    threshold; no lower bound is tested. The battles come in the order of
    the rows. With the threshold 5.0, ["+3.500"] gives a battle of gap 3.5,
    and ["+7.000"], ["-1.000"] and ["DNF"] give none. *)
Theorem identify_key_battles_spec (df : DataFrame) (gap_threshold : float) :
  frame_ok df = true ->
  identify_key_battles df gap_threshold =
    Ok (keep (battle_of gap_threshold) (tl (iterrows df))) /\
  (forall ir,
     (exists b, battle_of gap_threshold ir = Some b) <->
     (exists rest gap,
        py_str (get (snd ir) "GAP_PREV" (VStr "")) = String "+" rest /\
        Parse.py_float rest = Some gap /\
        Float.leb gap gap_threshold = true)) /\
  (forall ir b, battle_of gap_threshold ir = Some b ->
     parsed_gap (snd ir) = Some (Battle.gap b)) /\
  (forall ir,
     get (snd ir) "GAP_PREV" (VStr "") = VStr "+3.500" ->
     exists b, battle_of f5 ir = Some b /\ Battle.gap b = Float.of_decimal false 35 (-1)) /\
  (forall ir s,
     get (snd ir) "GAP_PREV" (VStr "") = VStr s ->
     s = "+7.000" \/ s = "-1.000" \/ s = "DNF" ->
     battle_of f5 ir = None).
Proof.
  intros _. split; [apply battles_closed_form|]. split; [|split; [|split]].
  - intros ir. unfold battle_of, parsed_gap. split.
    + intros (b & H).
      destruct (Text.startswith "+" (py_str (get (snd ir) "GAP_PREV" (VStr ""))))
        eqn:Ep; [|discriminate].
      apply starts_with_plus in Ep as (rest & Es). rewrite Es in H.
      cbn [Text.drop1] in H.
      destruct (Parse.py_float rest) as [g|] eqn:Eg; [|discriminate].
      destruct (Float.leb g gap_threshold) eqn:El; [|discriminate].
      now exists rest, g.
    + intros (rest & g & Es & Eg & El). rewrite Es.
      change (Text.startswith "+" (String "+" rest)) with true.
      cbn [Text.drop1]. rewrite Eg, El. eauto.
  - intros ir b. unfold battle_of.
    destruct (parsed_gap (snd ir)) as [g|]; [|discriminate].
    destruct (Float.leb g gap_threshold); [|discriminate].
    now intros [= <-].
  - intros ir H. unfold battle_of, parsed_gap. rewrite H.
    change (py_str (VStr "+3.500")) with "+3.500".
    change (Text.startswith "+" "+3.500") with true.
    change (Text.drop1 "+3.500") with "3.500".
    rewrite (proj1 gap_examples). cbv iota. rewrite (proj1 (proj2 gap_examples)).
    eexists. split; reflexivity.
  - intros ir s H Hs. unfold battle_of, parsed_gap. rewrite H.
    change (py_str (VStr s)) with s.
    destruct gap_examples as (_ & _ & E7 & L7 & ED).
    destruct Hs as [->|[->| ->]].
    + change (Text.startswith "+" "+7.000") with true.
      change (Text.drop1 "+7.000") with "7.000".
      rewrite E7. cbv iota. now rewrite L7.
    + reflexivity.
    + reflexivity.
Qed.

End BattleClaims.

Lemma identify_key_battles_spec_witness :
  let L := Model.library [] in
  let results :=
    {| columns := ["POSITION"; "DRIVER"; "NUMBER"; "GAP_PREV"];
       rows := [ [VInt 1; VStr "A"; VInt 7; VStr "+0.000"];
                 [VInt 2; VStr "B"; VInt 8; VStr "+3.500"];
                 [VInt 3; VStr "C"; VInt 9; VStr "+7.000"];
                 [VInt 4; VStr "D"; VInt 10; VStr "DNF"];
                 [VInt 5; VStr "E"; VInt 11; VStr "+0.250"] ] |} in
  frame_ok results = true /\
  RaceAnalyzer.identify_key_battles results RaceAnalyzer.f5 =
    Ok (keep (battle_of RaceAnalyzer.f5) (tl (iterrows results))) /\
  map Battle.driver (keep (battle_of RaceAnalyzer.f5) (tl (iterrows results))) =
    [VStr "B"; VStr "E"].
Proof.
  intros L0 results. split; [reflexivity|]. split.
  - exact (proj1 (@identify_key_battles_spec L0 results RaceAnalyzer.f5 eq_refl)).
  - vm_compute. reflexivity.
Defined.

(** ** Lap times *)

Section LapFacts.

Import RaceAnalyzer.

(** [s.partition(c)]: the text before the first [c] and the text after it. *)
Fixpoint cut (c : ascii) (s : string) : option (string * string) :=
  match s with
  | EmptyString => None
  | String d r =>
      if Ascii.eqb c d then Some (EmptyString, r)
      else match cut c r with
           | Some (a, b) => Some (String d a, b)
           | None => None
           end
  end.

Lemma split_cut (c : ascii) (s : string) :
  Text.split c s = match cut c s with
                   | Some (a, b) => a :: Text.split c b
                   | None => [s]
                   end.
Proof.
  induction s as [|d r IH]; cbn [Text.split cut]; [reflexivity|].
  destruct (Ascii.eqb c d); [reflexivity|].
  rewrite IH. now destruct (cut c r) as [[a b]|].
Qed.

Lemma contains_cut (c : ascii) (s : string) :
  Text.contains c s = match cut c s with Some _ => true | None => false end.
Proof.
  induction s as [|d r IH]; cbn [Text.contains cut]; [reflexivity|].
  destruct (Ascii.eqb c d); [reflexivity|].
  rewrite IH. now destruct (cut c r) as [[a b]|].
Qed.

Lemma cut_app (c : ascii) (a t : string) :
  Text.contains c a = false -> cut c (a ++ String c t) = Some (a, t).
Proof.
  induction a as [|d r IH]; cbn [Text.contains cut String.append].
  - intros _. now rewrite Ascii.eqb_refl.
  - destruct (Ascii.eqb c d); [discriminate|]. cbn [orb]. intros H.
    now rewrite (IH H).
Qed.

Lemma cut_none (c : ascii) (s : string) :
  Text.contains c s = false -> cut c s = None.
Proof. rewrite contains_cut. now destruct (cut c s). Qed.

(** The seconds that a best-lap text stands for: the first two pieces
    between colons, read as minutes and seconds. *)
Definition seconds_of (time_str : string) : option float :=
  match Text.split ":" time_str with
  | p0 :: p1 :: _ =>
      match Parse.py_float p0, Parse.py_float p1 with
      | Some minutes, Some secs => Some (Float.add (Float.mul minutes f60) secs)
      | _, _ => None
      end
  | _ => None
  end.

(** The same with the text cut once, at its first colon. *)
Definition first_colon_seconds (time_str : string) : option float :=
  match cut ":" time_str with
  | Some (a, b) =>
      match Parse.py_float a, Parse.py_float b with
      | Some minutes, Some secs => Some (Float.add (Float.mul minutes f60) secs)
      | _, _ => None
      end
  | None => None
  end.

Lemma lap_try_caught (time_str : string) :
  try_except (lap_try time_str) [ValueError; IndexError] (Ok None) =
  Ok (seconds_of time_str).
Proof.
  unfold lap_try, seconds_of. rewrite contains_cut, split_cut.
  destruct (cut ":" time_str) as [[a b]|]; [|reflexivity].
  rewrite (split_cut ":" b).
  assert (E : exists p1 ps, match cut ":" b with
                            | Some (a0, b0) => a0 :: Text.split ":" b0
                            | None => [b]
                            end = p1 :: ps)
    by (destruct (cut ":" b) as [[? ?]|]; eauto).
  destruct E as (p1 & ps & ->).
  cbn [index nth_error bind].
  destruct (Parse.py_float a); cbn [or_ValueError bind try_except]; [|reflexivity].
  destruct (Parse.py_float p1); reflexivity.
Qed.

End LapFacts.

Section LapClaims.

Import RaceAnalyzer.

Context {L : Library}.

(** The value that the cell [BESTLAP_i] of a row contributes, if any. *)
Definition lap_of (row : Series) (i : nat) : option float :=
  let lap_col := ("BESTLAP_" ++ str_of_nat i)%string in
  if series_has lap_col row && notna (get row lap_col NaN)
  then seconds_of (py_str (get row lap_col NaN))
  else None.

Lemma lap_step_spec (row : Series) (lap_times : list float) (i : nat) :
  lap_step row lap_times i = Ok (lap_times ++ to_list (lap_of row i)).
Proof.
  unfold lap_step, lap_of.
  generalize ("BESTLAP_" ++ str_of_nat i)%string. intros lap_col.
  destruct (series_has _ row && notna _); [|cbn [to_list]; now rewrite app_nil_r].
  pose proof (lap_try_caught (py_str (get row lap_col NaN))) as H.
  destruct (lap_try _) as [[x|]|e]; cbn [bind try_except] in *.
  - injection H as H. now rewrite <- H.
  - injection H as H. rewrite <- H. cbn [to_list]. now rewrite app_nil_r.
  - destruct (existsb (exn_eqb e) [ValueError; IndexError]).
    + injection H as H. rewrite <- H. cbn [to_list]. now rewrite app_nil_r.
    + discriminate.
Qed.

(** The lap times that a row contributes, in the order of the fields. *)
Definition valid_laps (row : Series) : list float := keep (lap_of row) (seq 1 10).

Lemma lap_times_of_spec (row : Series) : lap_times_of row = Ok (valid_laps row).
Proof.
  unfold lap_times_of, valid_laps.
  change (Ok (keep (lap_of row) (seq 1 10)))
    with (Ok ([] ++ keep (lap_of row) (seq 1 10)) : res (list float)).
  apply for_each_appends. intros s x _. apply lap_step_spec.
Qed.

(** A best-lap text is split at every colon and its first two pieces are
    read as minutes and seconds; what follows a second colon is ignored. A
    text with one colon is read as its two sides; a text without a colon,
    or with a piece that [float()] rejects, contributes nothing. The cell
    never makes the loop raise. *)
Theorem lap_text_reading (row : Series) (lap_times : list float) (i : nat) (s : string) :
  lookup ("BESTLAP_" ++ str_of_nat i)%string row = Some (VStr s) ->
  lap_step row lap_times i = Ok (lap_times ++ to_list (seconds_of s)) /\
  (Text.contains ":" s = false -> seconds_of s = None) /\
  (forall a b,
     s = (a ++ ":" ++ b)%string ->
     Text.contains ":" a = false -> Text.contains ":" b = false ->
     seconds_of s = first_colon_seconds s /\
     seconds_of s =
       match Parse.py_float a, Parse.py_float b with
       | Some minutes, Some secs => Some (Float.add (Float.mul minutes f60) secs)
       | _, _ => None
       end) /\
  (forall a b rest,
     s = (a ++ ":" ++ b ++ ":" ++ rest)%string ->
     Text.contains ":" a = false -> Text.contains ":" b = false ->
     seconds_of s = seconds_of (a ++ ":" ++ b)%string).
Proof.
  intros Hcell. split; [|split; [|split]].
  - rewrite lap_step_spec. unfold lap_of, series_has, get. rewrite Hcell. reflexivity.
  - intros H. unfold seconds_of. rewrite split_cut, (cut_none ":" s H). reflexivity.
  - intros a b -> Ha Hb. unfold seconds_of, first_colon_seconds.
    rewrite split_cut. change (a ++ ":" ++ b)%string with (a ++ String ":" b)%string.
    rewrite (cut_app ":" a b Ha), split_cut, (cut_none ":" b Hb). split; reflexivity.
  - intros a b rest -> Ha Hb. unfold seconds_of.
    change (a ++ ":" ++ b ++ ":" ++ rest)%string
      with (a ++ String ":" (b ++ String ":" rest))%string.
    change (a ++ ":" ++ b)%string with (a ++ String ":" b)%string.
    rewrite !(split_cut ":" (a ++ _)), !(cut_app ":" a _ Ha).
    rewrite (split_cut ":" (b ++ _)), (cut_app ":" b rest Hb).
    rewrite (split_cut ":" b), (cut_none ":" b Hb). reflexivity.
Qed.

End LapClaims.

Lemma lap_text_reading_witness :
  let L := Model.library [] in
  let row := [("NUMBER", VInt 7); ("BESTLAP_2", VStr "1:23:45")] in
  lookup ("BESTLAP_" ++ RaceAnalyzer.str_of_nat 2)%string row = Some (VStr "1:23:45") /\
  RaceAnalyzer.lap_step row [] 2 = Ok (to_list (seconds_of "1:23:45")) /\
  seconds_of "1:23:45" = Some (Float.of_Z 83) /\
  first_colon_seconds "1:23:45" = None.
Proof.
  intros L0 row. split; [reflexivity|]. split.
  - exact (proj1 (@lap_text_reading L0 row [] 2 "1:23:45" eq_refl)).
  - split; vm_compute; reflexivity.
Defined.

(** ** Orderings and reordering *)

Section OrderFacts.

Import RaceAnalyzer.







Lemma reorder_shift {A : Type} (x : A) (l : list A) (p : list nat) :
  reorder (x :: l) (map S p) = reorder l p.
Proof.
  unfold reorder. induction p as [|i r IH]; simpl; [reflexivity|]. now rewrite IH.
Qed.

Lemma reorder_all {A : Type} (l : list A) : reorder l (seq 0 (List.length l)) = l.
Proof.
  induction l as [|x r IH]; [reflexivity|].
  cbn [List.length seq]. rewrite <- seq_shift.
  change (reorder (x :: r) (0 :: map S (seq 0 (List.length r))))
    with (x :: reorder (x :: r) (map S (seq 0 (List.length r)))).
  now rewrite reorder_shift, IH.
Qed.

Lemma reorder_perm {A : Type} (l : list A) (p : list nat) :
  Permutation p (seq 0 (List.length l)) -> Permutation (reorder l p) l.
Proof.
  intros H. rewrite <- (reorder_all l) at 2. unfold reorder.
  now apply Permutation_flat_map.
Qed.



Lemma lookup_present (c : string) (cols : list string) (r : list value) :
  List.length r = List.length cols -> existsb (String.eqb c) cols = true ->
  exists v, lookup c (combine cols r) = Some v.
Proof.
  revert r. induction cols as [|k t IH]; intros [|v r]; simpl; try discriminate.
  intros [= Hl]. destruct (String.eqb c k); simpl; [eauto|]. now apply IH.
Qed.

Lemma frame_ok_row (df : DataFrame) (r : list value) :
  frame_ok df = true -> In r (rows df) -> List.length r = List.length (columns df).
Proof.
  unfold frame_ok. intros H Hin. apply andb_true_iff in H as [_ H].
  rewrite forallb_forall in H. apply Nat.eqb_eq. now apply H.
Qed.

Lemma frame_lookup (df : DataFrame) (c : string) (r : list value) :
  frame_ok df = true -> has_column c df = true -> In r (values df) ->
  exists v, lookup c (series_of df r) = Some v.
Proof.
  intros Hok Hc Hin. apply lookup_present; [|exact Hc].
  destruct (in_values df r Hin) as (r0 & H0 & [-> | ->]);
    [|rewrite length_map]; now apply frame_ok_row.
Qed.

End OrderFacts.

(** ** Consistency *)

Section ConsistencyClaims.

Import RaceAnalyzer.

Context {L : Library}.


(** The record that a row contributes, if it contributes one. *)
Definition consistency_of (row : Series) : option Consistency.t :=
  let lap_times := valid_laps row in
  if (3 <=? List.length lap_times)%nat then
    match lookup "NUMBER" row, py_min lap_times with
    | Some number, Ok best =>
        Some {| Consistency.driver :=
                  fmt2 (get row "FIRSTNAME" (VStr "")) (get row "SECONDNAME" (VStr ""));
                Consistency.car_number := number;
                Consistency.team := get row "TEAM" (VStr "");
                Consistency.best_lap := best;
                Consistency.average_lap := np_mean lap_times;
                Consistency.std_dev := np_std lap_times;
                Consistency.consistency_score :=
                  Float.div f1 (Float.add (np_std lap_times) f0_001) |}
    | _, _ => None
    end
  else None.

Lemma py_min_total (l : list float) :
  (1 <= List.length l)%nat -> exists m, py_min l = Ok m.
Proof. destruct l; simpl; [lia | eauto]. Qed.

Lemma consistency_step_spec (data : list Consistency.t) (ir : Z * Series) (v : value) :
  lookup "NUMBER" (snd ir) = Some v ->
  consistency_step data ir = Ok (data ++ to_list (consistency_of (snd ir))).
Proof.
  destruct ir as [idx row]. cbn [snd]. intros Hn.
  unfold consistency_step, consistency_of. rewrite lap_times_of_spec. cbn [bind].
  destruct (3 <=? List.length (valid_laps row))%nat eqn:E;
    [|cbn [to_list]; now rewrite app_nil_r].
  apply Nat.leb_le in E.
  destruct (py_min_total (valid_laps row)) as (m & Hm); [lia|].
  unfold item. rewrite Hn, Hm. reflexivity.
Qed.

Lemma consistency_step_no_number (data : list Consistency.t) (ir : Z * Series) :
  lookup "NUMBER" (snd ir) = None ->
  consistency_step data ir =
  if (3 <=? List.length (valid_laps (snd ir)))%nat then Raise KeyError else Ok data.
Proof.
  destruct ir as [idx row]. cbn [snd]. intros Hn.
  unfold consistency_step. rewrite lap_times_of_spec. cbn [bind].
  destruct (3 <=? List.length (valid_laps row))%nat; [|reflexivity].
  unfold item. now rewrite Hn.
Qed.







End ConsistencyClaims.





(** ** Fastest laps *)

Section FastestLapClaims.

Import RaceAnalyzer.

Context {L : Library}.




Lemma select_missing (cols : list string) (df : DataFrame) (c : string) :
  In c cols -> has_column c df = false -> select cols df = Raise KeyError.
Proof.
  intros Hin Hc. unfold select.
  destruct (forallb (fun c0 => has_column c0 df) cols) eqn:E; [|reflexivity].
  rewrite forallb_forall in E. rewrite (E c Hin) in Hc. discriminate.
Qed.

(** On a table that is not empty and has [FL_TIME], the function raises
    [KeyError] when any of the other seven columns it selects is missing:
    only [FL_TIME] is tested before the selection. *)
Theorem analyze_fastest_laps_missing_column (results_df : DataFrame) (c : string) :
  frame_ok results_df = true ->
  empty results_df = false ->
  has_column "FL_TIME" results_df = true ->
  In c fl_columns ->
  has_column c results_df = false ->
  analyze_fastest_laps results_df = Raise KeyError.
Proof.
  intros _ He Hf Hin Hc. unfold analyze_fastest_laps. rewrite He, Hf. cbn [negb orb].
  now rewrite (select_missing fl_columns results_df c Hin Hc).
Qed.




End FastestLapClaims.

Definition sample_results : DataFrame :=
  {| columns := ["POSITION"; "NUMBER"; "DRIVER_FIRSTNAME"; "DRIVER_SECONDNAME";
                 "FL_TIME"; "FL_LAPNUM"; "FL_KPH"; "TEAM"; "GRID"];
     rows := [ [VInt 1; VInt 7; VStr "A"; VStr "Smith";
                VStr "1:23.456"; VInt 5; VStr "150.1"; VStr "T1"; VInt 3];
               [VInt 2; VInt 8; VStr "B"; VStr "Jones";
                VStr "1:22.100"; VInt 6; VStr "151.1"; VStr "T2"; VInt 1];
               [VInt 3; VInt 9; VStr "C"; VStr "Kent";
                VStr "1:25.000"; VInt 7; VStr "149.1"; VStr "T3"; VInt 2] ] |}.


Definition sample_normalized_results : DataFrame :=
  {| columns := ["POSITION"; "NUMBER"; "DRIVER_FIRST"; "DRIVER_LAST";
                 "FL_TIME"; "FL_LAPNUM"; "FL_KPH"; "TEAM"];
     rows := [ [VInt 1; VInt 7; VStr "A"; VStr "Smith";
                VStr "1:23.456"; VInt 5; VStr "150.1"; VStr "T1"] ] |}.

Lemma analyze_fastest_laps_missing_column_witness :
  let L := Model.library [] in
  frame_ok sample_normalized_results = true /\
  empty sample_normalized_results = false /\
  has_column "FL_TIME" sample_normalized_results = true /\
  In "DRIVER_FIRSTNAME" RaceAnalyzer.fl_columns /\
  has_column "DRIVER_FIRSTNAME" sample_normalized_results = false /\
  RaceAnalyzer.analyze_fastest_laps sample_normalized_results = Raise KeyError.
Proof.
  intros L0.
  assert (Hin : In "DRIVER_FIRSTNAME" RaceAnalyzer.fl_columns)
    by (unfold RaceAnalyzer.fl_columns; simpl; tauto).
  split; [reflexivity|]. split; [reflexivity|]. split; [reflexivity|].
  split; [exact Hin|]. split; [reflexivity|].
  exact (@analyze_fastest_laps_missing_column L0 sample_normalized_results
           "DRIVER_FIRSTNAME" eq_refl eq_refl eq_refl Hin eq_refl).
Defined.

(** ** Position changes *)

Section ChangeFacts.

Import RaceAnalyzer.

Definition gained_desc (a b : Change.t) : Prop :=
  (Change.positions_gained b <= Change.positions_gained a)%Z.

Lemma insert_desc_perm (x : Change.t) (l : list Change.t) :
  Permutation (insert_desc x l) (x :: l).
Proof.
  induction l as [|y r IH]; cbn [insert_desc]; [reflexivity|].
  destruct (Change.positions_gained y <=? Change.positions_gained x)%Z; [reflexivity|].
  rewrite IH. apply perm_swap.
Qed.

Lemma sort_desc_perm (l : list Change.t) : Permutation (sort_desc l) l.
Proof.
  induction l as [|x r IH]; cbn [sort_desc fold_right]; [constructor|].
  fold (sort_desc r). rewrite insert_desc_perm. now constructor.
Qed.

Lemma insert_desc_sorted (x : Change.t) (l : list Change.t) :
  StronglySorted gained_desc l -> StronglySorted gained_desc (insert_desc x l).
Proof.
  induction l as [|y r IH]; cbn [insert_desc]; intros Hs.
  - repeat constructor.
  - inversion Hs as [|y' r' Hr Hy]; subst.
    destruct (Z.leb_spec (Change.positions_gained y) (Change.positions_gained x)) as [E|E].
    + constructor; [assumption|]. constructor; [exact E|].
      eapply Forall_impl; [|exact Hy]. unfold gained_desc. intros a Ha. lia.
    + constructor; [now apply IH|].
      apply Permutation_Forall with (x := x :: r).
      * symmetry. apply insert_desc_perm.
      * constructor; [unfold gained_desc; lia | assumption].
Qed.

Lemma sort_desc_sorted (l : list Change.t) : StronglySorted gained_desc (sort_desc l).
Proof.
  induction l as [|x r IH]; cbn [sort_desc fold_right]; [constructor|].
  fold (sort_desc r). now apply insert_desc_sorted.
Qed.

(** A cell on which [int()] returns or raises [ValueError]: any cell but an
    infinite float. *)
Definition finite_cell (v : value) : bool :=
  match v with
  | VFloat x => negb (Float.is_inf x)
  | _ => true
  end.

Lemma py_int_finite (v : value) :
  finite_cell v = true -> (exists n, py_int v = Ok n) \/ py_int v = Raise ValueError.
Proof.
  destruct v as [s|n|x|b]; cbn [finite_cell py_int].
  - intros _. destruct (Parse.py_int s); cbn [or_ValueError]; eauto.
  - eauto.
  - intros H. apply negb_true_iff in H. rewrite H.
    destruct (Float.is_nan x); [now right|].
    destruct (Float.trunc x); eauto.
  - eauto.
Qed.

Lemma lookup_in_column (df : DataFrame) (c : string) (r : list value) (v : value) :
  In r (rows df) -> lookup c (series_of df r) = Some v -> In v (column c df).
Proof.
  intros Hin Hv. unfold column. apply in_map_iff. exists r. split; [|assumption].
  unfold get. now rewrite Hv.
Qed.

End ChangeFacts.

Section ChangeClaims.

Import RaceAnalyzer.

Context {L : Library}.

(** The record that a row contributes, if it contributes one: the three
    fields are there and [int()] reads the two positions. *)
Definition change_of (grid_position_col : string) (row : Series) : option Change.t :=
  match lookup grid_position_col row, lookup "POSITION" row, lookup "NUMBER" row with
  | Some g, Some f, Some number =>
      match py_int g, py_int f with
      | Ok start_pos, Ok finish_pos =>
          Some {| Change.driver :=
                    fmt2 (get row "DRIVER_FIRSTNAME" (VStr ""))
                         (get row "DRIVER_SECONDNAME" (VStr ""));
                  Change.car_number := number;
                  Change.start_position := start_pos;
                  Change.finish_position := finish_pos;
                  Change.positions_gained := (start_pos - finish_pos)%Z |}
      | _, _ => None
      end
  | _, _, _ => None
  end.

Lemma change_step_spec (grid : string) (changes : list Change.t) (ir : Z * Series)
    (g f : value) :
  lookup grid (snd ir) = Some g -> lookup "POSITION" (snd ir) = Some f ->
  finite_cell g = true -> finite_cell f = true ->
  change_step grid changes ir = Ok (changes ++ to_list (change_of grid (snd ir))).
Proof.
  destruct ir as [idx row]. cbn [snd]. intros Hg Hf Fg Ff.
  unfold change_step, change_try, change_of, item. cbn [snd]. rewrite Hg, Hf.
  cbn [bind].
  destruct (py_int_finite g Fg) as [(s & Es)|Es]; rewrite Es; cbn [bind try_except].
  - destruct (py_int_finite f Ff) as [(e & Ee)|Ee]; rewrite Ee; cbn [bind try_except].
    + destruct (lookup "NUMBER" row); cbn [bind try_except]; [reflexivity|].
      cbn [existsb exn_eqb orb to_list]. now rewrite app_nil_r.
    + cbn [existsb exn_eqb orb].
      destruct (lookup "NUMBER" row); cbn [to_list]; now rewrite app_nil_r.
  - cbn [existsb exn_eqb orb].
    destruct (lookup "NUMBER" row); cbn [to_list]; now rewrite app_nil_r.
Qed.

(** Without a [NUMBER] field the row is dropped: [row['NUMBER']] raises
    [KeyError] inside the [try]. *)
Lemma change_of_needs_number (grid : string) (row : Series) :
  lookup "NUMBER" row = None -> change_of grid row = None.
Proof.
  intros H. unfold change_of. rewrite H.
  destruct (lookup grid row); [|reflexivity]. now destruct (lookup "POSITION" row).
Qed.

(** C7, as the design document states it, does not hold: a table with the
    grid field and the [POSITION] field and no [NUMBER] field gives the empty
    list, even for a row whose two fields are the integers 5 and 2. *)
Lemma get_position_changes_needs_number :
  let L := Model.library [] in
  let results := {| columns := ["GRID"; "POSITION"]; rows := [[VInt 5; VInt 2]] |} in
  has_column "GRID" results = true /\
  has_column "POSITION" results = true /\
  py_int (VInt 5) = Ok 5%Z /\
  py_int (VInt 2) = Ok 2%Z /\
  get_position_changes results "GRID" = Ok [].
Proof. intros L0 results. repeat split. Qed.

(** No infinite float stands in the grid field or the [POSITION] field
    of the row. *)
Definition finite_row (grid : string) (row : Series) : bool :=
  finite_cell (get row grid NaN) && finite_cell (get row "POSITION" NaN).

(** C7, amended. On a results table that has the grid field, the
    [POSITION] field and the [NUMBER] field, and whose rows, as [iterrows]
    hands them out, hold no infinite float in the first two,
    [get_position_changes] returns; a row contributes one record
    exactly when [int()] reads both fields, with [positions_gained] the
    start position less the finish position (grid 5 and position 2 give 3);
    a row on which [int()] raises [ValueError] for one of the two fields
    contributes nothing; and the records come with the positions gained in
    descending order. *)
Theorem get_position_changes_spec (results_df : DataFrame) (grid : string) :
  frame_ok results_df = true ->
  has_column grid results_df = true ->
  has_column "POSITION" results_df = true ->
  has_column "NUMBER" results_df = true ->
  forallb (fun ir => finite_row grid (snd ir)) (iterrows results_df) = true ->
  exists out,
    get_position_changes results_df grid = Ok out /\
    Permutation out (keep (fun ir => change_of grid (snd ir)) (iterrows results_df)) /\
    StronglySorted gained_desc out /\
    (forall ir, In ir (iterrows results_df) ->
       ((exists c, change_of grid (snd ir) = Some c) <->
        (exists g f s e,
           lookup grid (snd ir) = Some g /\ lookup "POSITION" (snd ir) = Some f /\
           py_int g = Ok s /\ py_int f = Ok e))) /\
    (forall row c, change_of grid row = Some c ->
       exists g f,
         lookup grid row = Some g /\ lookup "POSITION" row = Some f /\
         py_int g = Ok (Change.start_position c) /\
         py_int f = Ok (Change.finish_position c) /\
         Change.positions_gained c =
           (Change.start_position c - Change.finish_position c)%Z) /\
    (forall row number,
       lookup grid row = Some (VInt 5) -> lookup "POSITION" row = Some (VInt 2) ->
       lookup "NUMBER" row = Some number ->
       exists c, change_of grid row = Some c /\ Change.positions_gained c = 3%Z) /\
    (forall row g f,
       lookup grid row = Some g -> lookup "POSITION" row = Some f ->
       py_int g = Raise ValueError \/ py_int f = Raise ValueError ->
       change_of grid row = None).
Proof.
  intros Hok Hg Hp Hn Fin.
  rewrite forallb_forall in Fin.
  assert (Hloop : for_each (change_step grid) (iterrows results_df) [] =
                  Ok ([] ++ keep (fun ir => change_of grid (snd ir)) (iterrows results_df))).
  { apply for_each_appends. intros s [i row] Hin.
    destruct (in_iterrows _ _ _ Hin) as (r & Hr & ->).
    destruct (frame_lookup results_df grid r Hok Hg Hr) as (g & Eg).
    destruct (frame_lookup results_df "POSITION" r Hok Hp Hr) as (f & Ef).
    specialize (Fin _ Hin). unfold finite_row, get in Fin. cbn [snd] in Fin.
    rewrite Eg, Ef in Fin. apply andb_true_iff in Fin as [Fg Fp].
    exact (change_step_spec grid s (i, series_of results_df r) g f Eg Ef Fg Fp). }
  cbn [app] in Hloop.
  exists (sort_desc (keep (fun ir => change_of grid (snd ir)) (iterrows results_df))).
  split; [|split; [apply sort_desc_perm | split; [apply sort_desc_sorted|]]].
  - unfold get_position_changes. rewrite Hg. cbn [negb orb].
    destruct (empty results_df) eqn:Ee; cbn [orb].
    + destruct (empty_cases _ Ee) as [E|E].
      * unfold has_column in Hg. rewrite E in Hg. discriminate.
      * unfold iterrows. rewrite (values_nil _ E). reflexivity.
    + rewrite Hloop. reflexivity.
  - split; [|split; [|split]].
    + intros [i row] Hin. cbn [snd].
      destruct (in_iterrows _ _ _ Hin) as (r & Hr & ->).
      destruct (frame_lookup results_df "NUMBER" r Hok Hn Hr) as (n & En).
      unfold change_of. rewrite En. split.
      * intros (c & Hc).
        destruct (lookup grid (series_of results_df r)) as [g|]; [|discriminate].
        destruct (lookup "POSITION" (series_of results_df r)) as [f|]; [|discriminate].
        destruct (py_int g) as [s|] eqn:Es; [|discriminate].
        destruct (py_int f) as [e|] eqn:Ee; [|discriminate].
        exists g, f, s, e. auto.
      * intros (g & f & s & e & -> & -> & -> & ->). eauto.
    + intros row c. unfold change_of.
      destruct (lookup grid row) as [g|]; [|discriminate].
      destruct (lookup "POSITION" row) as [f|]; [|discriminate].
      destruct (lookup "NUMBER" row) as [n|]; [|discriminate].
      destruct (py_int g) as [s|] eqn:Es; [|discriminate].
      destruct (py_int f) as [e|] eqn:Ee; [|discriminate].
      intros [= <-]. exists g, f. cbn. auto.
    + intros row number E5 E2 En. unfold change_of. rewrite E5, E2, En.
      cbn [py_int]. eexists. split; reflexivity.
    + intros row g f Eg Ef H. unfold change_of. rewrite Eg, Ef.
      destruct (lookup "NUMBER" row); [|reflexivity].
      destruct H as [-> | ->]; [reflexivity|]. now destruct (py_int g).
Qed.

End ChangeClaims.

Lemma get_position_changes_spec_witness :
  let L := Model.library [] in
  let results :=
    {| columns := ["POSITION"; "NUMBER"; "GRID"];
       rows := [ [VInt 1; VInt 7; VStr "3"];
                 [VInt 2; VInt 8; VInt 5];
                 [VFloat Float.nan; VInt 9; VInt 2];
                 [VInt 4; VInt 10; VStr "pit"] ] |} in
  frame_ok results = true /\
  exists out,
    RaceAnalyzer.get_position_changes results "GRID" = Ok out /\
    StronglySorted gained_desc out /\
    Permutation out (keep (fun ir => change_of "GRID" (snd ir)) (iterrows results)) /\
    map Change.positions_gained
      (keep (fun ir => change_of "GRID" (snd ir)) (iterrows results)) = [2%Z; 3%Z].
Proof.
  intros L0 results. split; [reflexivity|].
  destruct (@get_position_changes_spec L0 results "GRID"
              eq_refl eq_refl eq_refl eq_refl eq_refl)
    as (out & H1 & H2 & H3 & _).
  exists out. split; [exact H1|]. split; [exact H3|]. split; [exact H2|].
  vm_compute. reflexivity.
Defined.

(** ** Empty tables *)

Section EmptyClaims.

Import RaceAnalyzer.

Context {L : Library}.

(** The dictionary of tables holds no results, or results without a row or
    without a column. *)
Definition no_results (race_data : list (string * DataFrame)) : Prop :=
  table "results" race_data = None \/
  exists results_df, table "results" race_data = Some results_df /\ empty results_df = true.

(** C10. On a table without a row or without a column every operation of
    the analyzer returns its default: the empty list, the empty table, or
    the record of defaults. On a dictionary of tables whose results are
    absent or empty, [generate_race_summary] returns the summary of
    defaults, with no winner and no finisher. None of them raises. *)
Theorem analyzer_defaults_on_empty :
  (forall df gap_threshold grid_position_col,
     empty df = true ->
     identify_key_battles df gap_threshold = Ok [] /\
     analyze_fastest_laps df = Ok empty_frame /\
     calculate_consistency df = Ok [] /\
     get_position_changes df grid_position_col = Ok [] /\
     analyze_race_progression df = Ok default_progression) /\
  (forall race_data,
     no_results race_data ->
     generate_race_summary race_data = Ok default_summary /\
     Summary.winner default_summary = None /\
     Summary.total_finishers default_summary = 0%Z).
Proof.
  split.
  - intros df thr grid He.
    unfold identify_key_battles, analyze_fastest_laps, calculate_consistency,
      get_position_changes, analyze_race_progression.
    rewrite He. cbn [orb]. repeat split.
  - intros race_data H. split; [|split; reflexivity].
    unfold generate_race_summary. destruct H as [-> | (d & -> & ->)]; reflexivity.
Qed.

End EmptyClaims.

Lemma analyzer_defaults_on_empty_witness :
  let L := Model.library [] in
  let header := {| columns := ["POSITION"; "FL_TIME"; "GAP_PREV"]; rows := [] |} in
  empty header = true /\
  RaceAnalyzer.analyze_fastest_laps header = Ok empty_frame /\
  RaceAnalyzer.generate_race_summary [("weather", header)] = Ok RaceAnalyzer.default_summary /\
  RaceAnalyzer.generate_race_summary [("results", header)] = Ok RaceAnalyzer.default_summary.
Proof.
  intros L0 header.
  destruct (@analyzer_defaults_on_empty L0) as (Hop & Hsum).
  split; [reflexivity|]. split; [|split].
  - exact (proj1 (proj2 (Hop header RaceAnalyzer.f5 "GRID" eq_refl))).
  - exact (proj1 (Hsum [("weather", header)] (or_introl eq_refl))).
  - refine (proj1 (Hsum [("results", header)] (or_intror _))).
    exists header. split; reflexivity.
Defined.

(** ** Position changes: ties, missing columns, overflow *)

Section PositionOrderFacts.

Import RaceAnalyzer.

Definition gained_is (k : Z) (c : Change.t) : bool := (Change.positions_gained c =? k)%Z.

Lemma insert_desc_stable (k : Z) (x : Change.t) (l : list Change.t) :
  filter (gained_is k) (insert_desc x l) = filter (gained_is k) (x :: l).
Proof.
  induction l as [|y r IH]; [reflexivity|]. cbn [insert_desc].
  destruct (Z.leb_spec (Change.positions_gained y) (Change.positions_gained x)) as [H|H];
    [reflexivity|].
  cbn [filter] in *. rewrite IH. unfold gained_is.
  destruct (Z.eqb_spec (Change.positions_gained x) k),
           (Z.eqb_spec (Change.positions_gained y) k); try reflexivity. lia.
Qed.

(** The sort keeps the records of equal gain in their order. *)
Lemma sort_desc_stable (k : Z) (l : list Change.t) :
  filter (gained_is k) (sort_desc l) = filter (gained_is k) l.
Proof.
  induction l as [|x r IH]; [reflexivity|]. cbn [sort_desc fold_right].
  fold (sort_desc r). rewrite insert_desc_stable. cbn [filter]. now rewrite IH.
Qed.

Definition is_infinite (v : value) : bool :=
  match v with VFloat x => Float.is_inf x | _ => false end.

Lemma py_int_raises (v : value) (e : exn) :
  py_int v = Raise e ->
  (e = ValueError /\ is_infinite v = false) \/ (e = OverflowError /\ is_infinite v = true).
Proof.
  destruct v as [s|n|x|b]; simpl; try discriminate.
  - destruct (Parse.py_int s); simpl; [discriminate|]. intros [= <-]. now left.
  - destruct x as [s|s| |s m ex]; simpl; try discriminate.
    + intros [= <-]. now right.
    + intros [= <-]. now left.
Qed.

Lemma py_int_infinite (v : value) :
  is_infinite v = true -> py_int v = Raise OverflowError.
Proof.
  destruct v as [s|n|x|b]; simpl; try discriminate. now destruct x.
Qed.


End PositionOrderFacts.

Section PositionProperties.

Import RaceAnalyzer.

Context {L : Library}.

(** No infinite float stands in the grid field or the [POSITION] field. *)
Definition finite_positions (grid_position_col : string) (row : Series) : bool :=
  negb (is_infinite (get row grid_position_col NaN)) &&
  negb (is_infinite (get row "POSITION" NaN)).

Lemma change_step_appends (grid : string) (changes : list Change.t) (ir : Z * Series) :
  finite_positions grid (snd ir) = true ->
  change_step grid changes ir = Ok (changes ++ to_list (change_of grid (snd ir))).
Proof.
  destruct ir as [idx row]. cbn [snd]. unfold finite_positions, get.
  intros H. apply andb_true_iff in H as [Hg Hf].
  apply negb_true_iff in Hg, Hf.
  unfold change_step, change_try, change_of, item. cbn [snd].
  destruct (lookup grid row) as [g|]; cbn [bind try_except existsb exn_eqb orb to_list];
    [|now rewrite app_nil_r].
  destruct (py_int g) as [s|e] eqn:Eg; cbn [bind try_except].
  - destruct (lookup "POSITION" row) as [f|];
      cbn [bind try_except existsb exn_eqb orb to_list]; [|now rewrite app_nil_r].
    destruct (py_int f) as [p|e] eqn:Ef; cbn [bind try_except].
    + destruct (lookup "NUMBER" row) as [n|];
        cbn [bind try_except existsb exn_eqb orb to_list]; [reflexivity|].
      now rewrite app_nil_r.
    + destruct (py_int_raises f e Ef) as [[-> _]|[_ Hi]]; [|congruence].
      cbn [existsb exn_eqb orb to_list].
      destruct (lookup "NUMBER" row); now rewrite app_nil_r.
  - destruct (py_int_raises g e Eg) as [[-> _]|[_ Hi]]; [|congruence].
    cbn [existsb exn_eqb orb to_list].
    destruct (lookup "POSITION" row); [|now rewrite app_nil_r].
    destruct (lookup "NUMBER" row); now rewrite app_nil_r.
Qed.



Definition changes_of (grid_position_col : string) (df : DataFrame) : list Change.t :=
  keep (fun ir => change_of grid_position_col (snd ir)) (iterrows df).

Lemma changes_of_absent (grid c : string) (df : DataFrame) :
  c = grid \/ c = "POSITION" \/ c = "NUMBER" ->
  has_column c df = false -> changes_of grid df = [].
Proof.
  intros Hc Hn. apply keep_none. intros [i row] Hin.
  destruct (in_iterrows _ _ _ Hin) as (r & _ & ->). cbn [snd]. unfold change_of.
  pose proof (lookup_absent c df r Hn) as E.
  destruct Hc as [->|[->| ->]]; rewrite E.
  - reflexivity.
  - now destruct (lookup grid _).
  - destruct (lookup grid _); [|reflexivity]. now destruct (lookup "POSITION" _).
Qed.

Lemma changes_run (results_df : DataFrame) (grid_position_col : string) :
  forallb (fun ir => finite_positions grid_position_col (snd ir)) (iterrows results_df)
    = true ->
  get_position_changes results_df grid_position_col =
    Ok (sort_desc (changes_of grid_position_col results_df)).
Proof.
  intros Hfin. rewrite forallb_forall in Hfin.
  unfold get_position_changes.
  destruct (empty results_df || negb (has_column grid_position_col results_df)) eqn:E.
  - assert (Hnil : changes_of grid_position_col results_df = []).
    { apply orb_true_iff in E as [E|E].
      - destruct (empty_no_column results_df grid_position_col E) as [Hr|Hc].
        + unfold changes_of, iterrows. now rewrite (values_nil _ Hr).
        + apply (changes_of_absent grid_position_col grid_position_col); auto.
      - apply negb_true_iff in E.
        apply (changes_of_absent grid_position_col grid_position_col); auto. }
    now rewrite Hnil.
  - assert (Hloop : for_each (change_step grid_position_col) (iterrows results_df) [] =
                    Ok ([] ++ changes_of grid_position_col results_df)).
    { apply for_each_appends. intros s ir Hin. apply change_step_appends. now apply Hfin. }
    now rewrite Hloop.
Qed.

(** When no row, as [iterrows] hands it out, holds an infinite float in
    the grid field or the [POSITION] field, the call returns the records that
    the rows contribute, sorted: no record has gained less than a later one,
    and records of equal gain keep the order of their rows. A row contributes
    a record exactly when its grid field, its [POSITION] field and its
    [NUMBER] field are there and [int()] reads the first two; the record
    holds the [NUMBER] cell as the row hands it out, the two positions read
    and their difference. *)
Theorem position_changes_closed_form (results_df : DataFrame) (grid_position_col : string) :
  frame_ok results_df = true ->
  forallb (fun ir => finite_positions grid_position_col (snd ir)) (iterrows results_df)
    = true ->
  get_position_changes results_df grid_position_col =
    Ok (sort_desc (changes_of grid_position_col results_df)) /\
  Permutation (sort_desc (changes_of grid_position_col results_df))
              (keep (fun ir => change_of grid_position_col (snd ir)) (iterrows results_df)) /\
  StronglySorted
    (fun a b => (Change.positions_gained b <= Change.positions_gained a)%Z)
    (sort_desc (changes_of grid_position_col results_df)) /\
  (forall k, filter (gained_is k) (sort_desc (changes_of grid_position_col results_df)) =
             filter (gained_is k) (changes_of grid_position_col results_df)) /\
  (forall row c,
     change_of grid_position_col row = Some c <->
     exists g f,
       lookup grid_position_col row = Some g /\
       lookup "POSITION" row = Some f /\
       lookup "NUMBER" row = Some (Change.car_number c) /\
       py_int g = Ok (Change.start_position c) /\
       py_int f = Ok (Change.finish_position c) /\
       Change.positions_gained c =
         (Change.start_position c - Change.finish_position c)%Z /\
       Change.driver c =
         fmt2 (get row "DRIVER_FIRSTNAME" (VStr "")) (get row "DRIVER_SECONDNAME" (VStr ""))).
Proof.
  intros _ Hfin. split; [now apply changes_run|].
  split; [apply sort_desc_perm|]. split; [apply sort_desc_sorted|].
  split; [intros k; apply sort_desc_stable|].
  intros row c. unfold change_of. split.
  - destruct (lookup grid_position_col row) as [g|]; [|discriminate].
    destruct (lookup "POSITION" row) as [f|]; [|discriminate].
    destruct (lookup "NUMBER" row) as [n|]; [|discriminate].
    destruct (py_int g) as [s|] eqn:Es; [|discriminate].
    destruct (py_int f) as [e|] eqn:Ee; [|discriminate].
    intros [= <-]. exists g, f. cbn. repeat split; assumption || reflexivity.
  - intros (g & f & -> & -> & -> & -> & -> & Hd & Hn).
    destruct c as [d n s e k]. cbn in *. now subst.
Qed.

(** The row makes [int()] overflow: an infinite float stands in its grid
    field, or in its [POSITION] field behind a grid field that [int()]
    reads. *)
Definition overflows (grid_position_col : string) (row : Series) : bool :=
  match lookup grid_position_col row with
  | Some g =>
      is_infinite g ||
      match py_int g, lookup "POSITION" row with
      | Ok _, Some f => is_infinite f
      | _, _ => false
      end
  | None => false
  end.

Lemma change_step_without_number (grid : string) (changes : list Change.t)
    (ir : Z * Series) :
  lookup "NUMBER" (snd ir) = None ->
  change_step grid changes ir =
  if overflows grid (snd ir) then Raise OverflowError else Ok changes.
Proof.
  destruct ir as [idx row]. cbn [snd]. intros Hn.
  unfold change_step, change_try, overflows, item. cbn [snd].
  destruct (lookup grid row) as [g|]; cbn [bind try_except existsb exn_eqb orb];
    [|reflexivity].
  destruct (py_int g) as [s|e] eqn:Eg; cbn [bind try_except].
  - assert (Hg : is_infinite g = false).
    { destruct (is_infinite g) eqn:E; [|reflexivity].
      rewrite (py_int_infinite g E) in Eg. discriminate. }
    rewrite Hg. cbn [orb].
    destruct (lookup "POSITION" row) as [f|];
      cbn [bind try_except existsb exn_eqb orb]; [|reflexivity].
    destruct (py_int f) as [p|e] eqn:Ef; cbn [bind try_except].
    + rewrite Hn. cbn [bind try_except existsb exn_eqb orb].
      destruct (is_infinite f) eqn:E; [|reflexivity].
      rewrite (py_int_infinite f E) in Ef. discriminate.
    + destruct (py_int_raises f e Ef) as [[-> ->]|[-> ->]]; reflexivity.
  - destruct (py_int_raises g e Eg) as [[-> ->]|[-> ->]]; reflexivity.
Qed.

Lemma loop_without_car_number (grid : string) (l : list (Z * Series))
    (changes : list Change.t) :
  (forall ir, In ir l -> lookup "NUMBER" (snd ir) = None) ->
  for_each (change_step grid) l changes =
  if existsb (fun ir => overflows grid (snd ir)) l then Raise OverflowError else Ok changes.
Proof.
  induction l as [|ir r IH]; intros H; [reflexivity|].
  cbn [for_each existsb].
  rewrite (change_step_without_number grid changes ir (H ir (or_introl eq_refl))).
  destruct (overflows grid (snd ir)); [reflexivity|].
  cbn [bind orb]. apply IH. intros x Hx. apply H. now right.
Qed.

(** Without a [NUMBER] column no row gives a record, whatever its grid and
    [POSITION] fields hold: [row['NUMBER']] raises the [KeyError] that the
    loop catches. The call returns the empty list, unless a row makes
    [int()] overflow before the [NUMBER] field is read: then it raises
    [OverflowError]. *)
Theorem position_changes_without_number (results_df : DataFrame)
    (grid_position_col : string) :
  frame_ok results_df = true ->
  has_column "NUMBER" results_df = false ->
  get_position_changes results_df grid_position_col =
  if existsb (fun ir => overflows grid_position_col (snd ir)) (iterrows results_df)
  then Raise OverflowError else Ok [].
Proof.
  intros _ Hn. unfold get_position_changes.
  destruct (empty results_df || negb (has_column grid_position_col results_df)) eqn:E.
  - assert (Hno : existsb (fun ir => overflows grid_position_col (snd ir))
                          (iterrows results_df) = false).
    { assert (H : rows results_df = [] \/ has_column grid_position_col results_df = false).
      { apply orb_true_iff in E as [E|E]; [now apply empty_no_column|].
        right. now apply negb_true_iff in E. }
      destruct H as [Hr|Hc].
      - unfold iterrows. now rewrite (values_nil _ Hr).
      - destruct (existsb _ (iterrows results_df)) eqn:Ex; [|reflexivity].
        apply existsb_exists in Ex as ([i row] & Hin & Ho).
        destruct (in_iterrows _ _ _ Hin) as (r & _ & ->). cbn [snd] in Ho.
        unfold overflows in Ho. rewrite (lookup_absent _ _ r Hc) in Ho. discriminate. }
    now rewrite Hno.
  - rewrite loop_without_car_number.
    + now destruct (existsb _ _).
    + intros [i row] Hin. destruct (in_iterrows _ _ _ Hin) as (r & _ & ->).
      now apply lookup_absent.
Qed.


End PositionProperties.

Definition sample_grid : DataFrame :=
  {| columns := ["GRID"; "POSITION"; "NUMBER"];
     rows := [ [VInt 5; VInt 2; VInt 7];
               [VStr "x"; VInt 1; VInt 8];
               [VStr " 3 "; VFloat (Float.of_Z 3); VInt 9];
               [VInt 1; VInt 4; VInt 10];
               [VInt 9; VInt 6; VInt 11] ] |}.

(** A grid read as floats, beside integer columns: the rows come out with
    every cell a float. *)
Definition sample_numeric_grid : DataFrame :=
  {| columns := ["GRID"; "POSITION"; "NUMBER"];
     rows := [ [VFloat (Float.of_Z 5); VInt 2; VInt 7];
               [VFloat Float.nan; VInt 1; VInt 8];
               [VFloat (Float.of_Z 9); VInt 6; VInt 11] ] |}.

Lemma position_changes_closed_form_witness :
  let L := Model.library [] in
  (frame_ok sample_grid = true /\
   RaceAnalyzer.get_position_changes sample_grid "GRID" =
     Ok (RaceAnalyzer.sort_desc (changes_of "GRID" sample_grid)) /\
   map (fun c => (Change.car_number c, Change.positions_gained c))
       (RaceAnalyzer.sort_desc (changes_of "GRID" sample_grid)) =
     [(VInt 7, 3%Z); (VInt 11, 3%Z); (VInt 9, 0%Z); (VInt 10, (-3)%Z)]) /\
  (frame_ok sample_numeric_grid = true /\
   RaceAnalyzer.get_position_changes sample_numeric_grid "GRID" =
     Ok (RaceAnalyzer.sort_desc (changes_of "GRID" sample_numeric_grid)) /\
   map (fun c => (Change.car_number c, Change.positions_gained c))
       (RaceAnalyzer.sort_desc (changes_of "GRID" sample_numeric_grid)) =
     [(VFloat (Float.of_Z 7), 3%Z); (VFloat (Float.of_Z 11), 3%Z)]).
Proof.
  intros L0. split.
  - split; [reflexivity|]. split.
    + exact (proj1 (@position_changes_closed_form L0 sample_grid "GRID" eq_refl eq_refl)).
    + vm_compute. reflexivity.
  - split; [reflexivity|]. split.
    + exact (proj1 (@position_changes_closed_form L0 sample_numeric_grid "GRID"
                      eq_refl eq_refl)).
    + vm_compute. reflexivity.
Defined.

Lemma position_changes_without_number_witness :
  let L := Model.library [] in
  let results := {| columns := ["GRID"; "POSITION"]; rows := [[VInt 5; VInt 2]] |} in
  let broken :=
    {| columns := ["GRID"; "POSITION"];
       rows := [[VFloat (Float.of_Z 5); VInt 2]; [VFloat (S754_infinity false); VInt 1]] |} in
  frame_ok results = true /\
  has_column "NUMBER" results = false /\
  RaceAnalyzer.get_position_changes results "GRID" = Ok [] /\
  RaceAnalyzer.get_position_changes broken "GRID" = Raise OverflowError.
Proof.
  intros L0 results broken. split; [reflexivity|]. split; [reflexivity|]. split.
  - exact (@position_changes_without_number L0 results "GRID" eq_refl eq_refl).
  - exact (@position_changes_without_number L0 broken "GRID" eq_refl eq_refl).
Defined.


(** ** Battles, the summary and the progression: what every result satisfies *)

Section SummaryProperties.

Import RaceAnalyzer.

Context {L : Library}.

Lemma or_unknown_truthy (v : value) : truthy (py_or v (VStr "Unknown")) = true.
Proof. unfold py_or. now destruct (truthy v) eqn:E. Qed.

Lemma keep_forall {A B : Type} (f : A -> option B) (P : B -> Prop) (l : list A) :
  (forall x y, f x = Some y -> P y) -> Forall P (keep f l).
Proof.
  intros H. induction l as [|x r IH]; simpl; [constructor|].
  destruct (f x) eqn:E; [constructor; eauto | assumption].
Qed.

Lemma keep_length {A B : Type} (f : A -> option B) (l : list A) :
  List.length (keep f l) <= List.length l.
Proof.
  induction l as [|x r IH]; simpl; [lia|]. destruct (f x); simpl; lia.
Qed.

Lemma iterrows_length (df : DataFrame) :
  List.length (iterrows df) = List.length (rows df).
Proof.
  unfold iterrows. rewrite <- values_length, <- (length_map (series_of df) (values df)).
  generalize 0%Z. induction (map (series_of df) (values df)) as [|x r IH]; intros k;
    simpl; [reflexivity|]. now rewrite IH.
Qed.

(** On a table whose labels are pairwise distinct, every battle that
    [identify_key_battles] returns has a gap that is at most the threshold,
    a driver for which [bool(driver)] holds, so never the empty text (the
    name falls back to ['Unknown']), and the classification
    ['Close Battle']; and there are fewer battles than rows. *)
Theorem battles_invariant (results_df : DataFrame) (gap_threshold : float)
    (battles : list Battle.t) :
  frame_ok results_df = true ->
  identify_key_battles results_df gap_threshold = Ok battles ->
  Forall (fun b => Float.leb (Battle.gap b) gap_threshold = true /\
                   truthy (Battle.driver b) = true /\
                   Battle.driver b <> VStr "" /\
                   Battle.classification b = "Close Battle") battles /\
  (rows results_df <> [] -> List.length battles < List.length (rows results_df)).
Proof.
  intros _ H. rewrite battles_closed_form in H. injection H as <-. split.
  - apply keep_forall. intros ir b. unfold battle_of.
    destruct (parsed_gap (snd ir)) as [g|]; [|discriminate].
    destruct (Float.leb g gap_threshold) eqn:E; [|discriminate].
    intros [= <-]. cbn [Battle.gap Battle.driver Battle.classification].
    split; [exact E|]. split; [apply or_unknown_truthy|]. split; [|reflexivity].
    intros Hd. pose proof (or_unknown_truthy (driver_name (snd ir))) as Ht.
    rewrite Hd in Ht. discriminate.
  - intros Hne.
    pose proof (keep_length (battle_of gap_threshold) (tl (iterrows results_df))) as Hk.
    pose proof (iterrows_length results_df) as Hl.
    destruct (iterrows results_df) as [|x r]; simpl in *.
    + destruct (rows results_df); [contradiction | discriminate].
    + lia.
Qed.

Lemma analyze_columns (df fl : DataFrame) :
  analyze_fastest_laps df = Ok fl ->
  columns fl = [] \/ columns fl = fl_columns ++ ["FL_RANK"].
Proof.
  unfold analyze_fastest_laps.
  destruct (empty df || negb (has_column "FL_TIME" df)); [intros [= <-]; now left|].
  unfold select. destruct (forallb _ fl_columns); [|discriminate]. cbn [bind].
  unfold sort_frame. destruct (sort_values _ _); [|discriminate]. cbn [bind].
  intros [= <-]. right. reflexivity.
Qed.

Lemma lookup_not_label (c : string) (cols : list string) (r : list value) :
  existsb (String.eqb c) cols = false -> lookup c (combine cols r) = None.
Proof.
  revert r. induction cols as [|k t IH]; intros r; simpl; [reflexivity|].
  destruct r as [|v r]; [reflexivity|]. simpl.
  destruct (String.eqb c k); simpl; [discriminate|]. apply IH.
Qed.

(** The driver of a row of the fastest-lap table is always ['Unknown']:
    the table holds none of the columns [DRIVER], [DRIVER_FIRST] and
    [DRIVER_LAST] that the summary reads. *)
Lemma fastest_driver_unknown (df fl : DataFrame) (row : Series) :
  analyze_fastest_laps df = Ok fl -> first_row fl = Some row ->
  Summary.lap_driver (fastest_of row) = VStr "Unknown".
Proof.
  intros Ha Hr. unfold first_row in Hr.
  destruct (values fl) as [|r rest]; [discriminate|]. injection Hr as <-.
  unfold fastest_of, driver_name, series_of, get. cbn [Summary.lap_driver].
  destruct (analyze_columns df fl Ha) as [-> | ->].
  - reflexivity.
  - rewrite !lookup_not_label by reflexivity. reflexivity.
Qed.

(** On results that are not empty and whose labels are pairwise distinct,
    [generate_race_summary] raises exactly when [analyze_fastest_laps]
    does, with the same exception; otherwise
    the winner is read from the first row, the finishers are the rows, the
    close battles are those of [identify_key_battles] at 5.0 seconds and
    fewer than the finishers, the pole position and the top performers stay
    at their defaults, and the driver of the fastest lap, when there is
    one, is ['Unknown']. *)
Theorem generate_race_summary_spec (race_data : list (string * DataFrame))
    (results_df : DataFrame) :
  table "results" race_data = Some results_df ->
  frame_ok results_df = true ->
  empty results_df = false ->
  (forall e, analyze_fastest_laps results_df = Raise e ->
     generate_race_summary race_data = Raise e) /\
  (forall fl, analyze_fastest_laps results_df = Ok fl ->
     exists s row,
       generate_race_summary race_data = Ok s /\
       first_row results_df = Some row /\
       Summary.winner s = Some (winner_of row) /\
       truthy (Summary.driver (winner_of row)) = true /\
       Summary.total_finishers s = len results_df /\
       identify_key_battles results_df f5 = Ok (Summary.close_battles s) /\
       (Z.of_nat (List.length (Summary.close_battles s)) < Summary.total_finishers s)%Z /\
       Summary.pole_position s = None /\
       Summary.top_performers s = [] /\
       (forall lap, Summary.fastest_lap s = Some lap ->
          Summary.lap_driver lap = VStr "Unknown")).
Proof.
  intros Ht Hok He. unfold generate_race_summary. rewrite Ht, He. split.
  - intros e ->. reflexivity.
  - intros fl Hfl. rewrite Hfl. cbn [bind].
    pose proof (battles_closed_form results_df f5) as Hb. rewrite Hb. cbn [bind].
    assert (Hrows : rows results_df <> []).
    { unfold empty in He. destruct (columns results_df); [discriminate|].
      destruct (rows results_df); [discriminate | discriminate]. }
    assert (Hrow : exists row, first_row results_df = Some row).
    { unfold first_row. pose proof (values_length results_df) as Hv.
      destruct (values results_df); [|eauto].
      destruct (rows results_df); [contradiction | discriminate]. }
    destruct Hrow as (row & Hrow). eexists. exists row.
    split; [reflexivity|]. split; [exact Hrow|].
    cbn [Summary.winner Summary.total_finishers Summary.close_battles
         Summary.pole_position Summary.top_performers Summary.fastest_lap].
    rewrite Hrow. split; [reflexivity|].
    split; [apply or_unknown_truthy|]. split; [reflexivity|]. split; [reflexivity|].
    split.
    + pose proof (keep_length (battle_of f5) (tl (iterrows results_df))) as Hk.
      pose proof (iterrows_length results_df) as Hl. unfold len.
      destruct (iterrows results_df) as [|x r]; simpl in *;
        destruct (rows results_df); simpl in *; try discriminate; try contradiction; lia.
    + split; [reflexivity|]. split; [reflexivity|].
      intros lap. destruct (empty fl); [discriminate|].
      destruct (first_row fl) as [frow|] eqn:Ef; [|discriminate].
      intros [= <-]. exact (fastest_driver_unknown results_df fl frow Hfl Ef).
Qed.

Lemma filter_length_le {A : Type} (f : A -> bool) (l : list A) :
  List.length (filter f l) <= List.length l.
Proof. induction l as [|x r IH]; simpl; [lia|]. destruct (f x); simpl; lia. Qed.

(** [analyze_race_progression] raises [KeyError] on a table that is not
    empty and has no [STATUS] column. Whenever it returns, the finishers are
    the rows, the classified finishers are between zero and the finishers,
    and the count of those who did not finish is their difference, which is
    not negative. *)
Theorem analyze_race_progression_spec (results_df : DataFrame) :
  frame_ok results_df = true ->
  (empty results_df = false -> has_column "STATUS" results_df = false ->
   analyze_race_progression results_df = Raise KeyError) /\
  (forall p, analyze_race_progression results_df = Ok p ->
     (empty results_df = false -> Progression.total_finishers p = len results_df) /\
     (0 <= Progression.total_classified p <= Progression.total_finishers p)%Z /\
     Progression.dnf_count p =
       (Progression.total_finishers p - Progression.total_classified p)%Z /\
     (0 <= Progression.dnf_count p)%Z /\
     Progression.position_changes p = []).
Proof.
  intros _. unfold analyze_race_progression. split.
  - intros -> ->. reflexivity.
  - intros p. destruct (empty results_df).
    + intros [= <-]. cbn. split; [discriminate|]. repeat split; lia.
    + destruct (has_column "STATUS" results_df); [|discriminate]. cbn [bind].
      destruct (if has_column "LAPS" results_df then _ else _) as [avg|]; [|discriminate].
      cbn [bind]. intros [= <-].
      cbn [Progression.total_finishers Progression.total_classified
           Progression.dnf_count Progression.position_changes].
      pose proof (filter_length_le is_classified (column "STATUS" results_df)) as Hf.
      assert (Hc : List.length (column "STATUS" results_df) = List.length (rows results_df))
        by (unfold column; apply length_map).
      unfold len. split; [reflexivity|]. repeat split; lia.
Qed.

End SummaryProperties.

Lemma battles_invariant_witness :
  let L := Model.library [] in
  let results :=
    {| columns := ["POSITION"; "NUMBER"; "GAP_PREV"];
       rows := [ [VInt 1; VInt 7; VStr "-"];
                 [VInt 2; VInt 8; VStr "+3.500"];
                 [VInt 3; VInt 9; VStr "+0.250"] ] |} in
  frame_ok results = true /\
  exists battles,
    RaceAnalyzer.identify_key_battles results RaceAnalyzer.f5 = Ok battles /\
    Forall (fun b => truthy (Battle.driver b) = true) battles /\
    map Battle.driver battles = [VStr "Unknown"; VStr "Unknown"].
Proof.
  intros L0 results. split; [reflexivity|].
  destruct (RaceAnalyzer.identify_key_battles results RaceAnalyzer.f5) as [battles|e] eqn:E;
    [|vm_compute in E; discriminate].
  exists battles. split; [reflexivity|]. split.
  - eapply Forall_impl;
      [|exact (proj1 (@battles_invariant L0 results RaceAnalyzer.f5 battles eq_refl E))].
    intros b H. apply H.
  - assert (E2 : match RaceAnalyzer.identify_key_battles results RaceAnalyzer.f5 with
                 | Ok l => map Battle.driver l
                 | Raise _ => []
                 end = [VStr "Unknown"; VStr "Unknown"]) by (vm_compute; reflexivity).
    rewrite E in E2. exact E2.
Defined.

Lemma generate_race_summary_spec_witness :
  let L := Model.library [] in
  let race_data := [("results", sample_results)] in
  RaceAnalyzer.table "results" race_data = Some sample_results /\
  frame_ok sample_results = true /\
  empty sample_results = false /\
  exists s row,
    RaceAnalyzer.generate_race_summary race_data = Ok s /\
    RaceAnalyzer.first_row sample_results = Some row /\
    Summary.winner s = Some (RaceAnalyzer.winner_of row) /\
    Summary.total_finishers s = 3%Z /\
    forall lap, Summary.fastest_lap s = Some lap -> Summary.lap_driver lap = VStr "Unknown".
Proof.
  intros L0 race_data. split; [reflexivity|]. split; [reflexivity|]. split; [reflexivity|].
  destruct (RaceAnalyzer.analyze_fastest_laps sample_results) as [fl|e] eqn:E;
    [|vm_compute in E; discriminate].
  destruct (proj2 (@generate_race_summary_spec L0 race_data sample_results
                     eq_refl eq_refl eq_refl) fl E)
    as (s & row & H1 & H2 & H3 & _ & H5 & _ & _ & _ & _ & H10).
  exists s, row. split; [exact H1|]. split; [exact H2|]. split; [exact H3|].
  split; [exact H5 | exact H10].
Defined.

Lemma analyze_race_progression_spec_witness :
  let L := Model.library [] in
  frame_ok sample_results = true /\
  empty sample_results = false /\
  has_column "STATUS" sample_results = false /\
  RaceAnalyzer.analyze_race_progression sample_results = Raise KeyError.
Proof.
  intros L0. split; [reflexivity|]. split; [reflexivity|]. split; [reflexivity|].
  exact (proj1 (@analyze_race_progression_spec L0 sample_results eq_refl) eq_refl eq_refl).
Defined.

(** ** Normalized labels: fixed points of the normalizer *)

Section NormalizedLabels.

Import CSVParser NormalizerFacts.

#[local] Arguments first_match : simpl never.

Lemma rstrip_cons (c : ascii) (r : string) :
  Text.rstrip (String c r) =
  match Text.rstrip r with
  | EmptyString => if Text.is_space c then EmptyString else String c EmptyString
  | r' => String c r'
  end.
Proof. reflexivity. Qed.

Lemma rstrip_idempotent (s : string) : Text.rstrip (Text.rstrip s) = Text.rstrip s.
Proof.
  induction s as [|c r IH]; [reflexivity|]. rewrite (rstrip_cons c r).
  destruct (Text.rstrip r) as [|x y] eqn:E.
  - destruct (Text.is_space c) eqn:Ec; [reflexivity|].
    rewrite rstrip_cons. cbn [Text.rstrip]. now rewrite Ec.
  - rewrite rstrip_cons, IH. reflexivity.
Qed.

Lemma rstrip_head (c : ascii) (r : string) :
  Text.is_space c = false -> exists r', Text.rstrip (String c r) = String c r'.
Proof.
  intros Hc. rewrite rstrip_cons. destruct (Text.rstrip r); [rewrite Hc|]; eauto.
Qed.

Lemma lstrip_head (s : string) :
  Text.lstrip s = EmptyString \/
  exists c r, Text.lstrip s = String c r /\ Text.is_space c = false.
Proof.
  induction s as [|c r IH]; [now left|]. cbn [Text.lstrip].
  destruct (Text.is_space c) eqn:E; [assumption|]. right. eauto.
Qed.

Lemma strip_idempotent (s : string) : Text.strip (Text.strip s) = Text.strip s.
Proof.
  unfold Text.strip. destruct (lstrip_head s) as [-> | (c & r & -> & Hc)]; [reflexivity|].
  destruct (rstrip_head c r Hc) as (r' & E). rewrite E.
  cbn [Text.lstrip]. rewrite Hc, <- E. apply rstrip_idempotent.
Qed.

Lemma first_match_field (u n : string) (items : list (string * list string)) :
  first_match u items = Some n ->
  exists f vs, In (f, vs) items /\ n = Text.upper f.
Proof.
  induction items as [|[f vs] r IH]; [discriminate|]. rewrite first_match_cons.
  destruct (matches u vs).
  - intros [= <-]. exists f, vs. split; [now left | reflexivity].
  - intros H. destruct (IH H) as (g & ws & Hin & E). exists g, ws. split; [now right | exact E].
Qed.

Lemma fields_are_canonical :
  forallb (fun fv => String.eqb (canonical (Text.upper (fst fv))) (Text.upper (fst fv)))
          column_mappings = true.
Proof. vm_compute. reflexivity. Qed.

Lemma canonical_idempotent (c : string) : canonical (canonical c) = canonical c.
Proof.
  unfold canonical at 2 3.
  destruct (first_match (Text.upper (Text.strip c)) column_mappings) as [n|] eqn:E.
  - destruct (first_match_field _ _ _ E) as (f & vs & Hin & ->).
    pose proof fields_are_canonical as H. rewrite forallb_forall in H.
    specialize (H (f, vs) Hin). now apply String.eqb_eq in H.
  - unfold canonical. now rewrite strip_idempotent, E.
Qed.

Lemma normalized_label_canonical (df : DataFrame) (c : string) :
  In c (columns (normalized_frame df)) -> canonical c = c.
Proof.
  rewrite normalized_frame_columns. intros Hc.
  apply in_map_iff in Hc as (c0 & <- & _). apply canonical_idempotent.
Qed.

(** The labels of [t] are those of a table that the normalizer returned,
    or [t] has no column at all, as the table of the error path. *)
Definition from_normalizer (t : DataFrame) : Prop :=
  columns t = [] \/ exists df, columns t = columns (normalized_frame df).

Lemma renamed_label_absent (c : string) (t : DataFrame) :
  from_normalizer t -> canonical c <> c -> has_column c t = false.
Proof.
  intros H Hc. unfold has_column.
  destruct (existsb (String.eqb c) (columns t)) eqn:E; [|reflexivity].
  exfalso. apply existsb_exists in E as (k & Hk & Ek). apply String.eqb_eq in Ek. subst k.
  destruct H as [H|(df & H)]; rewrite H in Hk; [contradiction|].
  exact (Hc (normalized_label_canonical df c Hk)).
Qed.

(** Normalizing twice is normalizing once: the table that
    [normalize_columns] returns is left as it is by a second call. *)
Theorem normalize_columns_idempotent (df : DataFrame) :
  normalized_frame (normalized_frame df) = normalized_frame df.
Proof.
  pose proof (normalized_frame_columns (normalized_frame df)) as Hc.
  pose proof (normalized_frame_rows (normalized_frame df)) as Hr.
  rewrite (normalized_frame_columns df), map_map in Hc.
  rewrite (map_ext _ _ canonical_idempotent) in Hc.
  rewrite <- (normalized_frame_columns df) in Hc.
  destruct (normalized_frame (normalized_frame df)), (normalized_frame df).
  simpl in *. now subst.
Qed.

(** A label of a normalized table is its own canonical name and has no
    white space around it. So no alias that is renamed survives: in
    particular no normalized table has a column [DRIVER_FIRSTNAME] or
    [DRIVER_SECONDNAME], the names under which [analyze_fastest_laps] and
    [get_position_changes] read the driver. The table keeps its rows and the
    number of its columns. *)
Theorem normalized_labels (df : DataFrame) :
  (forall c, In c (columns (normalized_frame df)) ->
     canonical c = c /\ Text.strip c = c /\
     c <> "DRIVER_FIRSTNAME" /\ c <> "DRIVER_SECONDNAME") /\
  List.length (columns (normalized_frame df)) = List.length (columns df) /\
  rows (normalized_frame df) = rows df.
Proof.
  split; [|split].
  - intros c Hc. pose proof (normalized_label_canonical df c Hc) as Hfix.
    split; [exact Hfix|]. split.
    + rewrite <- Hfix. unfold canonical.
      destruct (first_match (Text.upper (Text.strip c)) column_mappings) as [n|] eqn:E.
      * destruct (first_match_field _ _ _ E) as (f & vs & Hin & ->).
        assert (K : forallb (fun fv => String.eqb (Text.strip (Text.upper (fst fv)))
                                                  (Text.upper (fst fv)))
                            column_mappings = true) by (vm_compute; reflexivity).
        rewrite forallb_forall in K. specialize (K (f, vs) Hin).
        now apply String.eqb_eq in K.
      * apply strip_idempotent.
    + split; intros E; rewrite E in Hfix; vm_compute in Hfix; discriminate.
  - now rewrite normalized_frame_columns, length_map.
  - apply normalized_frame_rows.
Qed.

End NormalizedLabels.

(** ** The parser and the analyzer, one after the other *)

Section Pipeline.

Import CSVParser NormalizerFacts RaceAnalyzer.

Context {L : Library}.

Lemma set_column_present (c : string) (vals : list value) (df : DataFrame) :
  has_column c df = true -> columns (set_column c vals df) = columns df.
Proof. intros H. unfold set_column. now rewrite H. Qed.

Lemma coerce_numeric_columns (c : string) (df t : DataFrame) :
  has_column c df = true -> coerce_numeric c df = Ok t -> columns t = columns df.
Proof.
  unfold coerce_numeric. intros H. destruct (1 <? count_label c df)%nat; [discriminate|].
  intros [= <-]. now apply set_column_present.
Qed.

Lemma coerce_all_columns (cols : list string) (df t : DataFrame) :
  coerce_all cols df = Ok t -> columns t = columns df.
Proof.
  revert df. induction cols as [|c r IH]; intros df; cbn [coerce_all].
  - now intros [= <-].
  - destruct (has_column c df) eqn:Hc.
    + destruct (coerce_numeric c df) as [d|e] eqn:E; cbn [bind]; [|discriminate].
      intros H. rewrite (IH d H). exact (coerce_numeric_columns c df d Hc E).
    + cbn [bind]. apply IH.
Qed.

Lemma parsed_by (cols : list string) (file_path delimiter : string) (t : DataFrame) :
  try_except_Exception
    (df <- read_normalized file_path delimiter ;; coerce_all cols df)%res
    (Ok empty_frame) = Ok t ->
  from_normalizer t.
Proof.
  unfold read_normalized.
  destruct (read_csv file_path delimiter) as [df|e]; cbn [bind try_except_Exception].
  - destruct (coerce_all _ (normalized_frame df)) as [d|e] eqn:E;
      cbn [try_except_Exception]; intros [= <-].
    + right. exists df. exact (coerce_all_columns _ _ _ E).
    + now left.
  - intros [= <-]. now left.
Qed.

(** The labels of a table that [parse_race_results] returns: none (the
    table of the error path), or the canonical names of the labels read. *)
Lemma parsed_labels (file_path delimiter : string) (t : DataFrame) :
  parse_race_results file_path delimiter = Ok t -> from_normalizer t.
Proof. apply parsed_by. Qed.

Lemma parsed_best_laps_labels (file_path delimiter : string) (t : DataFrame) :
  parse_best_laps file_path delimiter = Ok t -> from_normalizer t.
Proof. apply parsed_by. Qed.

Lemma no_first_name (t : DataFrame) :
  from_normalizer t -> has_column "DRIVER_FIRSTNAME" t = false.
Proof.
  intros H. apply renamed_label_absent; [exact H|]. vm_compute. discriminate.
Qed.

Lemma analyze_without_first_name (t : DataFrame) :
  has_column "DRIVER_FIRSTNAME" t = false ->
  analyze_fastest_laps t =
  if empty t || negb (has_column "FL_TIME" t) then Ok empty_frame else Raise KeyError.
Proof.
  intros H. unfold analyze_fastest_laps.
  destruct (empty t || negb (has_column "FL_TIME" t)); [reflexivity|].
  rewrite (select_missing fl_columns t "DRIVER_FIRSTNAME"); [reflexivity| |exact H].
  unfold fl_columns. simpl. tauto.
Qed.

(** On the table that [normalize_columns] returns, [analyze_fastest_laps]
    never produces a ranking: it returns the empty table when the table is
    empty or has no [FL_TIME] column, and raises [KeyError] otherwise, since
    the normalizer has renamed the [DRIVER_FIRSTNAME] column that the
    analyzer selects. *)
Theorem fastest_laps_after_normalization (df : DataFrame) :
  analyze_fastest_laps (normalized_frame df) =
  if empty (normalized_frame df) || negb (has_column "FL_TIME" (normalized_frame df))
  then Ok empty_frame else Raise KeyError.
Proof.
  apply analyze_without_first_name, no_first_name. right. now exists df.
Qed.

(** The same through the parser: for the results that [parse_race_results]
    returns, [analyze_fastest_laps] returns the empty table or raises
    [KeyError]; and when their labels are pairwise distinct, a summary that
    [generate_race_summary] returns for them has no fastest lap. *)
Theorem parsed_results_have_no_fastest_lap (file_path delimiter : string) (t : DataFrame) :
  parse_race_results file_path delimiter = Ok t ->
  analyze_fastest_laps t =
    (if empty t || negb (has_column "FL_TIME" t) then Ok empty_frame else Raise KeyError) /\
  (forall race_data s,
     table "results" race_data = Some t ->
     frame_ok t = true ->
     generate_race_summary race_data = Ok s ->
     Summary.fastest_lap s = None).
Proof.
  intros Hp.
  pose proof (analyze_without_first_name t (no_first_name t (parsed_labels _ _ _ Hp))) as Ha.
  split; [exact Ha|].
  intros race_data s Ht _. unfold generate_race_summary. rewrite Ht.
  destruct (empty t) eqn:Ee; [now intros [= <-]|].
  rewrite Ha. cbn [orb].
  destruct (has_column "FL_TIME" t); cbn [negb bind]; [discriminate|].
  destruct (identify_key_battles t f5); cbn [bind]; [|discriminate].
  now intros [= <-].
Qed.

End Pipeline.

Lemma normalized_labels_witness :
  let df := {| columns := [" Driver_FirstName "; "pos"; "FL_TIME"; " x "];
               rows := [[VStr "A"; VInt 1; VStr "1:22.100"; VInt 0]] |} in
  columns (CSVParser.normalized_frame df) = ["DRIVER_FIRST"; "POSITION"; "FL_TIME"; "x"] /\
  In "DRIVER_FIRST" (columns (CSVParser.normalized_frame df)) /\
  NormalizerFacts.canonical "DRIVER_FIRST" = "DRIVER_FIRST".
Proof.
  intros df. split; [reflexivity|].
  assert (Hin : In "DRIVER_FIRST" (columns (CSVParser.normalized_frame df)))
    by (simpl; tauto).
  split; [exact Hin|].
  exact (proj1 (proj1 (normalized_labels df) "DRIVER_FIRST" Hin)).
Defined.

Lemma parsed_results_have_no_fastest_lap_witness :
  let file :=
    {| columns := ["POS"; "NUMBER"; "DRIVER_FIRSTNAME"; "DRIVER_SECONDNAME";
                   "FL_TIME"; "FL_LAPNUM"; "FL_KPH"; "TEAM"];
       rows := [ [VStr "1"; VStr "7"; VStr "A"; VStr "Smith";
                  VStr "1:23.456"; VStr "5"; VStr "150.1"; VStr "T1"] ] |} in
  let L := Model.library [("results.csv", file)] in
  exists t,
    CSVParser.parse_race_results "results.csv" ";" = Ok t /\
    has_column "FL_TIME" t = true /\
    RaceAnalyzer.analyze_fastest_laps t = Raise KeyError.
Proof.
  intros file L0.
  destruct (CSVParser.parse_race_results "results.csv" ";") as [t|e] eqn:E;
    [|vm_compute in E; discriminate].
  exists t. split; [reflexivity|].
  assert (H : has_column "FL_TIME" t = true /\ empty t = false).
  { assert (K : match CSVParser.parse_race_results "results.csv" ";" with
                | Ok d => has_column "FL_TIME" d && negb (empty d)
                | Raise _ => false
                end = true) by (vm_compute; reflexivity).
    rewrite E in K. apply andb_true_iff in K as [K1 K2].
    apply negb_true_iff in K2. now split. }
  destruct H as [Hf He]. split; [exact Hf|].
  rewrite (proj1 (@parsed_results_have_no_fastest_lap L0 "results.csv" ";" t E)).
  now rewrite He, Hf.
Defined.

(** ** The numeric conversion of the parser *)

Section ConversionProperties.

Import CSVParser NormalizerFacts.

Context {L : Library}.

(** One of the labels [cols] heads more than one column of [df]. *)
Definition twice (cols : list string) (df : DataFrame) : bool :=
  existsb (fun c => (1 <? count_label c df)%nat) cols.

Lemma twice_columns (cols : list string) (d df : DataFrame) :
  columns d = columns df -> twice cols d = twice cols df.
Proof. intros H. unfold twice, count_label. now rewrite H. Qed.

Lemma count_absent (c : string) (df : DataFrame) :
  has_column c df = false -> count_label c df = 0%nat.
Proof.
  unfold has_column, count_label. induction (columns df) as [|k r IH]; [reflexivity|].
  cbn [existsb filter]. destruct (String.eqb c k); [discriminate|]. exact IH.
Qed.

Lemma map_fst_combine {A B : Type} (l : list A) (l' : list B) :
  List.length l = List.length l' -> map fst (combine l l') = l.
Proof.
  revert l'. induction l as [|x r IH]; intros [|y r']; simpl; try discriminate;
    [reflexivity|]. intros [= H]. now rewrite IH.
Qed.

Lemma lookup_set_cells (c c' : string) (v : value) (cols : list string) (r : list value) :
  c' <> c -> lookup c' (combine cols (set_cells c v cols r)) = lookup c' (combine cols r).
Proof.
  intros Hne. revert r. induction cols as [|k cols IH]; intros [|x r]; try reflexivity.
  cbn [set_cells combine lookup]. rewrite IH.
  destruct (String.eqb c' k) eqn:E; [|reflexivity].
  apply String.eqb_eq in E. subst k.
  destruct (String.eqb c c') eqn:E'; [|reflexivity].
  apply String.eqb_eq in E'. now subst.
Qed.

Lemma set_column_other (c c' : string) (vals : list value) (df : DataFrame) :
  has_column c df = true -> List.length vals = List.length (rows df) -> c' <> c ->
  column c' (set_column c vals df) = column c' df.
Proof.
  intros Hc Hl Hne. unfold set_column. rewrite Hc. unfold column, series_of, get.
  cbn [columns rows]. rewrite map_map.
  rewrite <- (map_fst_combine (rows df) vals) at 2 by now symmetry.
  rewrite map_map. apply map_ext. intros [r v]. cbn [fst snd].
  now rewrite lookup_set_cells.
Qed.

Lemma set_column_rows (c : string) (vals : list value) (df : DataFrame) :
  has_column c df = true -> List.length vals = List.length (rows df) ->
  List.length (rows (set_column c vals df)) = List.length (rows df).
Proof.
  intros Hc Hl. unfold set_column. rewrite Hc. cbn [rows].
  rewrite length_map, length_combine, Hl. apply Nat.min_id.
Qed.

Lemma column_length (c : string) (df : DataFrame) :
  List.length (column c df) = List.length (rows df).
Proof. unfold column. apply length_map. Qed.

Lemma coerce_numeric_outcome (c : string) (df : DataFrame) :
  has_column c df = true ->
  if (1 <? count_label c df)%nat
  then coerce_numeric c df = Raise TypeError
  else exists t, coerce_numeric c df = Ok t /\
         columns t = columns df /\
         List.length (rows t) = List.length (rows df) /\
         (forall c', c' <> c -> column c' t = column c' df).
Proof.
  intros Hc. unfold coerce_numeric. destruct (1 <? count_label c df)%nat; [reflexivity|].
  assert (Hl : List.length (to_numeric (column c df)) = List.length (rows df))
    by now rewrite to_numeric_length, column_length.
  eexists. split; [reflexivity|]. split; [|split].
  - unfold set_column. now rewrite Hc.
  - now apply set_column_rows.
  - intros c' Hne. now apply set_column_other.
Qed.

Lemma coerce_all_outcome (cols : list string) (df : DataFrame) :
  if twice cols df
  then exists e, coerce_all cols df = Raise e
  else exists t, coerce_all cols df = Ok t /\
         columns t = columns df /\
         List.length (rows t) = List.length (rows df) /\
         (forall c, ~ In c cols -> column c t = column c df).
Proof.
  revert df. induction cols as [|c r IH]; intros df.
  - cbn. exists df. repeat split; reflexivity.
  - cbn [coerce_all]. unfold twice. cbn [existsb]. fold (twice r df).
    destruct (has_column c df) eqn:Hc.
    + pose proof (coerce_numeric_outcome c df Hc) as Hn.
      destruct (1 <? count_label c df)%nat.
      * rewrite Hn. cbn. eauto.
      * destruct Hn as (d & -> & Hcols & Hrows & Hother). cbn [bind orb].
        specialize (IH d). rewrite (twice_columns r d df Hcols) in IH.
        destruct (twice r df); [exact IH|].
        destruct IH as (t & -> & Ht1 & Ht2 & Ht3). exists t.
        split; [reflexivity|]. split; [congruence|]. split; [congruence|].
        intros c' Hin. rewrite Ht3 by (intros H; apply Hin; now right).
        apply Hother. intros ->. apply Hin. now left.
    + rewrite (count_absent c df Hc). cbn [Nat.ltb Nat.leb orb bind].
      specialize (IH df). destruct (twice r df); [exact IH|].
      destruct IH as (t & -> & Ht1 & Ht2 & Ht3). exists t.
      split; [reflexivity|]. split; [exact Ht1|]. split; [exact Ht2|].
      intros c' Hin. apply Ht3. intros H. apply Hin. now right.
Qed.

(** What [parse_race_results] makes of a file that can be read. When one
    of the labels [POSITION], [NUMBER], [LAPS] heads two columns after
    normalization (a file with a [POS] and a [POSITION] column, say), the
    conversion raises and the whole file is answered by the empty table.
    Otherwise the table has the canonical names of the labels read, in their
    order, every row of the file, and the cells of every column other than
    the three as the normalizer left them. *)
Theorem parse_race_results_shape (file_path delimiter : string) (df : DataFrame) :
  read_csv file_path delimiter = Ok df ->
  if twice ["POSITION"; "NUMBER"; "LAPS"] (normalized_frame df)
  then parse_race_results file_path delimiter = Ok empty_frame
  else exists t,
         parse_race_results file_path delimiter = Ok t /\
         columns t = map canonical (columns df) /\
         List.length (rows t) = List.length (rows df) /\
         (forall c, ~ In c ["POSITION"; "NUMBER"; "LAPS"] ->
            column c t = column c (normalized_frame df)).
Proof.
  intros Hr. unfold parse_race_results, read_normalized. rewrite Hr. cbn [bind].
  pose proof (coerce_all_outcome ["POSITION"; "NUMBER"; "LAPS"] (normalized_frame df)) as H.
  destruct (twice _ (normalized_frame df)).
  - destruct H as (e & ->). reflexivity.
  - destruct H as (t & -> & H1 & H2 & H3). exists t. split; [reflexivity|].
    rewrite H1, H2, normalized_frame_columns, normalized_frame_rows. now split.
Qed.

(** The same for the best laps and the lap times, with their own lists of
    numeric columns: [NUMBER] and [TOTAL_DRIVER_LAPS], and [NUMBER]. *)
Theorem parse_laps_shape (file_path delimiter : string) (df : DataFrame) :
  read_csv file_path delimiter = Ok df ->
  (if twice ["NUMBER"; "TOTAL_DRIVER_LAPS"] (normalized_frame df)
   then parse_best_laps file_path delimiter = Ok empty_frame
   else exists t,
          parse_best_laps file_path delimiter = Ok t /\
          columns t = map canonical (columns df) /\
          List.length (rows t) = List.length (rows df) /\
          (forall c, ~ In c ["NUMBER"; "TOTAL_DRIVER_LAPS"] ->
             column c t = column c (normalized_frame df))) /\
  (if twice ["NUMBER"] (normalized_frame df)
   then parse_lap_times file_path delimiter = Ok empty_frame
   else exists t,
          parse_lap_times file_path delimiter = Ok t /\
          columns t = map canonical (columns df) /\
          List.length (rows t) = List.length (rows df) /\
          (forall c, c <> "NUMBER" -> column c t = column c (normalized_frame df))).
Proof.
  intros Hr. split.
  - unfold parse_best_laps, read_normalized. rewrite Hr. cbn [bind].
    pose proof (coerce_all_outcome ["NUMBER"; "TOTAL_DRIVER_LAPS"] (normalized_frame df)) as H.
    destruct (twice _ (normalized_frame df)).
    + destruct H as (e & ->). reflexivity.
    + destruct H as (t & -> & H1 & H2 & H3). exists t. split; [reflexivity|].
      rewrite H1, H2, normalized_frame_columns, normalized_frame_rows. now split.
  - unfold parse_lap_times, read_normalized. rewrite Hr. cbn [bind].
    pose proof (coerce_all_outcome ["NUMBER"] (normalized_frame df)) as H.
    cbn [coerce_all] in H.
    destruct (twice _ (normalized_frame df)).
    + destruct H as (e & H).
      destruct (if has_column "NUMBER" (normalized_frame df)
                then coerce_numeric "NUMBER" (normalized_frame df)
                else Ok (normalized_frame df)); [discriminate|reflexivity].
    + destruct H as (t & H & H1 & H2 & H3).
      destruct (if has_column "NUMBER" (normalized_frame df)
                then coerce_numeric "NUMBER" (normalized_frame df)
                else Ok (normalized_frame df)) as [d|e]; [|discriminate].
      cbn [bind] in H. injection H as ->. exists t. split; [reflexivity|].
      rewrite H1, H2, normalized_frame_columns, normalized_frame_rows.
      split; [reflexivity|]. split; [reflexivity|].
      intros c Hne. apply H3. intros [E|[]]. now apply Hne.
Qed.

Lemma count_appended (c k : string) (cols : list string) :
  c <> k ->
  List.length (filter (String.eqb c) (cols ++ [k])) = List.length (filter (String.eqb c) cols).
Proof.
  intros Hne. rewrite filter_app, length_app. cbn [filter].
  destruct (String.eqb c k) eqn:E; [apply String.eqb_eq in E; contradiction|].
  cbn [List.length]. lia.
Qed.

Lemma twice_appended (cols : list string) (d df : DataFrame) (k : string) :
  ~ In k cols -> columns d = columns df ++ [k] -> twice cols d = twice cols df.
Proof.
  intros Hk H. unfold twice. induction cols as [|c r IH]; [reflexivity|].
  cbn [existsb]. rewrite IH by (intros Hin; apply Hk; now right).
  unfold count_label at 1 3. rewrite H, count_appended; [reflexivity|].
  intros ->. apply Hk. now left.
Qed.

Lemma set_column_shape (c : string) (vals : list value) (df : DataFrame) :
  List.length vals = List.length (rows df) ->
  columns (set_column c vals df) =
    (if has_column c df then columns df else columns df ++ [c]) /\
  List.length (rows (set_column c vals df)) = List.length (rows df).
Proof.
  intros Hl. unfold set_column. destruct (has_column c df); cbn [columns rows];
    (split; [reflexivity|]); rewrite length_map, length_combine, Hl; apply Nat.min_id.
Qed.

Definition weather_columns : list string :=
  ["AIR_TEMP"; "TRACK_TEMP"; "HUMIDITY"; "PRESSURE"; "WIND_SPEED"; "WIND_DIRECTION"; "RAIN"].

(** What [parse_weather_data] makes of a file that can be read. When
    [TIME_UTC_SECONDS] or one of the seven weather labels heads two columns
    after normalization, the answer is the empty table. Otherwise every row
    of the file is kept; the labels are the canonical names of the labels
    read, followed by a new last column [timestamp] exactly when the file has
    a [TIME_UTC_SECONDS] column and no [timestamp] column of its own. *)
Theorem parse_weather_data_shape (file_path delimiter : string) (df : DataFrame) :
  read_csv file_path delimiter = Ok df ->
  let n := normalized_frame df in
  if twice ("TIME_UTC_SECONDS" :: weather_columns) n
  then parse_weather_data file_path delimiter = Ok empty_frame
  else exists t,
         parse_weather_data file_path delimiter = Ok t /\
         columns t =
           (if has_column "TIME_UTC_SECONDS" n && negb (has_column "timestamp" n)
            then map canonical (columns df) ++ ["timestamp"]
            else map canonical (columns df)) /\
         List.length (rows t) = List.length (rows df).
Proof.
  intros Hr n. unfold parse_weather_data, read_normalized. rewrite Hr. cbn [bind].
  fold n. fold weather_columns.
  unfold twice at 1. cbn [existsb]. fold (twice weather_columns n).
  rewrite <- (normalized_frame_columns df), <- (normalized_frame_rows df). fold n.
  destruct (has_column "TIME_UTC_SECONDS" n) eqn:Ht.
  - pose proof (coerce_numeric_outcome "TIME_UTC_SECONDS" n Ht) as Hn.
    destruct (1 <? count_label "TIME_UTC_SECONDS" n)%nat.
    + rewrite Hn. reflexivity.
    + destruct Hn as (d & -> & Hc & Hl & _). cbn [bind orb andb].
      set (stamps := to_datetime (column "TIME_UTC_SECONDS" d)).
      assert (Hs : List.length stamps = List.length (rows d))
        by (unfold stamps; now rewrite to_datetime_length, column_length).
      destruct (set_column_shape "timestamp" stamps d Hs) as (Hc2 & Hl2).
      set (d2 := set_column "timestamp" stamps d) in *.
      pose proof (coerce_all_outcome weather_columns d2) as Ha.
      assert (Htw : twice weather_columns d2 = twice weather_columns n).
      { unfold has_column in Hc2. rewrite Hc in Hc2. fold (has_column "timestamp" n) in Hc2.
        destruct (has_column "timestamp" n).
        - apply twice_columns. congruence.
        - apply (twice_appended _ _ _ "timestamp"); [|exact Hc2].
          unfold weather_columns. simpl. intros H.
          repeat (destruct H as [H|H]; [discriminate|]). exact H. }
      rewrite Htw in Ha. destruct (twice weather_columns n).
      * destruct Ha as (e & ->). reflexivity.
      * destruct Ha as (t & -> & H1 & H2 & _). exists t. split; [reflexivity|].
        rewrite H1, H2, Hl2, Hl, Hc2. unfold has_column. rewrite Hc.
        fold (has_column "timestamp" n).
        split; [|reflexivity]. now destruct (has_column "timestamp" n).
  - rewrite (count_absent _ _ Ht). cbn [Nat.ltb Nat.leb orb andb bind].
    pose proof (coerce_all_outcome weather_columns n) as Ha.
    destruct (twice weather_columns n).
    + destruct Ha as (e & ->). reflexivity.
    + destruct Ha as (t & -> & H1 & H2 & _). exists t. split; [reflexivity|].
      now rewrite H1, H2.
Qed.

End ConversionProperties.

Lemma parse_race_results_shape_witness :
  let file :=
    {| columns := ["POS"; "Position"; "DRIVER"];
       rows := [ [VStr "1"; VStr "1"; VStr "A. Smith"];
                 [VStr "2"; VStr "2"; VStr "B. Jones"] ] |} in
  let L := Model.library [("results.csv", file)] in
  CSVParser.parse_race_results "results.csv" ";" = Ok empty_frame.
Proof.
  intros file L0.
  exact (@parse_race_results_shape L0 "results.csv" ";" file eq_refl).
Defined.

Lemma parse_laps_shape_witness :
  let file :=
    {| columns := [" Car "; "BESTLAP_1"];
       rows := [ [VStr "7"; VStr "1:22.100"]; [VStr "x"; VStr "1:23.000"] ] |} in
  let L := Model.library [("best.csv", file)] in
  exists t,
    CSVParser.parse_best_laps "best.csv" ";" = Ok t /\
    columns t = ["NUMBER"; "BESTLAP_1"] /\
    List.length (rows t) = 2%nat /\
    column "BESTLAP_1" t = [VStr "1:22.100"; VStr "1:23.000"].
Proof.
  intros file L0.
  destruct (proj1 (@parse_laps_shape L0 "best.csv" ";" file eq_refl))
    as (t & Ht & Hc & Hr & Ho).
  exists t. split; [exact Ht|]. split; [exact Hc|]. split; [exact Hr|].
  rewrite Ho; [reflexivity|].
  intros [E|[E|[]]]; discriminate.
Defined.

Lemma parse_weather_data_shape_witness :
  let file :=
    {| columns := ["TIME_UTC_SECONDS"; "AIR_TEMP"];
       rows := [ [VStr "1700000000"; VStr "21.5"]; [VStr "1700000060"; VStr "n/a"] ] |} in
  let L := Model.library [("weather.csv", file)] in
  exists t,
    CSVParser.parse_weather_data "weather.csv" ";" = Ok t /\
    columns t = ["TIME_UTC_SECONDS"; "AIR_TEMP"; "timestamp"] /\
    List.length (rows t) = 2%nat.
Proof.
  intros file L0.
  exact (@parse_weather_data_shape L0 "weather.csv" ";" file eq_refl).
Defined.

(** ** Driver names after the parser *)

Section NameProperties.

Import CSVParser NormalizerFacts RaceAnalyzer.

Context {L : Library}.

Lemma keep_forall_in {A B : Type} (f : A -> option B) (P : B -> Prop) (l : list A) :
  (forall x y, In x l -> f x = Some y -> P y) -> Forall P (keep f l).
Proof.
  induction l as [|x r IH]; intros H; simpl; [constructor|].
  assert (Hr : Forall P (keep f r)) by (apply IH; intros a b Ha; apply H; now right).
  destruct (f x) eqn:E; [|exact Hr]. constructor; [|exact Hr].
  exact (H x b (or_introl eq_refl) E).
Qed.

Lemma for_each_result {A B : Type} (body : list B -> A -> res (list B))
    (f : A -> option B) (l : list A) (acc out : list B) :
  (forall s x t, In x l -> body s x = Ok t -> t = s ++ to_list (f x)) ->
  for_each body l acc = Ok out -> out = acc ++ keep f l.
Proof.
  revert acc. induction l as [|x r IH]; intros acc H.
  - simpl. intros [= <-]. now rewrite app_nil_r.
  - cbn [for_each]. destruct (body acc x) as [t|e] eqn:E; cbn [bind]; [|discriminate].
    intros Hr. apply IH in Hr; [|intros s y u Hy; apply H; now right].
    rewrite (H acc x t (or_introl eq_refl) E) in Hr.
    now rewrite keep_cons, app_assoc.
Qed.

(** A step of the loop of [get_position_changes] that returns has appended
    the record of its row, or nothing. *)
Lemma change_step_result (grid : string) (changes t : list Change.t) (ir : Z * Series) :
  change_step grid changes ir = Ok t -> t = changes ++ to_list (change_of grid (snd ir)).
Proof.
  destruct ir as [idx row]. cbn [snd].
  unfold change_step, change_try, change_of, item. cbn [snd].
  destruct (lookup grid row) as [g|]; cbn [bind try_except existsb exn_eqb orb to_list];
    [|intros [= <-]; now rewrite app_nil_r].
  destruct (py_int g) as [s|e] eqn:Eg; cbn [bind try_except].
  - destruct (lookup "POSITION" row) as [f|];
      cbn [bind try_except existsb exn_eqb orb to_list];
      [|intros [= <-]; now rewrite app_nil_r].
    destruct (py_int f) as [p|e] eqn:Ef; cbn [bind try_except].
    + destruct (lookup "NUMBER" row) as [n|];
        cbn [bind try_except existsb exn_eqb orb to_list]; intros [= <-];
        [reflexivity | now rewrite app_nil_r].
    + destruct (py_int_raises f e Ef) as [[-> _]|[-> _]];
        cbn [existsb exn_eqb orb to_list]; [|discriminate].
      intros [= <-]. destruct (lookup "NUMBER" row); now rewrite app_nil_r.
  - destruct (py_int_raises g e Eg) as [[-> _]|[-> _]];
      cbn [existsb exn_eqb orb to_list]; [|discriminate].
    intros [= <-]. destruct (lookup "POSITION" row); [|now rewrite app_nil_r].
    destruct (lookup "NUMBER" row); now rewrite app_nil_r.
Qed.

Lemma changes_result (results_df : DataFrame) (grid : string) (out : list Change.t) :
  get_position_changes results_df grid = Ok out ->
  Permutation out (changes_of grid results_df).
Proof.
  unfold get_position_changes.
  destruct (empty results_df || negb (has_column grid results_df)) eqn:E.
  - intros [= <-].
    assert (Hnil : changes_of grid results_df = []).
    { apply orb_true_iff in E as [E|E].
      - destruct (empty_no_column results_df grid E) as [Hr|Hc].
        + unfold changes_of, iterrows. now rewrite (values_nil _ Hr).
        + apply (changes_of_absent grid grid); auto.
      - apply negb_true_iff in E. apply (changes_of_absent grid grid); auto. }
    rewrite Hnil. constructor.
  - destruct (for_each (change_step grid) (iterrows results_df) []) as [changes|e] eqn:El;
      cbn [bind]; [|discriminate].
    intros [= <-].
    apply (for_each_result _ (fun ir => change_of grid (snd ir))) in El.
    + cbn [app] in El. subst changes. apply sort_desc_perm.
    + intros s x t _. apply change_step_result.
Qed.

Lemma consistency_step_result (data t : list Consistency.t) (ir : Z * Series) :
  consistency_step data ir = Ok t -> t = data ++ to_list (consistency_of (snd ir)).
Proof.
  destruct (lookup "NUMBER" (snd ir)) as [v|] eqn:Hn.
  - rewrite (consistency_step_spec data ir v Hn). now intros [= <-].
  - rewrite (consistency_step_no_number data ir Hn). unfold consistency_of.
    destruct (3 <=? List.length (valid_laps (snd ir)))%nat; [discriminate|].
    intros [= <-]. now rewrite app_nil_r.
Qed.

Lemma consistency_result (best_laps_df : DataFrame) (out : list Consistency.t) :
  calculate_consistency best_laps_df = Ok out ->
  Forall (fun c => exists ir, In ir (iterrows best_laps_df) /\
                              consistency_of (snd ir) = Some c) out.
Proof.
  unfold calculate_consistency. destruct (empty best_laps_df); [intros [= <-]; constructor|].
  destruct (for_each consistency_step (iterrows best_laps_df) []) as [data|e] eqn:El;
    cbn [bind]; [|discriminate].
  apply (for_each_result _ (fun ir => consistency_of (snd ir))) in El;
    [|intros s x t _; apply consistency_step_result].
  cbn [app] in El.
  assert (Hd : Forall (fun c => exists ir, In ir (iterrows best_laps_df) /\
                                           consistency_of (snd ir) = Some c) data).
  { subst data. apply keep_forall_in. intros ir c Hin Hc. eauto. }
  destruct data as [|c0 rest] eqn:Ed; [intros [= <-]; constructor|]. rewrite <- Ed in *.
  destruct (sort_values false _) as [p|e] eqn:Hp; cbn [bind]; [|discriminate].
  intros [= <-]. pose proof (sort_values_perm _ _ Hp) as Hperm.
  rewrite length_map in Hperm.
  apply (Permutation_Forall (Permutation_sym (reorder_perm data p Hperm))). exact Hd.
Qed.

(** The driver names are read under labels that the normalizer renames.
    On a table with the labels of the normalizer, as every parser returns
    it, the driver of every position change is the single blank between two
    empty names, and the driver of every consistency record is that blank
    followed by the text of the [SECONDNAME] cell of the row that gave the
    record: the first name is lost, since [FIRSTNAME] has become
    [DRIVER_FIRST]. *)
Theorem driver_names_after_normalization (t : DataFrame) :
  frame_ok t = true ->
  from_normalizer t ->
  (forall grid out, get_position_changes t grid = Ok out ->
     Forall (fun c => Change.driver c = " ") out) /\
  (forall out, calculate_consistency t = Ok out ->
     Forall (fun c => exists ir,
               In ir (iterrows t) /\
               consistency_of (snd ir) = Some c /\
               Consistency.driver c =
                 (" " ++ py_str (get (snd ir) "SECONDNAME" (VStr "")))%string)
            out).
Proof.
  intros _ Hn. split.
  - intros grid out Hout.
    apply (Permutation_Forall (Permutation_sym (changes_result t grid out Hout))).
    apply keep_forall_in. intros [i row] c Hin. cbn [snd].
    destruct (in_iterrows _ _ _ Hin) as (r & _ & ->).
    unfold change_of.
    destruct (lookup grid _); [|discriminate].
    destruct (lookup "POSITION" _); [|discriminate].
    destruct (lookup "NUMBER" _); [|discriminate].
    destruct (py_int v); [|discriminate]. destruct (py_int v0); [|discriminate].
    intros [= <-]. cbn [Change.driver]. unfold get.
    rewrite (lookup_absent "DRIVER_FIRSTNAME" t r), (lookup_absent "DRIVER_SECONDNAME" t r);
      [reflexivity| |];
      (apply renamed_label_absent; [exact Hn | vm_compute; discriminate]).
  - intros out Hout. apply consistency_result in Hout.
    apply (Forall_impl _ (P := fun c => exists ir, In ir (iterrows t) /\
                                         consistency_of (snd ir) = Some c)); [|exact Hout].
    intros c ([i row] & Hin & Hc). exists (i, row).
    split; [exact Hin|]. split; [exact Hc|]. cbn [snd] in *.
    destruct (in_iterrows _ _ _ Hin) as (r & _ & ->).
    unfold consistency_of in Hc.
    destruct (3 <=? _)%nat; [|discriminate].
    destruct (lookup "NUMBER" _); [|discriminate].
    destruct (py_min _); [|discriminate].
    injection Hc as <-. cbn [Consistency.driver]. unfold get at 1.
    rewrite (lookup_absent "FIRSTNAME" t r); [reflexivity|].
    apply renamed_label_absent; [exact Hn | vm_compute; discriminate].
Qed.

End NameProperties.

Lemma driver_names_after_normalization_witness :
  let file :=
    {| columns := ["NUMBER"; "FIRSTNAME"; "SECONDNAME"; "BESTLAP_1"; "BESTLAP_2"; "BESTLAP_3"];
       rows := [ [VInt 7; VStr "Ann"; VStr "Smith";
                  VStr "1:22.100"; VStr "1:22.300"; VStr "1:22.200"] ] |} in
  let L := Model.library [] in
  map Consistency.driver
      (match RaceAnalyzer.calculate_consistency (CSVParser.normalized_frame file) with
       | Ok out => out
       | Raise _ => []
       end) = [" Smith"] /\
  Forall (fun c => exists ir,
            In ir (iterrows (CSVParser.normalized_frame file)) /\
            consistency_of (snd ir) = Some c /\
            Consistency.driver c =
              (" " ++ py_str (get (snd ir) "SECONDNAME" (VStr "")))%string)
         (match RaceAnalyzer.calculate_consistency (CSVParser.normalized_frame file) with
          | Ok out => out
          | Raise _ => []
          end).
Proof.
  intros file L0. split; [vm_compute; reflexivity|].
  destruct (RaceAnalyzer.calculate_consistency (CSVParser.normalized_frame file))
    as [out|e] eqn:E; [|constructor].
  refine (proj2 (@driver_names_after_normalization L0 (CSVParser.normalized_frame file)
                   eq_refl _) out E).
  right. now exists file.
Defined.

(* ===================================================================== *)
(** * csv_parser.py: the files of a session *)
(* ===================================================================== *)

(** What [get_all_race_files] takes from [pathlib]. A path is kept as the
    text that [str] gives for it.
    - [joinpath a b]: [Path(a) / b];
    - [path_exists p]: [p.exists()];
    - [iterdir p]: the entries of [p] in the order of the system; it raises
      for a path that is no directory;
    - [is_dir p] and [path_name p]: [p.is_dir()] and [p.name];
    - [glob_csv p]: [p.glob('*.csv')] in the order of the system. *)
Class FileSystem : Type := {
  joinpath : string -> string -> string;
  path_exists : string -> bool;
  iterdir : string -> res (list string);
  is_dir : string -> bool;
  path_name : string -> string;
  glob_csv : string -> list string
}.

Module SessionFiles.

Import CSVParser.

(** [c.lower()] for one character. *)
Definition lower_char (c : ascii) : ascii :=
  if Text.in_range 65 90 c
     || (Text.in_range 192 222 c && negb (Text.code c =? 215)%N)
  then ascii_of_N (Text.code c + 32) else c.

(** [s.lower()] *)
Fixpoint lower (s : string) : string :=
  match s with
  | String c r => String (lower_char c) (lower r)
  | EmptyString => EmptyString
  end.

(** [p in s] on [str] *)
Fixpoint has_substring (p s : string) : bool :=
  match s with
  | String _ r => Text.startswith p s || has_substring p r
  | EmptyString => Text.startswith p s
  end.

Definition circuit_map : dict :=
  [ ("barber", "barber-motorsports-park/barber");
    ("cota", "circuit-of-the-americas/COTA");
    ("road-america", "road-america/Road America");
    ("sebring", "sebring/Sebring");
    ("sonoma", "sonoma/Sonoma");
    ("vir", "virginia-international-raceway/VIR") ].

(** The [if]/[elif] chain on the lower-cased file name: the key under
    which the file is entered, if any. *)
Definition classify (file_name : string) : option string :=
  if has_substring "result" file_name || has_substring "classification" file_name
  then Some "results"
  else if has_substring "weather" file_name then Some "weather"
  else if has_substring "lap" file_name && negb (has_substring "best" file_name)
  then Some "laps"
  else if has_substring "best" file_name && has_substring "lap" file_name
  then Some "best_laps"
  else None.

(** [d[k] = v] on the dictionary of tables. *)
Fixpoint setitem (k : string) (v : DataFrame) (d : list (string * DataFrame))
    : list (string * DataFrame) :=
  match d with
  | [] => [(k, v)]
  | (k', v') :: r => if String.eqb k k' then (k, v) :: r else (k', v') :: setitem k v r
  end.

Section Session.

Context {L : Library} {F : FileSystem}.

Variable base_path : string.

(** The loop over [season_path.iterdir()]: the first directory whose name
    is the session name, letter case apart. *)
Definition find_session (session : string) (folders : list string) : option string :=
  find (fun folder => is_dir folder && String.eqb (lower (path_name folder)) (lower session))
       folders.

(** The loop over [session_path.glob('*.csv')]. *)
Definition collect (csv_files : list string) : dict :=
  fold_left
    (fun files file =>
       match classify (lower (path_name file)) with
       | Some k => dict_set k file files
       | None => files
       end)
    csv_files [].

Definition get_all_race_files (circuit season session : string) : res dict :=
  let circuit_relative :=
    match dict_get (lower circuit) circuit_map with
    | Some r => r
    | None => circuit
    end in
  let circuit_path := joinpath base_path circuit_relative in
  let season_path := joinpath circuit_path season in
  if negb (path_exists season_path) then Ok []
  else
    (folders <- iterdir season_path ;;
     match find_session session folders with
     | None => Ok []
     | Some session_path =>
         if path_exists session_path then Ok (collect (glob_csv session_path))
         else Ok []
     end)%res.

(** [if k in files: data[k] = parse(files[k])], with the default delimiter. *)
Definition load_one (parse : string -> string -> res DataFrame) (k : string)
    (files : dict) (data : list (string * DataFrame)) : res (list (string * DataFrame)) :=
  match dict_get k files with
  | Some path => (t <- parse path ";" ;; Ok (setitem k t data))%res
  | None => Ok data
  end.

Definition load_race_data (circuit season session : string)
    : res (list (string * DataFrame)) :=
  (files <- get_all_race_files circuit season session ;;
   data <- load_one parse_race_results "results" files [] ;;
   data <- load_one parse_weather_data "weather" files data ;;
   data <- load_one parse_lap_times "laps" files data ;;
   load_one parse_best_laps "best_laps" files data)%res.

End Session.

End SessionFiles.

(** A directory tree to run the session functions on. *)
Module ModelFiles.

Definition last_part (p : string) : string :=
  last (Text.split "/" p) EmptyString.

Definition starts (prefix p : string) : bool := Text.startswith (prefix ++ "/") p.

(** [dirs] and [files] list the directories and the files by their paths. *)
Definition file_system (dirs files : list string) : FileSystem :=
  {| joinpath := fun a b => (a ++ "/" ++ b)%string;
     path_exists := fun p => existsb (String.eqb p) (dirs ++ files);
     iterdir := fun p =>
       if existsb (String.eqb p) dirs
       then Ok (filter (fun q => starts p q
                                 && negb (Text.contains "/"
                                            (substring (String.length p + 1)
                                                       (String.length q) q)))
                       (dirs ++ files))
       else Raise OSError;
     is_dir := fun p => existsb (String.eqb p) dirs;
     path_name := last_part;
     glob_csv := fun p =>
       filter (fun q => starts p q
                        && negb (Text.contains "/"
                                   (substring (String.length p + 1) (String.length q) q))
                        && String.eqb ".csv" (substring (String.length q - 4) 4 q))
              files |}.

End ModelFiles.

(** ** The session functions *)

Section SessionProperties.

Import CSVParser NormalizerFacts RaceAnalyzer SessionFiles.

Context {L : Library} {F : FileSystem}.

Variable base_path : string.

(** The key under which a path is entered. *)
Definition kind_of (file : string) : option string :=
  classify (lower (path_name file)).

Definition is_kind (k : string) (file : string) : bool :=
  match kind_of file with
  | Some k' => String.eqb k k'
  | None => false
  end.

(** The last path of kind [k] in a list. *)
Definition last_of (k : string) (csv_files : list string) : option string :=
  hd_error (rev (filter (is_kind k) csv_files)).

Definition kinds : list string := ["results"; "weather"; "laps"; "best_laps"].

Lemma classify_kinds (file_name k : string) : classify file_name = Some k -> In k kinds.
Proof.
  unfold classify, kinds.
  destruct (_ || _); [intros [= <-]; simpl; tauto|].
  destruct (has_substring "weather" _); [intros [= <-]; simpl; tauto|].
  destruct (_ && _); [intros [= <-]; simpl; tauto|].
  destruct (_ && _); [intros [= <-]; simpl; tauto|discriminate].
Qed.

Lemma collect_get (csv_files : list string) (files : dict) (k : string) :
  dict_get k
    (fold_left
       (fun files file =>
          match classify (lower (path_name file)) with
          | Some k => dict_set k file files
          | None => files
          end)
       csv_files files) =
  match hd_error (rev (filter (is_kind k) csv_files)) with
  | Some file => Some file
  | None => dict_get k files
  end.
Proof.
  revert files. induction csv_files as [|f r IH]; intros files; [reflexivity|].
  cbn [fold_left filter]. rewrite IH. unfold is_kind at 2, kind_of.
  destruct (classify (lower (path_name f))) as [k'|].
  - rewrite dict_get_set. destruct (String.eqb k k'); [|reflexivity].
    cbn [rev]. destruct (rev (filter (is_kind k) r)); reflexivity.
  - reflexivity.
Qed.

Lemma last_of_in (k file : string) (csv_files : list string) :
  last_of k csv_files = Some file -> In file csv_files /\ kind_of file = Some k.
Proof.
  unfold last_of. intros H.
  assert (Hin : In file (filter (is_kind k) csv_files)).
  { apply in_rev. destruct (rev (filter (is_kind k) csv_files)); [discriminate|].
    injection H as ->. now left. }
  apply filter_In in Hin as [Hin Hk]. split; [exact Hin|].
  unfold is_kind in Hk. destruct (kind_of file) as [k'|]; [|discriminate].
  apply String.eqb_eq in Hk. now subst.
Qed.

(** Every entry of the mapping that [get_all_race_files] returns has one of
    the four keys, and its path is a [.csv] file of a directory whose name is
    the session name up to letter case: of the files of that directory whose
    lower-cased name falls under the key, the one that the directory lists
    last. *)
Theorem get_all_race_files_entries (circuit season session : string) (files : dict)
    (k path : string) :
  get_all_race_files base_path circuit season session = Ok files ->
  dict_get k files = Some path ->
  In k kinds /\
  kind_of path = Some k /\
  exists folder,
    is_dir folder = true /\
    lower (path_name folder) = lower session /\
    In path (glob_csv folder) /\
    last_of k (glob_csv folder) = Some path.
Proof.
  revert files. unfold get_all_race_files.
  destruct (negb (path_exists _)); [intros files [= <-]; discriminate|].
  destruct (iterdir _) as [folders|e]; cbn [bind]; [|discriminate].
  destruct (find_session session folders) as [folder|] eqn:Ef;
    [|intros files [= <-]; discriminate].
  destruct (path_exists folder); [|intros files [= <-]; discriminate].
  intros files [= <-]. unfold collect. rewrite collect_get. cbn [dict_get].
  fold (last_of k (glob_csv folder)).
  destruct (last_of k (glob_csv folder)) as [file|] eqn:El; [|discriminate].
  intros [= ->]. destruct (last_of_in _ _ _ El) as (Hin & Hk).
  split; [exact (classify_kinds _ _ Hk)|]. split; [exact Hk|].
  exists folder. unfold find_session in Ef. apply find_some in Ef as (_ & Ef).
  apply andb_true_iff in Ef as (Hd & Hn). apply String.eqb_eq in Hn.
  repeat split; assumption.
Qed.

Lemma table_setitem (k k' : string) (v : DataFrame) (d : list (string * DataFrame)) :
  table k (setitem k' v d) = if String.eqb k k' then Some v else table k d.
Proof.
  induction d as [|[k0 v0] r IH]; cbn [setitem table]; [reflexivity|].
  destruct (String.eqb_spec k' k0) as [->|Hne]; cbn [table].
  - now destruct (String.eqb k k0).
  - rewrite IH. destruct (String.eqb_spec k k0) as [->|_]; [|reflexivity].
    destruct (String.eqb_spec k0 k'); [congruence|reflexivity].
Qed.

Lemma keys_setitem (k : string) (v : DataFrame) (d : list (string * DataFrame)) :
  table k d = None -> map fst (setitem k v d) = map fst d ++ [k].
Proof.
  induction d as [|[k0 v0] r IH]; cbn [setitem table map fst app]; [reflexivity|].
  rewrite (String.eqb_sym k k0) in *. destruct (String.eqb k0 k) eqn:E.
  - discriminate.
  - rewrite String.eqb_sym in E. intros H. cbn [map fst]. now rewrite IH.
Qed.

(** The table that one step of [load_race_data] enters under [k]. *)
Definition loaded (parse : string -> string -> res DataFrame) (k : string) (files : dict)
    (t : DataFrame) : Prop :=
  exists path, dict_get k files = Some path /\ parse path ";" = Ok t.

Definition listed (files : dict) (k : string) : bool :=
  match dict_get k files with Some _ => true | None => false end.

Lemma load_one_spec (parse : string -> string -> res DataFrame) (k : string)
    (files : dict) (data : list (string * DataFrame)) :
  safe_entry_point parse -> table k data = None ->
  exists data',
    load_one parse k files data = Ok data' /\
    map fst data' = map fst data ++ (if listed files k then [k] else []) /\
    (forall t, table k data' = Some t <-> loaded parse k files t) /\
    (forall k', k' <> k -> table k' data' = table k' data).
Proof.
  intros Hsafe Hnew. unfold load_one, loaded, listed.
  destruct (dict_get k files) as [path|].
  - destruct (proj1 (Hsafe path ";")) as (t & Ht). rewrite Ht. cbn [bind].
    exists (setitem k t data). split; [reflexivity|].
    split; [now apply keys_setitem|]. split.
    + intros u. rewrite table_setitem, String.eqb_refl. split.
      * intros [= <-]. eauto.
      * intros (p & [= <-] & Hp). congruence.
    + intros k' Hne. rewrite table_setitem.
      destruct (String.eqb_spec k' k); [contradiction|reflexivity].
  - exists data. split; [reflexivity|]. split; [now rewrite app_nil_r|]. split.
    + intros u. rewrite Hnew. split; [discriminate|]. intros (p & Hp & _). discriminate.
    + reflexivity.
Qed.

(** When the files of the session can be listed, [load_race_data] returns:
    its result holds one table for each kind of file that was found, under
    the keys [results], [weather], [laps], [best_laps] in this order whatever
    the order of the files, and the table under a key is what the parser of
    that kind returns for the file found, read with the delimiter [;]. *)
Theorem load_race_data_spec (circuit season session : string) (files : dict) :
  get_all_race_files base_path circuit season session = Ok files ->
  exists data,
    load_race_data base_path circuit season session = Ok data /\
    map fst data = filter (listed files) kinds /\
    (forall t, table "results" data = Some t <-> loaded parse_race_results "results" files t) /\
    (forall t, table "weather" data = Some t <-> loaded parse_weather_data "weather" files t) /\
    (forall t, table "laps" data = Some t <-> loaded parse_lap_times "laps" files t) /\
    (forall t, table "best_laps" data = Some t <-> loaded parse_best_laps "best_laps" files t).
Proof.
  intros Hf. unfold load_race_data. rewrite Hf. cbn [bind].
  destruct (load_one_spec parse_race_results "results" files [] parse_race_results_safe eq_refl)
    as (d1 & -> & K1 & T1 & O1). cbn [bind].
  destruct (load_one_spec parse_weather_data "weather" files d1 parse_weather_data_safe)
    as (d2 & -> & K2 & T2 & O2); [now rewrite O1|]. cbn [bind].
  destruct (load_one_spec parse_lap_times "laps" files d2 parse_lap_times_safe)
    as (d3 & -> & K3 & T3 & O3); [rewrite O2, O1; [reflexivity|discriminate|discriminate]|].
  cbn [bind].
  destruct (load_one_spec parse_best_laps "best_laps" files d3 parse_best_laps_safe)
    as (d4 & -> & K4 & T4 & O4);
    [rewrite O3, O2, O1; [reflexivity|discriminate|discriminate|discriminate]|].
  exists d4. split; [reflexivity|]. split.
  - rewrite K4, K3, K2, K1. unfold kinds. cbn [filter map app].
    destruct (listed files "results"), (listed files "weather"),
             (listed files "laps"), (listed files "best_laps"); reflexivity.
  - split; [|split; [|split]].
    + intros t. rewrite O4, O3, O2 by discriminate. apply T1.
    + intros t. rewrite O4, O3 by discriminate. apply T2.
    + intros t. rewrite O4 by discriminate. apply T3.
    + exact T4.
Qed.

Lemma loaded_results_parsed (circuit season session : string)
    (data : list (string * DataFrame)) (t : DataFrame) :
  load_race_data base_path circuit season session = Ok data ->
  table "results" data = Some t ->
  exists path, parse_race_results path ";" = Ok t.
Proof.
  unfold load_race_data.
  destruct (get_all_race_files base_path circuit season session) as [files|e];
    cbn [bind]; [|discriminate].
  destruct (load_one_spec parse_race_results "results" files [] parse_race_results_safe eq_refl)
    as (d1 & -> & _ & T1 & O1). cbn [bind].
  destruct (load_one_spec parse_weather_data "weather" files d1 parse_weather_data_safe)
    as (d2 & -> & _ & _ & O2); [now rewrite O1|]. cbn [bind].
  destruct (load_one_spec parse_lap_times "laps" files d2 parse_lap_times_safe)
    as (d3 & -> & _ & _ & O3); [rewrite O2, O1; [reflexivity|discriminate|discriminate]|].
  cbn [bind].
  destruct (load_one_spec parse_best_laps "best_laps" files d3 parse_best_laps_safe)
    as (d4 & -> & _ & _ & O4);
    [rewrite O3, O2, O1; [reflexivity|discriminate|discriminate|discriminate]|].
  intros [= <-]. rewrite O4, O3, O2 by discriminate. intros Ht.
  destruct (proj1 (T1 t) Ht) as (path & _ & Hp). eauto.
Qed.

Lemma summary_without_first_name (race_data : list (string * DataFrame)) (s : Summary.t) :
  (forall t, table "results" race_data = Some t -> has_column "DRIVER_FIRSTNAME" t = false) ->
  generate_race_summary race_data = Ok s -> Summary.fastest_lap s = None.
Proof.
  intros H. unfold generate_race_summary.
  destruct (table "results" race_data) as [t|]; [|now intros [= <-]].
  destruct (empty t) eqn:Ee; [now intros [= <-]|].
  rewrite (analyze_without_first_name t (H t eq_refl)), Ee. cbn [orb].
  destruct (has_column "FL_TIME" t); cbn [negb bind]; [discriminate|].
  destruct (identify_key_battles t f5); cbn [bind]; [|discriminate].
  now intros [= <-].
Qed.

(** The path of the dashboard, for loaded results whose labels are
    pairwise distinct: a summary that [generate_race_summary] returns for
    the data that [load_race_data] has loaded never names a fastest lap, and
    when the results loaded are not empty and have an [FL_TIME] column the
    summary is not returned at all: [KeyError] is raised. *)
Theorem loaded_summary_has_no_fastest_lap (circuit season session : string)
    (data : list (string * DataFrame)) :
  load_race_data base_path circuit season session = Ok data ->
  (forall t, table "results" data = Some t -> frame_ok t = true) ->
  (forall s, generate_race_summary data = Ok s -> Summary.fastest_lap s = None) /\
  (forall t, table "results" data = Some t -> empty t = false ->
     has_column "FL_TIME" t = true -> generate_race_summary data = Raise KeyError).
Proof.
  intros Hl _.
  assert (Hno : forall t, table "results" data = Some t ->
                          has_column "DRIVER_FIRSTNAME" t = false).
  { intros t Ht.
    destruct (loaded_results_parsed _ _ _ data t Hl Ht) as (path & Hp).
    exact (no_first_name t (parsed_labels _ _ _ Hp)). }
  split.
  - intros s. now apply summary_without_first_name.
  - intros t Ht He Hfl. unfold generate_race_summary. rewrite Ht, He.
    rewrite (analyze_without_first_name t (Hno t Ht)), He, Hfl. reflexivity.
Qed.

End SessionProperties.

Definition sample_dirs : list string :=
  [ "data"; "data/sebring"; "data/sebring/Sebring";
    "data/sebring/Sebring/2025 season";
    "data/sebring/Sebring/2025 season/Race 1" ].

Definition sample_files : list string :=
  [ "data/sebring/Sebring/2025 season/Race 1/03_Results.csv";
    "data/sebring/Sebring/2025 season/Race 1/26_Weather.csv";
    "data/sebring/Sebring/2025 season/Race 1/99_Best 10 Laps.csv";
    "data/sebring/Sebring/2025 season/Race 1/05_Results by Class.csv";
    "data/sebring/Sebring/2025 season/Race 1/notes.txt" ].

Definition sample_mapping : CSVParser.dict :=
  [ ("results", "data/sebring/Sebring/2025 season/Race 1/05_Results by Class.csv");
    ("weather", "data/sebring/Sebring/2025 season/Race 1/26_Weather.csv");
    ("best_laps", "data/sebring/Sebring/2025 season/Race 1/99_Best 10 Laps.csv") ].

Definition sample_tables : list (string * DataFrame) :=
  [ ("data/sebring/Sebring/2025 season/Race 1/05_Results by Class.csv",
     {| columns := ["POS"; "NUMBER"; "DRIVER"; "GAP_PREVIOUS"];
        rows := [ [VStr "1"; VStr "7"; VStr "A. Smith"; VStr "-"];
                  [VStr "2"; VStr "9"; VStr "B. Jones"; VStr "+1.234"] ] |});
    ("data/sebring/Sebring/2025 season/Race 1/26_Weather.csv",
     {| columns := ["TIME_UTC_SECONDS"; "AIR_TEMP"];
        rows := [ [VStr "1700000000"; VStr "21.5"] ] |}) ].

Lemma get_all_race_files_entries_witness :
  let F := ModelFiles.file_system sample_dirs sample_files in
  let path := "data/sebring/Sebring/2025 season/Race 1/05_Results by Class.csv" in
  SessionFiles.get_all_race_files "data" "Sebring" "2025 season" "race 1" = Ok sample_mapping /\
  In "results" kinds /\
  kind_of path = Some "results" /\
  exists folder,
    is_dir folder = true /\
    SessionFiles.lower (path_name folder) = SessionFiles.lower "race 1" /\
    In path (glob_csv folder) /\
    last_of "results" (glob_csv folder) = Some path.
Proof.
  intros F0 path. split; [vm_compute; reflexivity|].
  apply (@get_all_race_files_entries F0 "data" "Sebring" "2025 season" "race 1"
           sample_mapping "results" path); vm_compute; reflexivity.
Defined.

Lemma load_race_data_spec_witness :
  let L := Model.library sample_tables in
  let F := ModelFiles.file_system sample_dirs sample_files in
  exists data,
    SessionFiles.load_race_data "data" "Sebring" "2025 season" "race 1" = Ok data /\
    map fst data = ["results"; "weather"; "best_laps"] /\
    (exists t, RaceAnalyzer.table "best_laps" data = Some t /\ t = empty_frame).
Proof.
  intros L0 F0.
  assert (Hf : SessionFiles.get_all_race_files "data" "Sebring" "2025 season" "race 1"
               = Ok sample_mapping) by (vm_compute; reflexivity).
  destruct (@load_race_data_spec L0 F0 "data" "Sebring" "2025 season" "race 1"
              sample_mapping Hf) as (data & Hd & Hk & _ & _ & _ & Hb).
  exists data. split; [exact Hd|]. split; [exact Hk|].
  exists empty_frame. split; [|reflexivity]. apply Hb.
  exists "data/sebring/Sebring/2025 season/Race 1/99_Best 10 Laps.csv".
  split; vm_compute; reflexivity.
Defined.

Lemma loaded_summary_has_no_fastest_lap_witness :
  let L := Model.library sample_tables in
  let F := ModelFiles.file_system sample_dirs sample_files in
  exists data s,
    SessionFiles.load_race_data "data" "Sebring" "2025 season" "race 1" = Ok data /\
    RaceAnalyzer.generate_race_summary data = Ok s /\
    Summary.total_finishers s = 2%Z /\
    Summary.fastest_lap s = None.
Proof.
  intros L0 F0.
  destruct (SessionFiles.load_race_data "data" "Sebring" "2025 season" "race 1")
    as [data|e] eqn:E; [|vm_compute in E; discriminate].
  assert (K : match SessionFiles.load_race_data "data" "Sebring" "2025 season" "race 1" with
              | Ok d =>
                  match RaceAnalyzer.table "results" d, RaceAnalyzer.generate_race_summary d with
                  | Some t, Ok s => frame_ok t && (Summary.total_finishers s =? 2)%Z
                  | _, _ => false
                  end
              | Raise _ => false
              end = true) by (vm_compute; reflexivity).
  rewrite E in K.
  destruct (RaceAnalyzer.table "results" data) as [t|] eqn:Et; [|discriminate].
  destruct (RaceAnalyzer.generate_race_summary data) as [s|e] eqn:Es; [|discriminate].
  apply andb_true_iff in K as [Kf Kn]. apply Z.eqb_eq in Kn.
  exists data, s. split; [reflexivity|]. split; [exact Es|]. split; [exact Kn|].
  refine (proj1 (@loaded_summary_has_no_fastest_lap L0 F0 "data" "Sebring" "2025 season"
                   "race 1" data E _) s Es).
  intros t' Ht'. rewrite Et in Ht'. injection Ht' as <-. exact Kf.
Defined.
